(** * Level progression of Bizarre Underground

    A shallow embedding of [src/systems/LevelManager.ts]: the level
    configuration curves ([getLevelConfig] and its helpers), the level state
    machine ([nextLevel], [resetToStart], [setCurrentLevel],
    [isLevelComplete]) and the furthest-level record kept in [localStorage].

    Conventions of the embedding.
    - A JavaScript number that the code only ever uses as an integer (level
      numbers, floor numbers, floor counts, tile widths) is a [Z]: the
      integer the double holds.  Where the result of an operation on such
      numbers need not be a double again ([currentLevel++], [parseInt]) it
      is rounded as the language rounds it ([roundToDouble],
      [numberValue]); an integer that is no double stands for no value of
      the program.
    - A string is the sequence of its UTF-16 code units; a character of a
      [string] here is a code unit below 256, so the strings of the model
      are those of Latin-1 text.
    - Where the code leaves the integers (the progress fractions of
      [calculateFloorCount]) the arithmetic is done in IEEE 754 binary64,
      with the operations of [SpecFloat].
    - A number that may be [NaN] or infinite (the result of [parseInt]) is
      a [number].
    - Code that can throw returns a [completion]; [try]/[catch] is
      [tryCatch].
    - [localStorage] is a finite map from keys to strings together with two
      flags saying whether reading and writing throw.

    Beside the level manager the file embeds the legacy spawn rates, and,
    from [src/utils/Web3Utils.ts], the address formatting, the score tables
    (over the values [JSON.parse] returns) and the address bookkeeping of
    the wallet manager, and the state of the beetle enemy. *)

From Stdlib Require Import ZArith QArith Lqa Lia Bool List Ascii String.
From Stdlib Require Import Floats.SpecFloat.
From Stdlib Require Import Decimal DecimalString DecimalPos DecimalZ.
From stdpp Require Import base option gmap strings list fin_maps sorting.

Import ListNotations.
#[local] Open Scope string_scope.
#[local] Open Scope Z_scope.

(** ** IEEE 754 binary64 arithmetic *)

Module Float64.

Definition prec : Z := 53.
Definition emax : Z := 1024.

(** The double nearest to an integer (exact below 2^53). *)
Definition of_Z (z : Z) : spec_float := binary_normalize prec emax z 0 false.

Definition add : spec_float -> spec_float -> spec_float := SFadd prec emax.
Definition sub : spec_float -> spec_float -> spec_float := SFsub prec emax.
Definition mul : spec_float -> spec_float -> spec_float := SFmul prec emax.
Definition div : spec_float -> spec_float -> spec_float := SFdiv prec emax.

(** The integer [(-1)^s * m], the signed mantissa of a finite double. *)
Definition signed (s : bool) (m : positive) : Z :=
  if s then Z.neg m else Z.pos m.

(** [Math.floor]: the largest integer-valued double not above [x]; zeros,
    infinities and NaN are returned as they are. *)
Definition floor (x : spec_float) : spec_float :=
  match x with
  | S754_finite s m (Z.neg p) =>
      let q := Z.shiftr (signed s m) (Z.pos p) in
      if (q =? 0) then S754_zero s else of_Z q
  | _ => x
  end.

(** Reading back a double that holds an integer.  A double that holds no
    integer reads as its floor (a fraction) or as [0] (an infinity, NaN);
    [calculateFloorCount] never produces one from an integer below 2^53. *)
Definition to_Z (x : spec_float) : Z :=
  match x with
  | S754_finite s m (Z.neg p) => Z.shiftr (signed s m) (Z.pos p)
  | S754_finite s m e => Z.shiftl (signed s m) e
  | _ => 0
  end.

End Float64.

(** ** JavaScript values used by the level manager *)

(** The result of [parseInt]: [NaN], an integer or an infinity.  (The sign
    of a zero is not kept: no comparison of the code can see it.) *)
Inductive number : Type :=
| NaN : number
| Num : Z -> number
| Infinity (negative : bool) : number.

(** [a > b] on numbers, for an integer [a]: false when [b] is [NaN]. *)
Definition gt_number (a : Z) (b : number) : bool :=
  match b with
  | NaN => false
  | Num z => z <? a
  | Infinity negative => negative
  end.

(** [-x]. *)
Definition negate (x : number) : number :=
  match x with
  | NaN => NaN
  | Num z => Num (- z)
  | Infinity negative => Infinity (negb negative)
  end.

(** The double nearest to an integer, ties going to the even mantissa
    (the rounding of IEEE 754 binary64, which every arithmetic operation of
    the language applies to its exact result).  Below 2^53 in magnitude
    every integer is a double; from there on a double is a mantissa [m] of
    53 bits times [2^e], and [e] is the position of the leading bit of the
    integer less 52.  The overflow to an infinity is left to
    [numberValue]. *)
Definition roundToDouble (z : Z) : Z :=
  let a := Z.abs z in
  let e := Z.max 0 (Z.log2 a - 52) in
  let q := a / 2 ^ e in
  let r := a mod 2 ^ e in
  let m := if (2 ^ e <? 2 * r) || ((2 * r =? 2 ^ e) && Z.odd q)
           then q + 1 else q in
  Z.sgn z * (m * 2 ^ e).

(** The Number value for an integer: the nearest double, or an infinity
    when that rounding reaches 2^1024. *)
Definition numberValue (z : Z) : number :=
  let d := roundToDouble z in
  if 2 ^ 1024 <=? Z.abs d then Infinity (z <? 0) else Num d.

(** The same rounding done by [binary_normalize] of [SpecFloat]; the two
    are compared on sample integers below. *)
Definition numberValueSpecFloat (z : Z) : number :=
  match Float64.of_Z z with
  | S754_infinity negative => Infinity negative
  | S754_nan => NaN
  | x => Num (Float64.to_Z x)
  end.

(** [x || d] for [x : string | null]: [null] and the empty string are
    falsy. *)
Definition orElse (x : option string) (d : string) : string :=
  match x with
  | None => d
  | Some EmptyString => d
  | Some s => s
  end.

(** White space skipped by [parseInt]: the code units below 256 of
    StrWhiteSpaceChar, which are TAB, LF, VT, FF, CR, SP and the no-break
    space U+00A0.  (The other white space of the language, U+1680,
    U+2000 to U+200A, U+2028, U+2029, U+202F, U+205F, U+3000 and U+FEFF, is
    made of code units that a [string] here does not hold.) *)
Definition isWhiteSpace (c : ascii) : bool :=
  let n := N_of_ascii c in
  ((9 <=? n)%N && (n <=? 13)%N) || (n =? 32)%N || (n =? 160)%N.

Fixpoint trimStart (s : string) : string :=
  match s with
  | String c s' => if isWhiteSpace c then trimStart s' else s
  | EmptyString => EmptyString
  end.

(** The value of a character as a digit: [0-9] then [a-z] or [A-Z]. *)
Definition digitValue (c : ascii) : option Z :=
  let n := Z.of_N (N_of_ascii c) in
  if (48 <=? n) && (n <=? 57) then Some (n - 48)
  else if (97 <=? n) && (n <=? 122) then Some (n - 87)
  else if (65 <=? n) && (n <=? 90) then Some (n - 55)
  else None.

(** The longest prefix of [s] made of digits of the radix, read as an
    integer; [acc] is [None] until a digit has been read. *)
Fixpoint parseDigits (radix : Z) (s : string) (acc : option Z) : option Z :=
  match s with
  | String c s' =>
      match digitValue c with
      | Some d =>
          if d <? radix
          then parseDigits radix s' (Some (default 0 acc * radix + d))
          else acc
      | None => acc
      end
  | EmptyString => acc
  end.

(** The sign prefix of [parseInt]: the sign and the rest of the string. *)
Definition stripSign (s : string) : Z * string :=
  match s with
  | String "-"%char s' => (-1, s')
  | String "+"%char s' => (1, s')
  | _ => (1, s)
  end.

(** With no radix argument, a [0x] or [0X] prefix selects radix 16 and is
    removed; otherwise the radix is 10. *)
Definition stripRadixPrefix (s : string) : Z * string :=
  match s with
  | String "0"%char (String "x"%char s') => (16, s')
  | String "0"%char (String "X"%char s') => (16, s')
  | _ => (10, s)
  end.

(** [parseInt(s)] with the radix left out: the Number value for the
    integer the digits denote.  (The language lets an implementation read
    the decimal digits after the twentieth as zeros; the engines read them
    all, as is done here.) *)
Definition parseInt (s : string) : number :=
  let '(sign, s1) := stripSign (trimStart s) in
  let '(radix, s2) := stripRadixPrefix s1 in
  match parseDigits radix s2 None with
  | None => NaN
  | Some m => numberValue (sign * m)
  end.

(** The decimal digits of an integer, with a leading [-] when negative. *)
Definition decimal (n : Z) : string := NilEmpty.string_of_int (Z.to_int n).

(** [zeros p] is [p] times the digit 0. *)
Fixpoint zeros (p : nat) : string :=
  match p with
  | O => EmptyString
  | S p' => String "0" (zeros p')
  end.

(** Whether the integer [c] denotes the double [x]: whether [x] is the
    Number value for [c]. *)
Definition denotes (c x : Z) : bool :=
  match numberValue c with
  | Num y => y =? x
  | _ => false
  end.

(** The digits [s] for which [s * 10^p] denotes [x], if there are any:
    the multiple of [10^p] next below [x] or the one next above, the one
    nearer to [x] when both do (the even one when they are as near). *)
Definition candidate (x p : Z) : option Z :=
  let lo := x / 10 ^ p in
  let hi := lo + 1 in
  let okLo := (0 <? lo) && denotes (lo * 10 ^ p) x in
  let okHi := denotes (hi * 10 ^ p) x in
  if okLo && okHi then
    let below := x - lo * 10 ^ p in
    let above := hi * 10 ^ p - x in
    if below <? above then Some lo
    else if above <? below then Some hi
    else Some (if Z.even lo then lo else hi)
  else if okLo then Some lo
  else if okHi then Some hi
  else None.

(** The shortest digits that denote a positive double [x]: the pair
    [(s, p)] with the largest exponent [p], from [p] down, for which some
    [s * 10^p] denotes [x]; with [p = 0] the digits are those of [x]
    itself. *)
Fixpoint shortestFrom (p : nat) (x : Z) : Z * Z :=
  match p with
  | O => (x, 0)
  | S p' =>
      match candidate x (Z.of_nat p) with
      | Some s => (s, Z.of_nat p)
      | None => shortestFrom p' x
      end
  end.

(** [x.toString()] for a double [x] of at least 2^53: the shortest digits
    that denote [x], followed by zeros when the value they denote is below
    10^21, and otherwise written with an exponent, the first digit in front
    of the point. *)
Definition toStringLarge (x : Z) : string :=
  let '(s, p) := shortestFrom (String.length (decimal x)) x in
  if s * 10 ^ p <? 10 ^ 21 then decimal s ++ zeros (Z.to_nat p)
  else
    let n := Z.of_nat (String.length (decimal s)) + p in
    match decimal s with
    | String d EmptyString => String d ("e+" ++ decimal (n - 1))
    | String d rest => String d ("." ++ rest ++ "e+" ++ decimal (n - 1))
    | EmptyString => EmptyString
    end.

(** [n.toString()] for a number [n] that holds an integer.  Below 2^53 in
    magnitude every integer is a double and the shortest digits that denote
    it are its own (zeros at the end apart), so that its decimal digits are
    printed.  From 2^53 on the digits are the shortest ones that still
    denote the double, and from 10^21 on the exponent notation is used:
    [(2**60).toString()] is [1152921504606847000] and [(1e21).toString()]
    is [1e+21]. *)
Definition toString (n : Z) : string :=
  if Z.abs n <? 2 ^ 53 then decimal n
  else
    match numberValue n with
    | NaN => "NaN"
    | Infinity negative => if negative then "-Infinity" else "Infinity"
    | Num x => if x <? 0 then "-" ++ toStringLarge (- x) else toStringLarge x
    end.

(** The integers [toString] prints with all their digits and [parseInt]
    reads back: the doubles below 10^21 in magnitude. *)
Definition printable (z : Z) : Prop :=
  numberValue z = Num z /\ Z.abs z < 10 ^ 21.

(** ** The enemy spawning system

    [LevelManager.ts] imports [EnemySpawningSystem] and [EnemyType] from
    [./EnemySpawningSystem] and calls three of its static methods.  The level
    manager is written against this interface.  [selectEnemies] draws from
    [Math.random]; the sequence of values [Math.random] returns is its first
    argument here. *)

Definition EnemyType : Type := string.

Class EnemySpawningSystem : Type := {
  getDifficultyBudget : Z -> Z -> Q;
  getSpawnWeights : Z -> gmap string Q;
  selectEnemies : (nat -> Q) -> Q -> Z -> list EnemyType
}.

Module SpawningModel.

Section Selection.

(** The cost of one enemy of a kind, counted against the budget. *)
Variable enemyCost : EnemyType -> Q.
(** The safety cap on the number of draws. *)
Variable maxAttempts : nat.
(** The spawn-weight table of each configuration level. *)
Variable spawnWeights : Z -> gmap string Q.

Definition affordable (remaining : Q) (kind : EnemyType) : bool :=
  Qle_bool (enemyCost kind) remaining.

Definition totalCost (enemies : list EnemyType) : Q :=
  fold_right (fun kind acc => (enemyCost kind + acc)%Q) 0%Q enemies.

Definition totalWeight (table : list (EnemyType * Q)) : Q :=
  fold_right (fun entry acc => (snd entry + acc)%Q) 0%Q table.

(** Modelled from the spec: one weighted draw, walking the table until the
    running weight passes [roll]. *)
Fixpoint pickByWeight (table : list (EnemyType * Q)) (roll : Q)
  : option EnemyType :=
  match table with
  | [] => None
  | (kind, w) :: rest =>
      if Qle_bool w roll then pickByWeight rest (roll - w)%Q else Some kind
  end.

(** Modelled from the spec: the weighted random choice of
    [EnemySpawningSystem] (its source file is not in the repository
    sources): a kind is drawn with probability proportional to its spawn
    weight, from a uniform draw [r] in [0, 1). *)
Definition weightedChoice (weights : gmap string Q) (r : Q)
  : option EnemyType :=
  let table := map_to_list weights in
  pickByWeight table (r * totalWeight table)%Q.

(** Modelled from the spec: the loop of [selectEnemies]: it repeatedly
    draws a kind by weight and accepts it if its cost does not exceed the
    remaining budget, until no kind of the table is affordable or the
    cap on draws is reached. *)
Fixpoint selectLoop (attemptsLeft attempt : nat) (random : nat -> Q)
    (weights : gmap string Q) (remaining : Q) : list EnemyType :=
  match attemptsLeft with
  | O => []
  | S attemptsLeft' =>
      if existsb (affordable remaining) (map_to_list weights).*1 then
        match weightedChoice weights (random attempt) with
        | Some kind =>
            if affordable remaining kind
            then kind :: selectLoop attemptsLeft' (S attempt) random weights
                           (remaining - enemyCost kind)%Q
            else selectLoop attemptsLeft' (S attempt) random weights
                   remaining
        | None =>
            selectLoop attemptsLeft' (S attempt) random weights remaining
        end
      else []
  end.

(** Modelled from the spec: [EnemySpawningSystem.selectEnemies(budget,
    configLevel)], whose source file is not in the repository sources: a
    budget-constrained selection under the spawn weights of
    [configLevel]. *)
Definition selectEnemies (random : nat -> Q) (budget : Q) (configLevel : Z)
  : list EnemyType :=
  selectLoop maxAttempts 0 random (spawnWeights configLevel) budget.

End Selection.

(** The spawning system assembled from a budget curve, the weight tables,
    the per-kind costs and the cap on draws. *)
Definition system (budget : Z -> Z -> Q) (spawnWeights : Z -> gmap string Q)
    (enemyCost : EnemyType -> Q) (maxAttempts : nat) : EnemySpawningSystem :=
  Build_EnemySpawningSystem budget spawnWeights
    (selectEnemies enemyCost maxAttempts spawnWeights).

End SpawningModel.

(** ** Exceptions and the state of a session *)

Inductive exception : Type :=
| SecurityError        (* storage access denied *)
| QuotaExceededError.  (* storage full *)

Inductive completion (A : Type) : Type :=
| Normal : A -> completion A
| Throw : exception -> completion A.
Arguments Normal {A} _.
Arguments Throw {A} _.

(** [localStorage]: the stored items, and whether reads and writes throw. *)
Record Storage : Type := {
  items : gmap string string;
  readable : bool;
  writable : bool
}.

(** The mutable state the level manager works on: its own field
    [currentLevel] and the browser's [localStorage]. *)
Record Session : Type := {
  currentLevel : Z;
  localStorage : Storage
}.

(** Computations that read and write the session and may throw; the session
    reached when an exception is thrown is kept. *)
Definition M (A : Type) : Type := Session -> completion A * Session.

Definition ret {A} (a : A) : M A := fun s => (Normal a, s).

Definition bind {A B} (m : M A) (k : A -> M B) : M B :=
  fun s =>
    match m s with
    | (Normal a, s') => k a s'
    | (Throw e, s') => (Throw e, s')
    end.

Notation "'let*' x ':=' m 'in' k" := (bind m (fun x => k))
  (at level 10, x name, m at level 100, k at level 200).

(** [try { body } catch (e) { handler e }]. *)
Definition tryCatch {A} (body : M A) (handler : exception -> M A) : M A :=
  fun s =>
    match body s with
    | (Normal a, s') => (Normal a, s')
    | (Throw e, s') => handler e s'
    end.

Definition getThisCurrentLevel : M Z :=
  fun s => (Normal (currentLevel s), s).

Definition setThisCurrentLevel (level : Z) : M unit :=
  fun s => (Normal tt, {| currentLevel := level; localStorage := localStorage s |}).

(** [localStorage.getItem(key)]. *)
Definition getItem (key : string) : M (option string) :=
  fun s =>
    if readable (localStorage s)
    then (Normal (items (localStorage s) !! key), s)
    else (Throw SecurityError, s).

(** [localStorage.setItem(key, value)]. *)
Definition setItem (key value : string) : M unit :=
  fun s =>
    let st := localStorage s in
    if writable st
    then (Normal tt,
          {| currentLevel := currentLevel s;
             localStorage := {| items := <[key := value]> (items st);
                                readable := readable st;
                                writable := writable st |} |})
    else (Throw QuotaExceededError, s).

(** ** The level manager *)

Record LevelConfig : Type := {
  levelNumber : Z;
  floorCount : Z;
  enemyTypes : list string;
  collectibleTypes : list string;
  worldWidth : Z; (* in tiles *)
  isEndless : bool;
  difficultyBudgetPerFloor : Q;
  enemySpawnWeights : gmap string Q
}.

Definition BEAST_MODE_LEVEL : Z := 51.
Definition MAX_PROGRESSION_LEVEL : Z := 50.

(** The key of the furthest level reached in [localStorage]. *)
Definition FURTHEST_LEVEL_KEY : string := "bizarreUnderground_furthestLevel".

(** The floor count of a level.  Past the comparisons on [levelNumber] every
    operation is the binary64 one of the code; the result, an integer, is
    read back at the end. *)
Definition calculateFloorCount (levelNumber : Z) : Z :=
  let n := Float64.of_Z levelNumber in
  let lit := Float64.of_Z in
  if BEAST_MODE_LEVEL <=? levelNumber then
    -1 (* infinite floors for BEAST MODE *)
  else if levelNumber <=? 10 then
    (* tutorial phase *)
    Float64.to_Z
      (Float64.add (lit 10) (Float64.floor (Float64.div n (lit 5))))
  else if levelNumber <=? 25 then
    (* skill building *)
    let progress := Float64.div (Float64.sub n (lit 10)) (lit 15) in
    Float64.to_Z
      (Float64.add (lit 13) (Float64.floor (Float64.mul progress (lit 5))))
  else if levelNumber <=? 40 then
    (* challenge ramp *)
    let progress := Float64.div (Float64.sub n (lit 25)) (lit 15) in
    Float64.to_Z
      (Float64.add (lit 19) (Float64.floor (Float64.mul progress (lit 6))))
  else
    (* master phase (41-50) *)
    let progress := Float64.div (Float64.sub n (lit 40)) (lit 10) in
    Float64.to_Z
      (Float64.add (lit 25) (Float64.floor (Float64.mul progress (lit 5)))).

Definition getEnemyTypes (levelNumber : Z) : list string :=
  ["blue"; "yellow"; "green"; "red"].

Definition getCollectibleTypes (levelNumber : Z) : list string :=
  if levelNumber <=? 2 then
    ["coin"; "treasureChest"; "invincibilityPendant"]
  else if levelNumber <=? 3 then
    ["coin"; "blueCoin"; "treasureChest"; "invincibilityPendant"]
  else if levelNumber <=? 6 then
    ["coin"; "blueCoin"; "diamond"; "freeLife"; "invincibilityPendant";
     "treasureChest"]
  else
    ["coin"; "blueCoin"; "diamond"; "freeLife"; "invincibilityPendant";
     "treasureChest"].

Definition getWorldWidth (levelNumber : Z) : Z :=
  if levelNumber <? 25 then 24
  else if levelNumber <? 50 then 32
  else 40.

Section LevelManager.

Context {spawning : EnemySpawningSystem}.

Definition getLevelConfig (levelNumber : Z) : LevelConfig :=
  let isBeastMode := BEAST_MODE_LEVEL <=? levelNumber in
  (* for BEAST MODE (51+), use level 50's difficulty configuration *)
  let configLevel := Z.min levelNumber MAX_PROGRESSION_LEVEL in
  let weights := getSpawnWeights configLevel in
  {| levelNumber := levelNumber;
     floorCount := calculateFloorCount levelNumber;
     enemyTypes := getEnemyTypes configLevel;
     collectibleTypes := getCollectibleTypes configLevel;
     worldWidth := getWorldWidth configLevel;
     isEndless := isBeastMode;
     difficultyBudgetPerFloor := getDifficultyBudget configLevel 1;
     enemySpawnWeights := weights |}.

Definition getEnemyTypesForFloor (random : nat -> Q)
    (levelNumber floorNumber : Z) : list EnemyType :=
  let configLevel := Z.min levelNumber MAX_PROGRESSION_LEVEL in
  let budget := getDifficultyBudget configLevel floorNumber in
  let selectedEnemies := selectEnemies random budget configLevel in
  selectedEnemies.

Definition isLevelComplete (currentFloor : Z) : M bool :=
  let* level := getThisCurrentLevel in
  let config := getLevelConfig level in
  if isEndless config then
    ret false (* BEAST MODE (51+) never completes *)
  else
    ret (floorCount config <=? currentFloor).

(** The body of [saveProgress] is one [try] block; the handler only writes
    a warning to the console. *)
Definition saveProgress : M unit :=
  tryCatch
    (let* stored := getItem FURTHEST_LEVEL_KEY in
     let furthestLevel := parseInt (orElse stored "1") in
     let* level := getThisCurrentLevel in
     if gt_number level furthestLevel
     then setItem FURTHEST_LEVEL_KEY (toString level)
     else ret tt)
    (fun e => ret tt).

(** [this.currentLevel++] stores the double nearest to the level plus
    one. *)
Definition nextLevel : M Z :=
  let* level := getThisCurrentLevel in
  let* _ := setThisCurrentLevel (roundToDouble (level + 1)) in
  let* _ := saveProgress in
  getThisCurrentLevel.

Definition resetToStart : M unit :=
  setThisCurrentLevel 1.

Definition getCurrentLevel : M Z :=
  getThisCurrentLevel.

Definition setCurrentLevel (level : Z) : M unit :=
  let* _ := setThisCurrentLevel level in
  saveProgress.

Definition getFurthestLevel : M number :=
  tryCatch
    (let* stored := getItem FURTHEST_LEVEL_KEY in
     ret (parseInt (orElse stored "1")))
    (fun e => ret (Num 1)).

Definition isBeastMode : M bool :=
  let* level := getThisCurrentLevel in
  ret (BEAST_MODE_LEVEL <=? level).

Definition getMaxProgressionLevel : M Z :=
  ret MAX_PROGRESSION_LEVEL.

(** The public operations of a level manager, and what a caller does with
    one of them: the session it leaves behind. *)
Inductive operation : Type :=
| OpGetLevelConfig (levelNumber : Z)
| OpGetEnemyTypesForFloor (random : nat -> Q) (levelNumber floorNumber : Z)
| OpIsLevelComplete (currentFloor : Z)
| OpNextLevel
| OpResetToStart
| OpGetCurrentLevel
| OpSetCurrentLevel (level : Z)
| OpGetFurthestLevel
| OpIsBeastMode
| OpGetMaxProgressionLevel.

Definition perform (op : operation) (s : Session) : Session :=
  match op with
  | OpGetLevelConfig _ => s
  | OpGetEnemyTypesForFloor _ _ _ => s
  | OpIsLevelComplete currentFloor => snd (isLevelComplete currentFloor s)
  | OpNextLevel => snd (nextLevel s)
  | OpResetToStart => snd (resetToStart s)
  | OpGetCurrentLevel => snd (getCurrentLevel s)
  | OpSetCurrentLevel level => snd (setCurrentLevel level s)
  | OpGetFurthestLevel => snd (getFurthestLevel s)
  | OpIsBeastMode => snd (isBeastMode s)
  | OpGetMaxProgressionLevel => snd (getMaxProgressionLevel s)
  end.

Definition performAll (ops : list operation) (s : Session) : Session :=
  fold_left (fun s op => perform op s) ops s.


End LevelManager.

(** The session of a freshly constructed level manager over a storage. *)
Definition newSession (storage : Storage) : Session :=
  {| currentLevel := 1; localStorage := storage |}.

(** The value under the furthest-level key as the code reads it back:
    [parseInt(localStorage.getItem(key) || '1')]. *)
Definition persistedFurthest (s : Session) : number :=
  parseInt (orElse (items (localStorage s) !! FURTHEST_LEVEL_KEY) "1").

(** ** A concrete spawning system

    A small instance of the interface, built from the selection model: it is
    used to run the level manager on concrete inputs. *)

Definition exampleBudget (configLevel floorNumber : Z) : Q :=
  (2 + inject_Z configLevel / 10 + inject_Z floorNumber / 20)%Q.

Definition exampleWeights (configLevel : Z) : gmap string Q :=
  {[ "blue" := 4%Q; "yellow" := 3%Q;
     "green" := inject_Z (1 + configLevel / 10);
     "red" := inject_Z (configLevel / 10) ]}.

Definition exampleCost (kind : EnemyType) : Q :=
  if String.eqb kind "blue" then 1%Q
  else if String.eqb kind "yellow" then (1 # 2)%Q
  else if String.eqb kind "green" then (5 # 2)%Q
  else 4%Q.

Definition exampleSpawning : EnemySpawningSystem :=
  SpawningModel.system exampleBudget exampleWeights exampleCost 50.


(** A fixed sequence of draws in [0, 1), standing for [Math.random]. *)
Definition exampleRandom (attempt : nat) : Q :=
  (Z.of_nat (attempt * 37 mod 100) # 100)%Q.

(** The floor count of the finite levels in exact integer arithmetic: what
    the binary64 computation of [calculateFloorCount] is meant to give. *)
Definition floorCountExact (levelNumber : Z) : Z :=
  if levelNumber <=? 10 then 10 + levelNumber / 5
  else if levelNumber <=? 25 then 13 + (levelNumber - 10) * 5 / 15
  else if levelNumber <=? 40 then 19 + (levelNumber - 25) * 6 / 15
  else 25 + (levelNumber - 40) * 5 / 10.

(** The phase of a finite level: tutorial, skill building, challenge ramp,
    master. *)
Inductive phase : Type := Tutorial | SkillBuilding | ChallengeRamp | Master.

Definition phaseOf (levelNumber : Z) : phase :=
  if levelNumber <=? 10 then Tutorial
  else if levelNumber <=? 25 then SkillBuilding
  else if levelNumber <=? 40 then ChallengeRamp
  else Master.

(** The documented range of floor counts of a phase. *)
Definition phaseRange (p : phase) : Z * Z :=
  match p with
  | Tutorial => (10, 12)
  | SkillBuilding => (13, 18)
  | ChallengeRamp => (19, 25)
  | Master => (25, 30)
  end.

(** A check of [count] consecutive integers from [lo]. *)
Fixpoint checkFrom (P : Z -> bool) (lo : Z) (count : nat) : bool :=
  match count with
  | O => true
  | S count' => P lo && checkFrom P (lo + 1) count'
  end.


(** The session after [setItem(key, currentLevel.toString())]. *)
Definition recordFurthest (s : Session) : Session :=
  {| currentLevel := currentLevel s;
     localStorage :=
       {| items := <[FURTHEST_LEVEL_KEY := toString (currentLevel s)]>
                     (items (localStorage s));
          readable := readable (localStorage s);
          writable := writable (localStorage s) |} |}.

(** The session [saveProgress] leaves: the record is written when the
    storage can be read, the current level exceeds the value read back, and
    the storage can be written. *)
Definition afterSave (s : Session) : Session :=
  if readable (localStorage s)
     && gt_number (currentLevel s) (persistedFurthest s)
     && writable (localStorage s)
  then recordFurthest s
  else s.

Definition withLevel (level : Z) (s : Session) : Session :=
  {| currentLevel := level; localStorage := localStorage s |}.

(** Storages used as examples: an empty one, one whose record was damaged,
    and one that cannot be read. *)
Definition emptyStorage : Storage :=
  {| items := ∅; readable := true; writable := true |}.

Definition corruptStorage : Storage :=
  {| items := {[ FURTHEST_LEVEL_KEY := "corrupt" ]};
     readable := true; writable := true |}.

Definition unreadableStorage : Storage :=
  {| items := {[ FURTHEST_LEVEL_KEY := "7" ]};
     readable := false; writable := false |}.

(** A working storage whose record is the given text. *)
Definition storageWithRecord (text : string) : Storage :=
  {| items := {[ FURTHEST_LEVEL_KEY := text ]};
     readable := true; writable := true |}.

(** Sample integers around the powers of two from 2^50 to 2^79 and from
    2^1018 to 2^1025, with the midpoints between neighbouring doubles. *)
Definition roundingSamples : list Z :=
  flat_map
    (fun k =>
       flat_map
         (fun d => [2 ^ k + d; - (2 ^ k + d); 2 ^ k + 2 ^ (k - 53) + d;
                    2 ^ k + 3 * 2 ^ (k - 53) + d])
         [-2; -1; 0; 1; 2; 3])
    (map Z.of_nat (seq 50 30 ++ seq 1018 8)%list).

Definition number_eqb (a b : number) : bool :=
  match a, b with
  | NaN, NaN => true
  | Num x, Num y => x =? y
  | Infinity s, Infinity t => Bool.eqb s t
  | _, _ => false
  end.

(** ** The legacy spawn rates of the level manager *)

(** The double a decimal literal with digits [m] and [k] decimals denotes:
    the double nearest to [m / 10^k] (the division of two exact doubles is
    correctly rounded). *)
Definition decimalLiteral (m k : Z) : spec_float :=
  Float64.div (Float64.of_Z m) (Float64.of_Z (10 ^ k)).

Definition baseRates : gmap string spec_float :=
  {[ "blue" := decimalLiteral 12 1;    (* 1.2 *)
     "yellow" := decimalLiteral 8 1;   (* 0.8 *)
     "green" := decimalLiteral 5 1;    (* 0.5 *)
     "red" := decimalLiteral 3 1 ]}.   (* 0.3 *)

(** [1 + (configLevel * 0.015)] for the capped level. *)
Definition difficultyMultiplier (levelNumber : Z) : spec_float :=
  let configLevel := Z.min levelNumber MAX_PROGRESSION_LEVEL in
  Float64.add (Float64.of_Z 1)
    (Float64.mul (Float64.of_Z configLevel) (decimalLiteral 15 3)).

(** [getEnemySpawnRates]: every available enemy gets its base rate times
    the multiplier; a kind missing from [baseRates] would read [undefined]
    and get [NaN]. *)
Definition getEnemySpawnRates (levelNumber : Z) : gmap string spec_float :=
  let configLevel := Z.min levelNumber MAX_PROGRESSION_LEVEL in
  let multiplier := difficultyMultiplier levelNumber in
  let availableEnemies := getEnemyTypes configLevel in
  fold_left
    (fun rates enemy =>
       <[enemy := Float64.mul (default S754_nan (baseRates !! enemy))
                    multiplier]> rates)
    availableEnemies ∅.

(** The rate of a kind at a level ([NaN] for a kind without a rate), and
    the comparison of all rates of two levels, for finite checks. *)
Definition rateAt (levelNumber : Z) (enemy : string) : spec_float :=
  default S754_nan (getEnemySpawnRates levelNumber !! enemy).

Definition ratesNotAbove (a b : Z) : bool :=
  forallb (fun enemy => SFleb (rateAt a enemy) (rateAt b enemy))
    (getEnemyTypes a).

(** The rates of a level lie between the base rates and 1.75 times the
    base rates. *)
Definition ratesWithinBounds (levelNumber : Z) : bool :=
  forallb
    (fun enemy =>
       let base := default S754_nan (baseRates !! enemy) in
       SFleb base (rateAt levelNumber enemy)
       && SFleb (rateAt levelNumber enemy)
            (Float64.mul base (decimalLiteral 175 2)))
    (getEnemyTypes levelNumber).

(** ** Address formatting ([Web3Manager.formatAddress])

    Strings are sequences of characters; an index counts characters (the
    UTF-16 code units of JavaScript, one per character for the ASCII text of
    an address). *)

(** An index argument of [slice] brought into [0 .. len]: a negative index
    counts from the end. *)
Definition clampIndex (len i : Z) : Z :=
  if i <? 0 then Z.max (len + i) 0 else Z.min i len.

(** [s.slice(start, finish)]; [finish] left out is the length. *)
Definition slice (s : string) (start : Z) (finish : option Z) : string :=
  let len := Z.of_nat (String.length s) in
  let from := clampIndex len start in
  let to := match finish with
            | None => len
            | Some e => clampIndex len e
            end in
  substring (Z.to_nat from) (Z.to_nat (Z.max (to - from) 0)) s.

Definition formatAddress (address : string) : string :=
  match address with
  | EmptyString => EmptyString
  | _ => slice address 0 (Some 6) +:+ "..." +:+ slice address (-4) None
  end.

(** ** The wallet manager ([src/utils/Web3Utils.ts])

    The parts of [Web3Manager] that work on [localStorage] and on the
    manager's own fields.  What the wallet libraries do is taken from
    outside: the state the AppKit reports, whether the ethers adapter
    delivers a provider and a signer, the clock ([Date.now()]) and the JSON
    codec.  An [async] method is run to its end without another event
    handler in between. *)

Module Web3.

Inductive failure : Type :=
| StorageFailure (e : exception)
| SyntaxError          (* thrown by [JSON.parse] *)
| TypeError            (* a call of no function, a spread of no iterable *)
| ProjectIdRequired.   (* Error('Project ID required for first initialization') *)

Inductive outcome (A : Type) : Type :=
| Returns : A -> outcome A
| Throws : failure -> outcome A.
Arguments Returns {A} _.
Arguments Throws {A} _.

(** *** Storage access

    A storage that cannot be read denies every access; one that cannot be
    written refuses [setItem]. *)

Definition storageGetItem (st : Storage) (key : string)
  : outcome (option string) :=
  if readable st then Returns (items st !! key)
  else Throws (StorageFailure SecurityError).

Definition storageSetItem (st : Storage) (key value : string)
  : outcome Storage :=
  if negb (readable st) then Throws (StorageFailure SecurityError)
  else if negb (writable st) then Throws (StorageFailure QuotaExceededError)
  else Returns {| items := <[key := value]> (items st);
                  readable := readable st;
                  writable := writable st |}.

Definition storageRemoveItem (st : Storage) (key : string) : outcome Storage :=
  if readable st
  then Returns {| items := delete key (items st);
                  readable := readable st;
                  writable := writable st |}
  else Throws (StorageFailure SecurityError).

(** *** JSON values

    What [JSON.parse] returns.  The numbers are those that hold integers,
    as everywhere in this file.  The fields of an object are its own
    properties in the order in which [for ... in] and [JSON.stringify]
    visit them (the array indices first, in ascending order, then the
    other keys in the order of their creation); no key occurs twice. *)

#[warnings="-register-all"]
Inductive json : Type :=
| JNull
| JBool (b : bool)
| JNumber (n : Z)
| JString (s : string)
| JArray (elements : list json)
| JObject (fields : list (string * json)).

(** [!!v]. *)
Definition truthyValue (v : json) : bool :=
  match v with
  | JNull => false
  | JBool b => b
  | JNumber n => negb (n =? 0)
  | JString s => negb (String.eqb s "")
  | JArray _ | JObject _ => true
  end.

(** The own property of an object under a key. *)
Fixpoint objectGet (o : list (string * json)) (key : string) : option json :=
  match o with
  | [] => None
  | (k, v) :: rest => if String.eqb k key then Some v else objectGet rest key
  end.

(** The property names of [Object.prototype], which every object that
    [JSON.parse] returns inherits: eleven methods and the accessor
    [__proto__]. *)
Definition objectPrototype : list string :=
  ["constructor"; "__defineGetter__"; "__defineSetter__"; "hasOwnProperty";
   "__lookupGetter__"; "__lookupSetter__"; "isPrototypeOf";
   "propertyIsEnumerable"; "toString"; "valueOf"; "__proto__";
   "toLocaleString"].

(** What [o[key]] finds on an object: an own property, a property of the
    prototype (a function, or the prototype itself under [__proto__]: a
    truthy value that is no array and has no method [push]), or nothing
    ([undefined]). *)
Inductive property : Type :=
| Own (v : json)
| Inherited
| Missing.

Definition getProperty (o : list (string * json)) (key : string) : property :=
  match objectGet o key with
  | Some v => Own v
  | None => if existsb (String.eqb key) objectPrototype then Inherited
            else Missing
  end.

(** The array index a key is, if it is one: the keys that are the decimal
    digits of an integer from 0 to 2^32 - 2. *)
Definition arrayIndex (key : string) : option Z :=
  match parseDigits 10 key None with
  | Some n =>
      if String.eqb (decimal n) key && (n <? 2 ^ 32 - 1) then Some n
      else None
  | None => None
  end.

(** A new property whose key is the array index [n] goes in front of the
    first property whose key is a larger index or no index. *)
Fixpoint insertIndexKey (n : Z) (key : string) (value : json)
    (o : list (string * json)) : list (string * json) :=
  match o with
  | [] => [(key, value)]
  | (k, v) :: rest =>
      match arrayIndex k with
      | Some m =>
          if m <? n then (k, v) :: insertIndexKey n key value rest
          else (key, value) :: (k, v) :: rest
      | None => (key, value) :: (k, v) :: rest
      end
  end.

Fixpoint replaceProperty (o : list (string * json)) (key : string)
    (value : json) : list (string * json) :=
  match o with
  | [] => []
  | (k, v) :: rest =>
      if String.eqb k key then (key, value) :: rest
      else (k, v) :: replaceProperty rest key value
  end.

(** [o[key] = value] on an object: an own property keeps its place, a new
    one goes among the array indices or, when its key is none, to the
    end. *)
Definition objectSet (o : list (string * json)) (key : string) (value : json)
  : list (string * json) :=
  match objectGet o key with
  | Some _ => replaceProperty o key value
  | None =>
      match arrayIndex key with
      | Some n => insertIndexKey n key value o
      | None => (o ++ [(key, value)])%list
      end
  end.

(** [l.slice(start, finish)] on an array. *)
Definition sliceArray {A} (l : list A) (start : Z) (finish : option Z)
  : list A :=
  let len := Z.of_nat (length l) in
  let from := clampIndex len start in
  let to := match finish with
            | None => len
            | Some e => clampIndex len e
            end in
  take (Z.to_nat (Z.max (to - from) 0)) (drop (Z.to_nat from) l).

(** *** Scores

    An entry of a score array is any value; the comparison of the sort
    reads its property [score].  [scoreOf] is that property when the entry
    is an object that has it as a number.  (An interface [ScoreData] has
    the fields [address], [score], [timestamp], [level], [enemies] and
    [gems].) *)

Definition scoreOf (entry : json) : option Z :=
  match entry with
  | JObject fields =>
      match objectGet fields "score" with
      | Some (JNumber n) => Some n
      | _ => None
      end
  | _ => None
  end.

Definition scored (entry : json) : bool :=
  match scoreOf entry with
  | Some _ => true
  | None => false
  end.

Definition score (entry : json) : Z := default 0 (scoreOf entry).

(** The stable arrangement by descending score.  [insertByScore x sorted]
    puts [x], which comes from before the elements of [sorted], in front of
    the first element whose score is not above its own. *)
Fixpoint insertByScore (x : json) (sorted : list json) : list json :=
  match sorted with
  | [] => [x]
  | y :: rest =>
      if score x <? score y then y :: insertByScore x rest
      else x :: y :: rest
  end.

Fixpoint sortByScore (l : list json) : list json :=
  match l with
  | [] => []
  | x :: rest => insertByScore x (sortByScore rest)
  end.

(** [l.sort((a, b) => b.score - a.score)].  The sort of the language is
    stable, and the sign of [b.score - a.score] is that of the comparison
    of the two numbers: when every entry has a number as its score the
    result is the stable arrangement by descending score.  An array of at
    most one entry is returned as it is, whatever the entry.  Otherwise
    the comparison function throws (on [null]) or gives [NaN] for some
    pairs, and the language leaves the order to the implementation: the
    result is not determined ([None]). *)
Definition sortEntries (l : list json) : option (list json) :=
  if forallb scored l || (length l <=? 1)%nat then Some (sortByScore l)
  else None.

(** *** The manager *)

(** A value that is a string, [null] or [undefined]. *)
Inductive maybeString : Type :=
| Undefined
| Null
| Str (s : string).

(** [!!v]. *)
Definition truthy (v : maybeString) : bool :=
  match v with
  | Str EmptyString => false
  | Str _ => true
  | _ => false
  end.

(** [a !== b]. *)
Definition strictlyDiffers (a b : maybeString) : bool :=
  match a, b with
  | Undefined, Undefined => false
  | Null, Null => false
  | Str x, Str y => negb (String.eqb x y)
  | _, _ => true
  end.

(** [v || null]. *)
Definition orNull (v : maybeString) : maybeString :=
  if truthy v then v else Null.

(** The key a value gives when it is used as a property name. *)
Definition propertyKey (v : maybeString) : string :=
  match v with
  | Undefined => "undefined"
  | Null => "null"
  | Str s => s
  end.

(** What [appKit.getState()] returns. *)
Record AppKitState : Type := {
  stateIsConnected : bool;
  stateAddress : maybeString
}.

(** The fields of a [Web3Manager]; [appKit] is [None] until [initialize]
    has created the kit, and then holds the state the kit reports. *)
Record Manager : Type := {
  projectId : string;
  appKit : option AppKitState;
  currentAddress : maybeString;
  provider : bool;   (* [this.provider] is set *)
  signer : bool      (* [this.signer] is set *)
}.

(** What the ethers adapter does when asked: whether [getProvider()] and
    then [provider.getSigner()] are fulfilled. *)
Record Adapter : Type := {
  providerFulfilled : bool;
  signerFulfilled : bool
}.

(** The browser side: [localStorage] and the [walletChanged] events
    dispatched on [window], the latest first, each with its
    [detail.address]. *)
Record Browser : Type := {
  storage : Storage;
  dispatched : list maybeString
}.

Definition newManager (id : string) : Manager :=
  {| projectId := id; appKit := None; currentAddress := Null;
     provider := false; signer := false |}.

Definition isConnected (m : Manager) : bool :=
  match appKit m with
  | None => false
  | Some state => stateIsConnected state && truthy (currentAddress m)
  end.

(** [getSigner]: the signer (here: whether there is one) and the manager
    with the fields the method has assigned. *)
Definition getSigner (adapter : Adapter) (m : Manager) : bool * Manager :=
  if negb (isConnected m) then (false, m)
  else if negb (providerFulfilled adapter) then (false, m)
  else
    let m1 := {| projectId := projectId m; appKit := appKit m;
                 currentAddress := currentAddress m;
                 provider := true; signer := signer m |} in
    if negb (signerFulfilled adapter) then (false, m1)
    else (true, {| projectId := projectId m; appKit := appKit m;
                   currentAddress := currentAddress m;
                   provider := true; signer := true |}).

(** [onAccountChanged]: the address is saved (or forgotten) and the event
    dispatched; an exception of the storage leaves the method at once. *)
Definition onAccountChanged (now : Z) (addr : maybeString) (b : Browser)
  : outcome unit * Browser :=
  let saved :=
    if truthy addr then
      match storageSetItem (storage b) "bz_wallet" (propertyKey addr) with
      | Returns st1 => storageSetItem st1 "bz_lastConnected" (toString now)
      | Throws f => Throws f
      end
    else storageRemoveItem (storage b) "bz_wallet" in
  match saved with
  | Returns st' =>
      (Returns tt, {| storage := st'; dispatched := addr :: dispatched b |})
  | Throws f => (Throws f, b)
  end.

(** The callback [setupEventListeners] subscribes to the state of the
    kit. *)
Definition onStateChange (now : Z) (state : AppKitState)
    (m : Manager) (b : Browser) : outcome unit * Manager * Browser :=
  if strictlyDiffers (stateAddress state) (currentAddress m) then
    let m' := {| projectId := projectId m; appKit := appKit m;
                 currentAddress := orNull (stateAddress state);
                 provider := provider m; signer := signer m |} in
    let '(result, b') := onAccountChanged now (currentAddress m') b in
    (result, m', b')
  else (Returns tt, m, b).

(** [Web3Manager.getInstance(projectId?)] over the static field
    [instance]. *)
Definition getInstance (id : maybeString) (instance : option Manager)
  : outcome Manager * option Manager :=
  match instance with
  | None =>
      if negb (truthy id) then (Throws ProjectIdRequired, None)
      else let m := newManager (propertyKey id) in (Returns m, Some m)
  | Some m => (Returns m, Some m)
  end.

Section Codec.

(** [JSON.parse] on a text ([None]: it throws a [SyntaxError]) and
    [JSON.stringify] on a value. *)
Variable JSON_parse : string -> option json.
Variable JSON_stringify : json -> string.

(** The array that [walletScores[addr].push(scoreData)] pushes on, after
    [if (!walletScores[addr]) walletScores[addr] = []]: the own array of
    the address, or an empty array where the table has nothing or a falsy
    value.  The call throws a [TypeError] where the table holds a truthy
    value that is no array, and where it has no own property under the key
    but inherits one. *)
Definition scoresOf (walletScores : list (string * json)) (addr : string)
  : outcome (list json) :=
  match getProperty walletScores addr with
  | Own v =>
      if truthyValue v then
        match v with
        | JArray l => Returns l
        | _ => Throws TypeError
        end
      else Returns []
  | Inherited => Throws TypeError
  | Missing => Returns []
  end.

(** The update of the table in [saveScoreOnChain]: the score is pushed on
    the array of the address, the array sorted and cut to ten entries. *)
Definition recordScore (walletScores : list (string * json)) (addr : string)
    (scoreData : json) : option (outcome (list (string * json))) :=
  match scoresOf walletScores addr with
  | Throws f => Some (Throws f)
  | Returns existing =>
      let pushed := (existing ++ [scoreData])%list in
      match sortEntries pushed with
      | None => None
      | Some sorted =>
          Some (Returns (objectSet walletScores addr
                           (JArray (sliceArray sorted 0 (Some 10)))))
      end
  end.

(** [saveScoreOnChain]: the value the promise resolves to ([None] for
    [null]), the manager and the storage.  Every exception of the [try]
    block is caught and makes the result [null].  A table that is no
    object: [null] and the primitive values have no property that could be
    assigned or called, which throws; on an array the code sets properties
    of the array, which is not followed here ([None], as where the sort is
    not determined). *)
Definition saveScoreOnChain (adapter : Adapter) (now : Z)
    (scoreData : json) (m : Manager) (st : Storage)
  : option (option string * Manager * Storage) :=
  if negb (isConnected m) then Some (None, m, st)
  else
    let '(hasSigner, m1) := getSigner adapter m in
    if negb hasSigner then Some (None, m1, st)
    else
      match storageGetItem st "bz_walletScores" with
      | Throws _ => Some (None, m1, st)
      | Returns stored =>
          match JSON_parse (orElse stored "{}") with
          | None => Some (None, m1, st)
          | Some (JObject walletScores) =>
              let addr := propertyKey (currentAddress m1) in
              match recordScore walletScores addr scoreData with
              | None => None
              | Some (Throws _) => Some (None, m1, st)
              | Some (Returns walletScores') =>
                  match storageSetItem st "bz_walletScores"
                          (JSON_stringify (JObject walletScores')) with
                  | Throws _ => Some (None, m1, st)
                  | Returns st' =>
                      Some (Some ("local_save_" +:+ toString now), m1, st')
                  end
              end
          | Some (JArray _) => None
          | Some (JNull | JBool _ | JNumber _ | JString _) =>
              Some (None, m1, st)
          end
      end.

(** The values [for (const wallet in walletScores)] visits, as
    [walletScores[wallet]]: the values of the own properties of an object,
    the elements of an array, the characters of a string; nothing for
    [null] and the other primitive values. *)
Definition characters (s : string) : list json :=
  map (fun c => JString (String c EmptyString)) (list_ascii_of_string s).

Definition visited (walletScores : json) : list json :=
  match walletScores with
  | JObject fields => map snd fields
  | JArray elements => elements
  | JString s => characters s
  | JNull | JBool _ | JNumber _ => []
  end.


Definition spread (v : json) : outcome (list json) :=
  match v with
  | JArray l => Returns l
  | JString s => Returns (characters s)
  | _ => Throws TypeError
  end.

(** The loop [allScores.push(...walletScores[wallet])]. *)
Fixpoint collect (values : list json) : outcome (list json) :=
  match values with
  | [] => Returns []
  | v :: rest =>
      match spread v with
      | Throws f => Throws f
      | Returns l =>
          match collect rest with
          | Throws f => Throws f
          | Returns l' => Returns (l ++ l')%list
          end
      end
  end.

(** [getLeaderboard(limit)]; [limit] left out is 10.  Nothing is caught
    here.  [None]: the sort is not determined. *)
Definition getLeaderboard (limit : option Z) (st : Storage)
  : option (outcome (list json)) :=
  match storageGetItem st "bz_walletScores" with
  | Throws f => Some (Throws f)
  | Returns stored =>
      match JSON_parse (orElse stored "{}") with
      | None => Some (Throws SyntaxError)
      | Some walletScores =>
          match collect (visited walletScores) with
          | Throws f => Some (Throws f)
          | Returns allScores =>
              match sortEntries allScores with
              | None => None
              | Some sorted =>
                  Some (Returns (sliceArray sorted 0
                                   (Some (default 10 limit))))
              end
          end
      end
  end.

End Codec.

(** Descending order of scores. *)
Definition notBelow (a b : json) : Prop := score b <= score a.

(** A [ScoreData] object with its fields in the order of the interface. *)
Definition scoreData (address : string)
    (points timestamp level enemies gems : Z) : json :=
  JObject [("address", JString address); ("score", JNumber points);
           ("timestamp", JNumber timestamp); ("level", JNumber level);
           ("enemies", JNumber enemies); ("gems", JNumber gems)].

(** A printer of JSON values for texts without characters to escape, and
    the values of two texts it prints: enough of a codec to run the wallet
    manager on sample tables. *)
Definition quote : string := String (ascii_of_nat 34) EmptyString.

Fixpoint joinWith (separator : string) (parts : list string) : string :=
  match parts with
  | [] => EmptyString
  | [part] => part
  | part :: rest => part +:+ separator +:+ joinWith separator rest
  end.

Fixpoint printJson (v : json) : string :=
  match v with
  | JNull => "null"
  | JBool b => if b then "true" else "false"
  | JNumber n => toString n
  | JString s => quote +:+ s +:+ quote
  | JArray elements => "[" +:+ joinWith "," (map printJson elements) +:+ "]"
  | JObject fields =>
      "{" +:+ joinWith ","
                (map (fun field => quote +:+ fst field +:+ quote +:+ ":"
                                   +:+ printJson (snd field)) fields)
      +:+ "}"
  end.

End Web3.

(** Sample data of the wallet manager: a connected manager, an adapter
    that delivers, a score, and a codec that knows the empty table only
    (which is all a storage without a table needs). *)
Definition exampleManager : Web3.Manager :=
  {| Web3.projectId := "demo";
     Web3.appKit := Some {| Web3.stateIsConnected := true;
                            Web3.stateAddress := Web3.Str "0xabc" |};
     Web3.currentAddress := Web3.Str "0xabc";
     Web3.provider := false;
     Web3.signer := false |}.

Definition exampleAdapter : Web3.Adapter :=
  {| Web3.providerFulfilled := true; Web3.signerFulfilled := true |}.

Definition exampleScore : Web3.json :=
  Web3.scoreData "0xabc" 1200 1700000000000 7 31 88.

(** A stored table: two wallets, the scores of each in descending order,
    one score of the second equal to one of the first. *)
Definition exampleWallets : list (string * Web3.json) :=
  [("0xabc", Web3.JArray [Web3.scoreData "0xabc" 1500 1699000000000 9 40 95;
                          Web3.scoreData "0xabc" 900 1698000000000 5 22 61]);
   ("0xdef", Web3.JArray [Web3.scoreData "0xdef" 1500 1697000000000 8 37 90;
                          Web3.scoreData "0xdef" 1300 1696000000000 8 35 70])].

Definition exampleTable : Web3.json := Web3.JObject exampleWallets.

(** A connected manager whose address is the name of a property that
    every object inherits. *)
Definition constructorManager : Web3.Manager :=
  {| Web3.projectId := "demo";
     Web3.appKit := Some {| Web3.stateIsConnected := true;
                            Web3.stateAddress := Web3.Str "constructor" |};
     Web3.currentAddress := Web3.Str "constructor";
     Web3.provider := false;
     Web3.signer := false |}.

(** [JSON.parse] on the two texts [{}] and that of [exampleTable]; every
    other text counts as malformed. *)
Definition parseSample (text : string) : option Web3.json :=
  if String.eqb text "{}" then Some (Web3.JObject [])
  else if String.eqb text (Web3.printJson exampleTable) then Some exampleTable
  else None.

Definition storageWithTable (table : Web3.json) : Storage :=
  {| items := {[ "bz_walletScores" := Web3.printJson table ]};
     readable := true; writable := true |}.

Definition emptyBrowser : Web3.Browser :=
  {| Web3.storage := emptyStorage; Web3.dispatched := [] |}.

(** ** The beetle enemy (class [Beetle])

    The fields of the class itself.  What the class asks of the game
    engine (velocity, rotation, texture, physics body, tween) is kept as
    the list of these requests, the latest first; the position [this.x],
    which the physics engine moves, the set of loaded textures and the
    values of [Math.random] come from outside.  [direction] and
    [currentFrame] are integers; the other numbers are doubles. *)

Module Beetle.

Inductive request : Type :=
| SetVelocityX (v : spec_float)
| SetVelocity (vx vy : spec_float)
| SetRotation (r : spec_float)
| SetTexture (key : string)
| DisableBody
| AddSquishTween.

Record state : Type := {
  moveSpeed : spec_float;
  direction : Z;              (* 1 for right, -1 for left *)
  platformLeft : spec_float;
  platformRight : spec_float;
  animationTimer : spec_float;
  currentFrame : Z;
  totalRotation : spec_float;
  isRolling : bool;
  isBiting : bool;
  nextActionDistance : spec_float;
  distanceTraveled : spec_float;
  biteAnimationTimer : spec_float;
  isSquished : bool;
  requests : list request
}.

Definition animationFrames : list string :=
  ["beetle-mouth-closed"; "beetle-mouth-open-30"; "beetle-mouth-open-70";
   "beetle-mouth-open-30"].

Definition rotationFactor : spec_float := decimalLiteral 4 3.   (* 0.004 *)
Definition biteDuration : spec_float := Float64.of_Z 1200.

(** [!delta] for [delta?: number]: left out, zero or NaN. *)
Definition noDelta (delta : option spec_float) : bool :=
  match delta with
  | None => true
  | Some (S754_zero _) => true
  | Some S754_nan => true
  | Some _ => false
  end.

Section Engine.

(** [this.scene.textures.exists(key)]. *)
Variable textureExists : string -> bool.

(** The constructor, from the platform bounds and three values of
    [Math.random]. *)
Definition create (platformLeft platformRight : spec_float)
    (r1 r2 r3 : spec_float) : state :=
  let speedVariation :=
    Float64.add (decimalLiteral 9 1) (Float64.mul r1 (decimalLiteral 2 1)) in
  let speed := Float64.mul (Float64.of_Z 80) speedVariation in
  let dir := if SFltb r2 (decimalLiteral 5 1) then -1 else 1 in
  {| moveSpeed := speed;
     direction := dir;
     platformLeft := platformLeft;
     platformRight := platformRight;
     animationTimer := Float64.of_Z 0;
     currentFrame := 0;
     totalRotation := Float64.of_Z 0;
     isRolling := true;
     isBiting := false;
     nextActionDistance :=
       Float64.add (Float64.of_Z 100) (Float64.mul r3 (Float64.of_Z 200));
     distanceTraveled := Float64.of_Z 0;
     biteAnimationTimer := Float64.of_Z 0;
     isSquished := false;
     requests := [SetVelocityX (Float64.mul speed (Float64.of_Z dir))] |}.

Definition startBiting (b : state) : state :=
  {| moveSpeed := moveSpeed b;
     direction := direction b;
     platformLeft := platformLeft b;
     platformRight := platformRight b;
     animationTimer := Float64.of_Z 0;
     currentFrame := 0;
     totalRotation := Float64.of_Z 0;
     isRolling := false;
     isBiting := true;
     nextActionDistance := nextActionDistance b;
     distanceTraveled := distanceTraveled b;
     biteAnimationTimer := Float64.of_Z 0;
     isSquished := isSquished b;
     requests := SetRotation (Float64.of_Z 0) :: requests b |}.

Definition startRolling (random : spec_float) (b : state) : state :=
  {| moveSpeed := moveSpeed b;
     direction := direction b;
     platformLeft := platformLeft b;
     platformRight := platformRight b;
     animationTimer := animationTimer b;
     currentFrame := currentFrame b;
     totalRotation := totalRotation b;
     isRolling := true;
     isBiting := false;
     nextActionDistance :=
       Float64.add (Float64.of_Z 50) (Float64.mul random (Float64.of_Z 200));
     distanceTraveled := Float64.of_Z 0;
     biteAnimationTimer := biteAnimationTimer b;
     isSquished := isSquished b;
     requests :=
       if textureExists "beetle-mouth-closed"
       then SetTexture "beetle-mouth-closed" :: requests b
       else requests b |}.

Definition animateBiting (delta : spec_float) (b : state) : state :=
  let timer := Float64.add (animationTimer b) delta in
  if SFleb (Float64.of_Z 300) timer then
    let frame := Z.rem (currentFrame b + 1)
                   (Z.of_nat (length animationFrames)) in
    let frameTexture := animationFrames !! Z.to_nat frame in
    {| moveSpeed := moveSpeed b;
       direction := direction b;
       platformLeft := platformLeft b;
       platformRight := platformRight b;
       animationTimer := Float64.of_Z 0;
       currentFrame := frame;
       totalRotation := totalRotation b;
       isRolling := isRolling b;
       isBiting := isBiting b;
       nextActionDistance := nextActionDistance b;
       distanceTraveled := distanceTraveled b;
       biteAnimationTimer := biteAnimationTimer b;
       isSquished := isSquished b;
       requests :=
         match frameTexture with
         | Some key =>
             if textureExists key then SetTexture key :: requests b
             else requests b
         | None => requests b
         end |}
  else
    {| moveSpeed := moveSpeed b;
       direction := direction b;
       platformLeft := platformLeft b;
       platformRight := platformRight b;
       animationTimer := timer;
       currentFrame := currentFrame b;
       totalRotation := totalRotation b;
       isRolling := isRolling b;
       isBiting := isBiting b;
       nextActionDistance := nextActionDistance b;
       distanceTraveled := distanceTraveled b;
       biteAnimationTimer := biteAnimationTimer b;
       isSquished := isSquished b;
       requests := requests b |}.

(** The direction after the check of the platform bounds. *)
Definition turnAtBounds (x : spec_float) (b : state) : Z :=
  if SFleb x (Float64.add (platformLeft b) (Float64.of_Z 10)) then 1
  else if SFleb (Float64.sub (platformRight b) (Float64.of_Z 10)) x then -1
  else direction b.

(** [update(time, delta)] at position [x]; [random] is the value
    [Math.random] gives if rolling is resumed. *)
Definition update (x : spec_float) (delta : option spec_float)
    (random : spec_float) (b : state) : state :=
  match delta with
  | Some d =>
      if noDelta delta then b
      else
        let dir := turnAtBounds x b in
        if isRolling b then
          let velocity := Float64.mul (moveSpeed b) (Float64.of_Z dir) in
          let traveled :=
            Float64.add (distanceTraveled b)
              (SFabs (Float64.mul velocity
                        (Float64.div d (Float64.of_Z 1000)))) in
          let rotationSpeed := Float64.mul (moveSpeed b) rotationFactor in
          let rotation :=
            Float64.add (totalRotation b)
              (Float64.mul rotationSpeed (Float64.of_Z dir)) in
          let rolled :=
            {| moveSpeed := moveSpeed b;
               direction := dir;
               platformLeft := platformLeft b;
               platformRight := platformRight b;
               animationTimer := animationTimer b;
               currentFrame := currentFrame b;
               totalRotation := rotation;
               isRolling := isRolling b;
               isBiting := isBiting b;
               nextActionDistance := nextActionDistance b;
               distanceTraveled := traveled;
               biteAnimationTimer := biteAnimationTimer b;
               isSquished := isSquished b;
               requests :=
                 (if textureExists "beetle-mouth-closed"
                  then [SetTexture "beetle-mouth-closed"] else [])
                 ++ SetRotation rotation :: SetVelocityX velocity
                 :: requests b |} in
          if SFleb (nextActionDistance b) traveled then startBiting rolled
          else rolled
        else if isBiting b then
          let timer := Float64.add (biteAnimationTimer b) d in
          let stopped :=
            {| moveSpeed := moveSpeed b;
               direction := dir;
               platformLeft := platformLeft b;
               platformRight := platformRight b;
               animationTimer := animationTimer b;
               currentFrame := currentFrame b;
               totalRotation := totalRotation b;
               isRolling := isRolling b;
               isBiting := isBiting b;
               nextActionDistance := nextActionDistance b;
               distanceTraveled := distanceTraveled b;
               biteAnimationTimer := timer;
               isSquished := isSquished b;
               requests := SetVelocityX (Float64.of_Z 0) :: requests b |} in
          let animated :=
            if textureExists "beetle-mouth-closed"
            then animateBiting d stopped else stopped in
          if SFleb biteDuration timer then startRolling random animated
          else animated
        else
          {| moveSpeed := moveSpeed b;
             direction := dir;
             platformLeft := platformLeft b;
             platformRight := platformRight b;
             animationTimer := animationTimer b;
             currentFrame := currentFrame b;
             totalRotation := totalRotation b;
             isRolling := isRolling b;
             isBiting := isBiting b;
             nextActionDistance := nextActionDistance b;
             distanceTraveled := distanceTraveled b;
             biteAnimationTimer := biteAnimationTimer b;
             isSquished := isSquished b;
             requests := requests b |}
  | None => b
  end.

Definition reverseDirection (b : state) : state :=
  let dir := direction b * -1 in
  {| moveSpeed := moveSpeed b;
     direction := dir;
     platformLeft := platformLeft b;
     platformRight := platformRight b;
     animationTimer := animationTimer b;
     currentFrame := currentFrame b;
     totalRotation := totalRotation b;
     isRolling := isRolling b;
     isBiting := isBiting b;
     nextActionDistance := nextActionDistance b;
     distanceTraveled := distanceTraveled b;
     biteAnimationTimer := biteAnimationTimer b;
     isSquished := isSquished b;
     requests :=
       if isRolling b
       then SetVelocityX (Float64.mul (moveSpeed b) (Float64.of_Z dir))
            :: requests b
       else requests b |}.

Definition getDirection (b : state) : Z := direction b.

(** [squish()]; [hasBody] is whether [this.body] is set. *)
Definition squish (hasBody : bool) (b : state) : state :=
  if isSquished b then b
  else
    {| moveSpeed := moveSpeed b;
       direction := direction b;
       platformLeft := platformLeft b;
       platformRight := platformRight b;
       animationTimer := animationTimer b;
       currentFrame := currentFrame b;
       totalRotation := totalRotation b;
       isRolling := isRolling b;
       isBiting := isBiting b;
       nextActionDistance := nextActionDistance b;
       distanceTraveled := distanceTraveled b;
       biteAnimationTimer := biteAnimationTimer b;
       isSquished := true;
       requests :=
         AddSquishTween :: SetRotation (Float64.of_Z 0)
         :: (if hasBody then [DisableBody] else [])
         ++ SetVelocity (Float64.of_Z 0) (Float64.of_Z 0) :: requests b |}.

(** What the game does with a beetle, and a run of such calls. *)
Inductive call : Type :=
| Update (x : spec_float) (delta : option spec_float) (random : spec_float)
| ReverseDirection
| Squish (hasBody : bool).

Definition perform (c : call) (b : state) : state :=
  match c with
  | Update x delta random => update x delta random b
  | ReverseDirection => reverseDirection b
  | Squish hasBody => squish hasBody b
  end.

Definition performAll (calls : list call) (b : state) : state :=
  fold_left (fun b c => perform c b) calls b.

End Engine.

(** The invariant of the fields: the beetle is either rolling or biting,
    its direction is 1 or -1, and [currentFrame] is an index of
    [animationFrames]. *)
Definition wellFormed (b : state) : Prop :=
  isRolling b = negb (isBiting b) /\
  (direction b = 1 \/ direction b = -1) /\
  0 <= currentFrame b < Z.of_nat (length animationFrames).

(** How many squish tweens (each of which ends by destroying the sprite)
    have been requested. *)
Fixpoint squishTweens (l : list request) : nat :=
  match l with
  | [] => 0
  | AddSquishTween :: rest => S (squishTweens rest)
  | _ :: rest => squishTweens rest
  end.

(** A step that neither squishes nor requests a squish tween. *)
Definition keepsSquish (b b' : state) : Prop :=
  isSquished b' = isSquished b /\
  squishTweens (requests b') = squishTweens (requests b).

End Beetle.

(** * Properties *)

(** ** Finite checks *)

Lemma checkFrom_sound (P : Z -> bool) (count : nat) :
  forall lo, checkFrom P lo count = true ->
  forall z, lo <= z < lo + Z.of_nat count -> P z = true.
Proof.
  induction count as [|count IH]; intros lo Hcheck z Hz.
  - lia.
  - cbn [checkFrom] in Hcheck. apply andb_true_iff in Hcheck as [Hlo Hrest].
    destruct (Z.eq_dec z lo) as [->|Hne]; [exact Hlo|].
    apply (IH (lo + 1) Hrest). lia.
Qed.

(** ** Floor counts *)

(** On the fifty finite levels the binary64 computation is exact. *)
Lemma calculateFloorCount_exact (n : Z) :
  1 <= n <= 50 -> calculateFloorCount n = floorCountExact n.
Proof.
  intros Hn. apply Z.eqb_eq.
  apply (checkFrom_sound (fun k => calculateFloorCount k =? floorCountExact k)
           50 1); [vm_compute; reflexivity | lia].
Qed.

Lemma calculateFloorCount_beast (n : Z) :
  51 <= n -> calculateFloorCount n = -1.
Proof.
  intros Hn. unfold calculateFloorCount, BEAST_MODE_LEVEL.
  destruct (Z.leb_spec 51 n); [reflexivity | lia].
Qed.

Lemma floorCountExact_mono (a b : Z) :
  1 <= a -> a <= b -> b <= 50 -> floorCountExact a <= floorCountExact b.
Proof.
  intros Ha Hab Hb. unfold floorCountExact.
  repeat match goal with
         | |- context [?x <=? ?y] => destruct (Z.leb_spec x y)
         end; try lia; Z.div_mod_to_equations; lia.
Qed.

Lemma floorCountExact_range (n : Z) :
  1 <= n <= 50 ->
  fst (phaseRange (phaseOf n)) <= floorCountExact n <= snd (phaseRange (phaseOf n)).
Proof.
  intros Hn. unfold floorCountExact, phaseOf.
  repeat match goal with
         | |- context [?x <=? ?y] => destruct (Z.leb_spec x y)
         end; cbn [phaseRange fst snd]; Z.div_mod_to_equations; lia.
Qed.

Section LevelConfigFacts.

Context {spawning : EnemySpawningSystem}.

(** C1. From level 51 on, [getLevelConfig] reports an endless level with
    the floor count [-1], and every field derived from the difficulty
    (budget per floor, spawn weights, world width, collectible types) is
    the one computed for the capped configuration level 50. *)
Theorem getLevelConfig_beast_mode (n : Z) :
  51 <= n ->
  isEndless (getLevelConfig n) = true /\
  floorCount (getLevelConfig n) = -1 /\
  difficultyBudgetPerFloor (getLevelConfig n) = getDifficultyBudget 50 1 /\
  enemySpawnWeights (getLevelConfig n) = getSpawnWeights 50 /\
  worldWidth (getLevelConfig n) = getWorldWidth 50 /\
  collectibleTypes (getLevelConfig n) = getCollectibleTypes 50 /\
  difficultyBudgetPerFloor (getLevelConfig n)
    = difficultyBudgetPerFloor (getLevelConfig 50) /\
  enemySpawnWeights (getLevelConfig n)
    = enemySpawnWeights (getLevelConfig 50) /\
  worldWidth (getLevelConfig n) = worldWidth (getLevelConfig 50) /\
  collectibleTypes (getLevelConfig n) = collectibleTypes (getLevelConfig 50).
Proof.
  intros Hn.
  assert (Hcap : Z.min n MAX_PROGRESSION_LEVEL = 50)
    by (unfold MAX_PROGRESSION_LEVEL; lia).
  assert (Hcap50 : Z.min 50 MAX_PROGRESSION_LEVEL = 50) by reflexivity.
  unfold getLevelConfig; cbn [isEndless floorCount difficultyBudgetPerFloor
    enemySpawnWeights worldWidth collectibleTypes].
  rewrite Hcap, Hcap50, (calculateFloorCount_beast n Hn).
  unfold BEAST_MODE_LEVEL.
  destruct (Z.leb_spec 51 n); [|lia].
  repeat split; reflexivity.
Qed.

(** C2. For every level from 1 to 50 the floor count lies in the
    documented range of the level's phase (1-10: 10-12, 11-25: 13-18,
    26-40: 19-25, 41-50: 25-30) and does not decrease towards a later
    level of the same phase. *)
Theorem floorCount_in_phase_range (n : Z) :
  1 <= n <= 50 ->
  (1 <= n <= 10 -> 10 <= floorCount (getLevelConfig n) <= 12) /\
  (11 <= n <= 25 -> 13 <= floorCount (getLevelConfig n) <= 18) /\
  (26 <= n <= 40 -> 19 <= floorCount (getLevelConfig n) <= 25) /\
  (41 <= n <= 50 -> 25 <= floorCount (getLevelConfig n) <= 30) /\
  (forall m, n <= m <= 50 -> phaseOf m = phaseOf n ->
     floorCount (getLevelConfig n) <= floorCount (getLevelConfig m)).
Proof.
  intros Hn. cbn [getLevelConfig floorCount].
  rewrite (calculateFloorCount_exact n Hn).
  pose proof (floorCountExact_range n Hn) as Hrange.
  unfold phaseOf in Hrange.
  assert (Hphases :
    (1 <= n <= 10 -> 10 <= floorCountExact n <= 12) /\
    (11 <= n <= 25 -> 13 <= floorCountExact n <= 18) /\
    (26 <= n <= 40 -> 19 <= floorCountExact n <= 25) /\
    (41 <= n <= 50 -> 25 <= floorCountExact n <= 30)).
  { repeat match type of Hrange with
           | context [?x <=? ?y] => destruct (Z.leb_spec x y)
           end; cbn [phaseRange fst snd] in Hrange; lia. }
  destruct Hphases as (H1 & H2 & H3 & H4).
  repeat (split; [assumption|]).
  intros m Hm _. rewrite (calculateFloorCount_exact m) by lia.
  apply floorCountExact_mono; lia.
Qed.

(** C10. Over the whole finite range the floor count never decreases:
    for levels [1 <= a <= b <= 50], also across the phase boundaries
    10/11, 25/26 and 40/41. *)
Theorem floorCount_globally_monotone (a b : Z) :
  1 <= a -> a <= b -> b <= 50 ->
  floorCount (getLevelConfig a) <= floorCount (getLevelConfig b).
Proof.
  intros Ha Hab Hb. cbn [getLevelConfig floorCount].
  rewrite !calculateFloorCount_exact by lia.
  apply floorCountExact_mono; lia.
Qed.

(** C6. The world width is a step function of the capped configuration
    level: 24 tiles below level 25, 32 tiles from 25 to 49, 40 tiles from
    50 on; so levels 24, 25, 49 and 50 are 24, 32, 32 and 40 tiles wide. *)
Theorem worldWidth_steps :
  (forall n, n < 25 -> worldWidth (getLevelConfig n) = 24) /\
  (forall n, 25 <= n < 50 -> worldWidth (getLevelConfig n) = 32) /\
  (forall n, 50 <= n -> worldWidth (getLevelConfig n) = 40) /\
  worldWidth (getLevelConfig 24) = 24 /\
  worldWidth (getLevelConfig 25) = 32 /\
  worldWidth (getLevelConfig 49) = 32 /\
  worldWidth (getLevelConfig 50) = 40.
Proof.
  assert (Hw : forall n, worldWidth (getLevelConfig n)
                         = getWorldWidth (Z.min n 50)) by reflexivity.
  repeat split; try reflexivity; intros n Hn; rewrite Hw;
    unfold getWorldWidth;
    repeat match goal with
           | |- context [?x <? ?y] => destruct (Z.ltb_spec x y)
           end; lia.
Qed.

End LevelConfigFacts.

Lemma getLevelConfig_beast_mode_witness :
  51 <= 73 /\
  isEndless (getLevelConfig (spawning := exampleSpawning) 73) = true /\
  floorCount (getLevelConfig (spawning := exampleSpawning) 73) = -1.
Proof.
  split; [lia|].
  pose proof (getLevelConfig_beast_mode (spawning := exampleSpawning) 73
                ltac:(lia)) as (Hendless & Hfloors & _).
  split; assumption.
Defined.

Lemma floorCount_in_phase_range_witness :
  1 <= 17 <= 50 /\
  13 <= floorCount (getLevelConfig (spawning := exampleSpawning) 17) <= 18.
Proof.
  split; [lia|].
  pose proof (floorCount_in_phase_range (spawning := exampleSpawning) 17
                ltac:(lia)) as (_ & Hskill & _).
  apply Hskill; lia.
Defined.

Lemma floorCount_globally_monotone_witness :
  1 <= 10 /\ 10 <= 41 /\ 41 <= 50 /\
  floorCount (getLevelConfig (spawning := exampleSpawning) 10)
  <= floorCount (getLevelConfig (spawning := exampleSpawning) 41).
Proof.
  repeat (split; [lia|]).
  apply (floorCount_globally_monotone (spawning := exampleSpawning) 10 41); lia.
Defined.

(** ** Collectibles *)

(** The palettes only grow with the level: a later level offers every kind
    an earlier level offers. *)
Lemma getCollectibleTypes_additive (a b : Z) :
  a <= b -> incl (getCollectibleTypes a) (getCollectibleTypes b).
Proof.
  intros Hab kind. unfold getCollectibleTypes.
  repeat match goal with
         | |- context [?x <=? ?y] => destruct (Z.leb_spec x y)
         end; try lia; cbn [In]; tauto.
Qed.

Section CollectibleFacts.

Context {spawning : EnemySpawningSystem}.

(** C4. The claim has treasure chests only above level 6 and pendants only
    from their tier (levels 4-6) on, as the comment of
    [getCollectibleTypes] documents.  The code offers both from level 1:
    the palette of level 1 is coin, treasure chest, invincibility pendant,
    and the palettes of levels 6 and 7 are the same. *)
Theorem collectibleTypes_level_1 :
  collectibleTypes (getLevelConfig 1)
    = ["coin"; "treasureChest"; "invincibilityPendant"] /\
  In "treasureChest" (collectibleTypes (getLevelConfig 1)) /\
  In "invincibilityPendant" (collectibleTypes (getLevelConfig 1)) /\
  collectibleTypes (getLevelConfig 6) = collectibleTypes (getLevelConfig 7).
Proof.
  split; [reflexivity|].
  split; [right; left; reflexivity|].
  split; [right; right; left; reflexivity|reflexivity].
Qed.

End CollectibleFacts.

(** ** Rounding to a double *)

Lemma pow2_pos (e : Z) : 0 <= e -> 0 < 2 ^ e.
Proof. intros He. apply Z.pow_pos_nonneg; lia. Qed.

Lemma roundToDouble_exact (z : Z) : Z.abs z <= 2 ^ 53 -> roundToDouble z = z.
Proof.
  intros Hz. unfold roundToDouble.
  destruct (Z.eq_dec (Z.abs z) (2 ^ 53)) as [Htop|Hlow].
  - assert (Hcases : z = 2 ^ 53 \/ z = - 2 ^ 53) by lia.
    destruct Hcases as [->| ->]; vm_compute; reflexivity.
  - assert (Hlog : Z.log2 (Z.abs z) - 52 <= 0).
    { destruct (Z.eq_dec (Z.abs z) 0) as [->|Hnz]; [cbn; lia|].
      assert (Z.log2 (Z.abs z) < 53); [|lia].
      apply Z.log2_lt_pow2; lia. }
    rewrite Z.max_l by lia.
    rewrite Z.pow_0_r, Z.div_1_r, Z.mod_1_r.
    cbn [Z.mul Z.ltb Z.compare orb Z.eqb andb].
    rewrite Z.mul_1_r, Z.mul_comm. apply Z.abs_sgn.
Qed.

Lemma numberValue_exact (z : Z) : Z.abs z <= 2 ^ 53 -> numberValue z = Num z.
Proof.
  intros Hz. unfold numberValue. rewrite roundToDouble_exact by exact Hz.
  destruct (Z.leb_spec (2 ^ 1024) (Z.abs z)) as [Hbig|_]; [|reflexivity].
  exfalso. assert (2 ^ 53 < 2 ^ 1024) by (apply Z.pow_lt_mono_r; lia). lia.
Qed.

Lemma roundToDouble_opp (z : Z) : roundToDouble (- z) = - roundToDouble z.
Proof.
  unfold roundToDouble. rewrite Z.abs_opp, Z.sgn_opp. lia.
Qed.

Lemma numberValue_opp (z : Z) : numberValue (- z) = negate (numberValue z).
Proof.
  unfold numberValue. rewrite roundToDouble_opp, Z.abs_opp.
  destruct (Z.leb_spec (2 ^ 1024) (Z.abs (roundToDouble z))) as [Hbig|_];
    cbn [negate]; [|reflexivity].
  f_equal.
  assert (Hnz : z <> 0).
  { intros ->. revert Hbig. vm_compute. intros Hbig. apply Hbig. reflexivity. }
  destruct (Z.ltb_spec (- z) 0), (Z.ltb_spec z 0); try reflexivity; lia.
Qed.

Lemma roundToDouble_large (c : Z) : 10 ^ 21 <= c -> 10 ^ 21 <= roundToDouble c.
Proof.
  intros Hc. assert (Hpos : 0 < c) by lia.
  unfold roundToDouble. rewrite Z.abs_eq, Z.sgn_pos, Z.mul_1_l by lia.
  assert (Hlog : 69 <= Z.log2 c).
  { change 69 with (Z.log2 (2 ^ 69)). apply Z.log2_le_mono. lia. }
  rewrite Z.max_r by lia.
  set (e := Z.log2 c - 52).
  assert (He : 17 <= e) by (unfold e; lia).
  pose proof (pow2_pos e ltac:(lia)) as HP.
  assert (Hq : 10 ^ 21 <= c / 2 ^ e * 2 ^ e).
  { destruct (Z_le_gt_dec e 21) as [Hsmall|Hbig].
    - assert (Hcases : e = 17 \/ e = 18 \/ e = 19 \/ e = 20 \/ e = 21) by lia.
      destruct Hcases as [-> | [-> | [-> | [-> | ->]]]];
        match goal with
        | |- context [2 ^ ?k] =>
            let v := eval vm_compute in (2 ^ k) in change (2 ^ k) with v
        end;
        change (10 ^ 21) with 1000000000000000000000 in *;
        Z.div_mod_to_equations; lia.
    - assert (Hlow : 2 ^ 52 <= c / 2 ^ e).
      { apply Z.div_le_lower_bound; [exact HP|].
        rewrite <- Z.pow_add_r by lia.
        replace (e + 52) with (Z.log2 c) by (unfold e; lia).
        apply Z.log2_spec. exact Hpos. }
      assert (Hpow : 2 ^ 22 <= 2 ^ e) by (apply Z.pow_le_mono_r; lia).
      assert (Hbound : 10 ^ 21 <= 2 ^ 52 * 2 ^ 22) by (vm_compute; discriminate).
      nia. }
  destruct (_ || _); nia.
Qed.

Lemma roundToDouble_ge (b c : Z) :
  0 <= b <= 2 ^ 52 -> b <= c -> b <= roundToDouble c.
Proof.
  intros [Hb0 Hb] Hc.
  destruct (Z_le_gt_dec c (2 ^ 53)) as [Hsafe|Hbig].
  - rewrite roundToDouble_exact by lia. exact Hc.
  - assert (Hpos : 0 < c) by lia.
    unfold roundToDouble. rewrite Z.abs_eq, Z.sgn_pos, Z.mul_1_l by lia.
    assert (Hlog : 53 <= Z.log2 c).
    { change 53 with (Z.log2 (2 ^ 53)). apply Z.log2_le_mono. lia. }
    rewrite Z.max_r by lia.
    set (e := Z.log2 c - 52).
    pose proof (pow2_pos e ltac:(unfold e; lia)) as HP.
    assert (Hlow : 2 ^ 52 <= c / 2 ^ e).
    { apply Z.div_le_lower_bound; [exact HP|].
      rewrite <- Z.pow_add_r by (unfold e; lia).
      replace (e + 52) with (Z.log2 c) by (unfold e; lia).
      apply Z.log2_spec. exact Hpos. }
    destruct (_ || _); nia.
Qed.

Lemma numberValue_large (c x : Z) :
  10 ^ 21 <= c -> numberValue c = Num x -> 10 ^ 21 <= x.
Proof.
  intros Hc. unfold numberValue.
  destruct (_ <=? _); [discriminate|].
  intros [= <-]. apply roundToDouble_large. exact Hc.
Qed.

Lemma candidate_valid (x p s : Z) :
  0 < x -> candidate x p = Some s ->
  0 < s /\ numberValue (s * 10 ^ p) = Num x.
Proof.
  intros Hx. unfold candidate.
  set (lo := x / 10 ^ p).
  assert (Hlo : 0 <= lo).
  { unfold lo. destruct (Z_lt_le_dec p 0) as [Hneg|Hnn].
    - rewrite Z.pow_neg_r by exact Hneg. rewrite Z.div_0_r. lia.
    - apply Z.div_pos; [lia | apply Z.pow_pos_nonneg; lia]. }
  assert (Hdenotes : forall c, denotes c x = true -> numberValue c = Num x).
  { intros c. unfold denotes. destruct (numberValue c); try discriminate.
    intros Heq. apply Z.eqb_eq in Heq. congruence. }
  destruct ((0 <? lo) && denotes (lo * 10 ^ p) x) eqn:HokLo;
    destruct (denotes ((lo + 1) * 10 ^ p) x) eqn:HokHi; cbn [andb].
  - apply andb_true_iff in HokLo as [Hlo' HokLo]. apply Z.ltb_lt in Hlo'.
    destruct (_ <? _); [intros [= <-]; auto|].
    destruct (_ <? _); [intros [= <-]; split; [lia|auto]|].
    destruct (Z.even lo); intros [= <-]; split; auto; lia.
  - apply andb_true_iff in HokLo as [Hlo' HokLo]. apply Z.ltb_lt in Hlo'.
    intros [= <-]; auto.
  - intros [= <-]; split; [lia|auto].
  - discriminate.
Qed.

Lemma shortestFrom_valid (x : Z) :
  0 < x -> numberValue x = Num x ->
  forall p, 0 < fst (shortestFrom p x) /\ 0 <= snd (shortestFrom p x) /\
            numberValue (fst (shortestFrom p x) * 10 ^ snd (shortestFrom p x))
            = Num x.
Proof.
  intros Hx Hdouble. induction p as [|p IH]; cbn [shortestFrom].
  - cbn [fst snd]. rewrite Z.pow_0_r, Z.mul_1_r. auto with zarith.
  - destruct (candidate x (Z.of_nat (S p))) as [s|] eqn:Hcandidate; [|exact IH].
    cbn [fst snd]. apply candidate_valid in Hcandidate as [Hs Hvalid]; [|exact Hx].
    split; [exact Hs|]. split; [lia | exact Hvalid].
Qed.

(** The rounding agrees with that of [SpecFloat] on the samples. *)
Example numberValue_agrees_with_SpecFloat :
  forallb (fun z => number_eqb (numberValue z) (numberValueSpecFloat z))
    roundingSamples = true.
Proof. vm_compute. reflexivity. Qed.

Example numberValue_samples :
  map numberValue [2 ^ 53 + 1; 2 ^ 53 + 3; - (2 ^ 53 + 3); 10 ^ 21;
                   2 ^ 1024 - 2 ^ 970 - 1; 2 ^ 1024 - 2 ^ 970]
  = [Num (2 ^ 53); Num (2 ^ 53 + 4); Num (- (2 ^ 53 + 4)); Num (10 ^ 21);
     Num (2 ^ 1024 - 2 ^ 971); Infinity false].
Proof. vm_compute. reflexivity. Qed.

(** ** Reading back what [toString] wrote *)


Lemma append_cons (c : ascii) (s t : string) :
  String c s ++ t = String c (s ++ t).
Proof. reflexivity. Qed.

Ltac read_digit :=
  cbn [NilEmpty.string_of_uint zeros]; rewrite ?append_cons;
  cbn [parseDigits];
  match goal with
  | |- context [digitValue ?c] =>
      let v := eval vm_compute in (digitValue c) in
      change (digitValue c) with v
  end;
  cbv iota beta;
  match goal with
  | |- context [?k <? 10] => change (k <? 10) with true
  end;
  cbv iota beta; cbn [from_option]; unfold id.

Lemma parseDigits_uint_acc (d : uint) (rest : string) :
  forall acc : positive,
    parseDigits 10 (NilEmpty.string_of_uint d ++ rest) (Some (Z.pos acc))
    = parseDigits 10 rest (Some (Z.pos (Pos.of_uint_acc d acc))).
Proof.
  induction d as [|d IH|d IH|d IH|d IH|d IH|d IH|d IH|d IH|d IH|d IH];
    intros acc; [reflexivity|..];
    read_digit; cbn [Pos.of_uint_acc]; rewrite <- IH;
    do 2 f_equal; lia.
Qed.

Lemma parseDigits_uint_zero (d : uint) (rest : string) :
  parseDigits 10 (NilEmpty.string_of_uint d ++ rest) (Some 0)
  = parseDigits 10 rest (Some (Z.of_N (Pos.of_uint d))).
Proof.
  induction d as [|d IH|d IH|d IH|d IH|d IH|d IH|d IH|d IH|d IH|d IH];
    [reflexivity | read_digit; exact IH | ..];
    read_digit; cbn [Pos.of_uint]; apply (parseDigits_uint_acc d).
Qed.

Lemma parseDigits_uint (d : uint) (rest : string) :
  d <> Nil ->
  parseDigits 10 (NilEmpty.string_of_uint d ++ rest) None
  = parseDigits 10 rest (Some (Z.of_N (Pos.of_uint d))).
Proof.
  intros Hd. rewrite <- parseDigits_uint_zero.
  destruct d; [contradiction | reflexivity..].
Qed.

Lemma parseDigits_zeros (p : nat) :
  forall acc, parseDigits 10 (zeros p) (Some acc)
              = Some (acc * 10 ^ Z.of_nat p).
Proof.
  induction p as [|p IH]; intros acc.
  - cbn [zeros parseDigits]. rewrite Z.pow_0_r, Z.mul_1_r. reflexivity.
  - cbn [zeros]. read_digit. rewrite IH. f_equal.
    rewrite Nat2Z.inj_succ, Z.pow_succ_r by lia. lia.
Qed.

(** The digits of a positive integer followed by zeros: no white space, no
    sign and no radix prefix in front. *)
Lemma prefixes_uint (p : positive) (rest : nat) :
  let s := NilEmpty.string_of_uint (Pos.to_uint p) ++ zeros rest in
  trimStart s = s /\ stripSign s = (1, s) /\ stripRadixPrefix s = (10, s).
Proof.
  pose proof (Unsigned.to_uint_nonnil p) as Hnil.
  destruct (Pos.to_uint p) as [|d|d|d|d|d|d|d|d|d|d]; [contradiction|..];
    cbn [NilEmpty.string_of_uint]; rewrite append_cons; repeat split.
  destruct d; [destruct rest|..]; reflexivity.
Qed.

Lemma parseInt_digits (p : positive) (rest : nat) :
  parseInt (NilEmpty.string_of_uint (Pos.to_uint p) ++ zeros rest)
  = numberValue (Z.pos p * 10 ^ Z.of_nat rest).
Proof.
  unfold parseInt. destruct (prefixes_uint p rest) as (-> & -> & ->).
  rewrite parseDigits_uint by apply Unsigned.to_uint_nonnil.
  rewrite parseDigits_zeros, Unsigned.of_to.
  cbn [Z.of_N]. rewrite Z.mul_1_l. reflexivity.
Qed.

Lemma parseInt_minus_digits (p : positive) (rest : nat) :
  parseInt ("-" ++ NilEmpty.string_of_uint (Pos.to_uint p) ++ zeros rest)
  = numberValue (- (Z.pos p * 10 ^ Z.of_nat rest)).
Proof.
  unfold parseInt. rewrite append_cons.
  change ("" ++ ?t) with t. cbn [trimStart].
  change (isWhiteSpace "-") with false. cbv iota. cbn [stripSign].
  destruct (prefixes_uint p rest) as (_ & _ & ->).
  rewrite parseDigits_uint by apply Unsigned.to_uint_nonnil.
  rewrite parseDigits_zeros, Unsigned.of_to.
  cbn [Z.of_N]. f_equal; lia.
Qed.

Lemma append_empty (s : string) : s ++ "" = s.
Proof.
  induction s as [|c s IH]; [reflexivity | rewrite append_cons, IH; reflexivity].
Qed.

Lemma decimal_pos (p : positive) :
  decimal (Z.pos p) = NilEmpty.string_of_uint (Pos.to_uint p).
Proof. reflexivity. Qed.

Lemma decimal_neg (p : positive) :
  decimal (Z.neg p) = "-" ++ NilEmpty.string_of_uint (Pos.to_uint p).
Proof. reflexivity. Qed.

(** [parseInt] reads the decimal digits of an integer as the number value
    of that integer. *)
Lemma parseInt_decimal (z : Z) : parseInt (decimal z) = numberValue z.
Proof.
  destruct z as [|p|p].
  - vm_compute. reflexivity.
  - rewrite decimal_pos, <- (append_empty (NilEmpty.string_of_uint _)).
    change "" with (zeros 0). rewrite parseInt_digits.
    rewrite Z.pow_0_r, Z.mul_1_r. reflexivity.
  - rewrite decimal_neg, <- (append_empty (NilEmpty.string_of_uint _)).
    change "" with (zeros 0). rewrite parseInt_minus_digits.
    rewrite Z.pow_0_r, Z.mul_1_r. reflexivity.
Qed.

(** What [toString] prints for a double of at least 2^53 that is below
    10^21: digits that [parseInt] reads back as the double. *)
Lemma parseInt_toStringLarge (x : Z) :
  0 < x -> numberValue x = Num x -> x < 10 ^ 21 ->
  parseInt (toStringLarge x) = Num x /\
  parseInt ("-" ++ toStringLarge x) = Num (- x).
Proof.
  intros Hx Hdouble Hsmall. unfold toStringLarge.
  pose proof (shortestFrom_valid x Hx Hdouble (String.length (decimal x)))
    as (Hs & Hp & Hvalid).
  destruct (shortestFrom _ x) as [s p]. cbn [fst snd] in *.
  destruct (Z.ltb_spec (s * 10 ^ p) (10 ^ 21)) as [_|Hbig].
  - destruct s as [|s|s]; try lia.
    rewrite decimal_pos, parseInt_digits, parseInt_minus_digits.
    rewrite Z2Nat.id by exact Hp.
    rewrite numberValue_opp, Hvalid. split; reflexivity.
  - apply (numberValue_large _ x) in Hbig; [lia | exact Hvalid].
Qed.

(** [parseInt(n.toString())] is [n] for every double [n] that [toString]
    prints without an exponent. *)
Lemma parseInt_toString (z : Z) : printable z -> parseInt (toString z) = Num z.
Proof.
  intros [Hdouble Hsmall]. unfold toString.
  destruct (Z.ltb_spec (Z.abs z) (2 ^ 53)) as [Hsafe|Hlarge].
  - rewrite parseInt_decimal. exact Hdouble.
  - rewrite Hdouble. destruct (Z.ltb_spec z 0) as [Hneg|Hpos].
    + replace (Num z) with (Num (- - z)) by (f_equal; lia).
      apply parseInt_toStringLarge; [lia | | lia].
      rewrite numberValue_opp, Hdouble. reflexivity.
    + apply parseInt_toStringLarge; [|exact Hdouble | lia].
      assert (0 < 2 ^ 53) by (apply pow2_pos; lia). lia.
Qed.

Lemma printable_safe (z : Z) : Z.abs z <= 2 ^ 53 -> printable z.
Proof.
  intros Hz. split; [apply numberValue_exact; exact Hz|].
  assert (2 ^ 53 < 10 ^ 21) by (vm_compute; reflexivity). lia.
Qed.

(** ** The doubles from 2^53 on *)








Lemma toString_nonempty (z : Z) :
  printable z -> orElse (Some (toString z)) "1" = toString z.
Proof.
  intros Hz. pose proof (parseInt_toString z Hz) as Hread.
  destruct (toString z); [discriminate Hread | reflexivity].
Qed.

Example toString_samples :
  map toString [0; -5; 123; 2 ^ 53 - 1; 2 ^ 53; 2 ^ 60; 10 ^ 21 - 2 ^ 17;
                10 ^ 21; - 10 ^ 21; 2 ^ 70; 2 ^ 1024 - 2 ^ 971]
  = ["0"; "-5"; "123"; "9007199254740991"; "9007199254740992";
     "1152921504606847000"; "999999999999999900000"; "1e+21"; "-1e+21";
     "1.1805916207174113e+21"; "1.7976931348623157e+308"].
Proof. vm_compute. reflexivity. Qed.

(** ** The state machine *)



Lemma saveProgress_run (s : Session) :
  saveProgress s = (Normal tt, afterSave s).
Proof.
  unfold saveProgress, afterSave, tryCatch, bind, getItem, setItem,
    getThisCurrentLevel, ret, persistedFurthest.
  destruct s as [level [stored canRead canWrite]].
  cbn [currentLevel localStorage items readable writable].
  destruct canRead; [|reflexivity]. cbn [andb].
  destruct (gt_number _ _); [|reflexivity].
  destruct canWrite; reflexivity.
Qed.

Lemma nextLevel_run (s : Session) :
  nextLevel s
  = (Normal (roundToDouble (currentLevel s + 1)),
     afterSave (withLevel (roundToDouble (currentLevel s + 1)) s)).
Proof.
  unfold nextLevel, bind, getThisCurrentLevel, setThisCurrentLevel.
  fold (withLevel (roundToDouble (currentLevel s + 1)) s).
  rewrite saveProgress_run.
  unfold afterSave. destruct (_ && _ && _); reflexivity.
Qed.

(** Below 2^53 in magnitude the increment is exact. *)
Lemma increment_exact (level : Z) :
  Z.abs level < 2 ^ 53 -> roundToDouble (level + 1) = level + 1.
Proof. intros Hlevel. apply roundToDouble_exact. lia. Qed.

Lemma setCurrentLevel_run (level : Z) (s : Session) :
  setCurrentLevel level s = (Normal tt, afterSave (withLevel level s)).
Proof.
  unfold setCurrentLevel, bind, setThisCurrentLevel.
  fold (withLevel level s). apply saveProgress_run.
Qed.

Lemma getFurthestLevel_run (s : Session) :
  getFurthestLevel s
  = (Normal (if readable (localStorage s) then persistedFurthest s else Num 1),
     s).
Proof.
  unfold getFurthestLevel, tryCatch, bind, getItem, ret, persistedFurthest.
  destruct (readable (localStorage s)); reflexivity.
Qed.

Lemma persistedFurthest_recordFurthest (s : Session) :
  printable (currentLevel s) ->
  persistedFurthest (recordFurthest s) = Num (currentLevel s).
Proof.
  intros Hlevel. unfold persistedFurthest, recordFurthest.
  cbn [localStorage items].
  rewrite lookup_insert_eq, toString_nonempty by exact Hlevel.
  apply parseInt_toString. exact Hlevel.
Qed.

(** What [saveProgress] does to the record: nothing, or it replaces a
    smaller integer by the current level. *)
Lemma afterSave_cases (s : Session) :
  afterSave s = s \/
  (afterSave s = recordFurthest s /\
   gt_number (currentLevel s) (persistedFurthest s) = true).
Proof.
  unfold afterSave.
  destruct (readable _); [|left; reflexivity].
  destruct (gt_number _ _); [|left; reflexivity].
  destruct (writable _); [right; split; reflexivity | left; reflexivity].
Qed.

Lemma afterSave_currentLevel (s : Session) :
  currentLevel (afterSave s) = currentLevel s.
Proof. destruct (afterSave_cases s) as [->|[-> _]]; reflexivity. Qed.

Lemma recordFurthest_idempotent (s : Session) :
  recordFurthest s = recordFurthest (recordFurthest s).
Proof.
  unfold recordFurthest. cbn [currentLevel localStorage items readable writable].
  rewrite insert_insert_eq. reflexivity.
Qed.

Section SessionFacts.

Context {spawning : EnemySpawningSystem}.

Lemma isLevelComplete_run (currentFloor : Z) (s : Session) :
  isLevelComplete currentFloor s
  = (Normal (if isEndless (getLevelConfig (currentLevel s)) then false
             else floorCount (getLevelConfig (currentLevel s)) <=? currentFloor),
     s).
Proof.
  unfold isLevelComplete, bind, getThisCurrentLevel.
  destruct (isEndless _); reflexivity.
Qed.

(** The storage after one operation: untouched, or (only after
    [nextLevel] and [setCurrentLevel]) the record replaced by what
    [toString] prints for the new current level, which exceeds the value
    read back before. *)
Lemma perform_storage (op : operation) (s : Session) :
  localStorage (perform op s) = localStorage s \/
  ((op = OpNextLevel \/ exists level, op = OpSetCurrentLevel level) /\
   gt_number (currentLevel (perform op s)) (persistedFurthest s) = true /\
   perform op s = recordFurthest (perform op s)).
Proof.
  destruct op; cbn [perform];
    try (left; reflexivity).
  - left. rewrite isLevelComplete_run. reflexivity.
  - rewrite nextLevel_run. cbn [snd].
    destruct (afterSave_cases
                (withLevel (roundToDouble (currentLevel s + 1)) s))
      as [->|[-> Hgt]]; [left; reflexivity | right].
    split; [left; reflexivity|].
    split; [exact Hgt | apply recordFurthest_idempotent].
  - rewrite setCurrentLevel_run. cbn [snd].
    destruct (afterSave_cases (withLevel level s))
      as [->|[-> Hgt]]; [left; reflexivity | right].
    split; [right; exists level; reflexivity|].
    split; [exact Hgt | apply recordFurthest_idempotent].
  - left. rewrite getFurthestLevel_run. reflexivity.
Qed.




(** C8. [resetToStart] sets the current level to 1 and leaves the storage,
    hence the furthest level, as it was; a session that advanced to level
    10 still reports 10 as its furthest level after the reset. *)
Theorem resetToStart_keeps_furthest (s : Session) :
  fst (resetToStart s) = Normal tt /\
  currentLevel (snd (resetToStart s)) = 1 /\
  localStorage (snd (resetToStart s)) = localStorage s /\
  fst (getFurthestLevel (snd (resetToStart s))) = fst (getFurthestLevel s) /\
  (let advanced :=
     performAll (replicate 9 OpNextLevel) (newSession emptyStorage) in
   currentLevel advanced = 10 /\
   fst (getFurthestLevel advanced) = Normal (Num 10) /\
   currentLevel (perform OpResetToStart advanced) = 1 /\
   fst (getFurthestLevel (perform OpResetToStart advanced))
     = Normal (Num 10)).
Proof.
  repeat (split; [reflexivity|]).
  split; [rewrite !getFurthestLevel_run; reflexivity|].
  vm_compute. repeat split; reflexivity.
Qed.

(** C9. [isLevelComplete] answers [false] whenever the active level is
    endless (level 51 or more), and otherwise answers [true] exactly when
    the current floor has reached the floor count of the active level; it
    never throws and leaves the session as it is. *)
Theorem isLevelComplete_spec (currentFloor : Z) (s : Session) :
  (isEndless (getLevelConfig (currentLevel s)) = true <-> 51 <= currentLevel s)
  /\
  (isEndless (getLevelConfig (currentLevel s)) = true ->
   isLevelComplete currentFloor s = (Normal false, s))
  /\
  (isEndless (getLevelConfig (currentLevel s)) = false ->
   exists answer,
     isLevelComplete currentFloor s = (Normal answer, s) /\
     (answer = true <->
      floorCount (getLevelConfig (currentLevel s)) <= currentFloor)).
Proof.
  rewrite isLevelComplete_run.
  split; [apply Z.leb_le|].
  split; [intros ->; reflexivity|].
  intros ->. eexists; split; [reflexivity | apply Z.leb_le].
Qed.

(** C5, as amended.  [getFurthestLevel] never throws and leaves the
    session as it is.  It returns 1 when no value is stored under the key
    (or the empty string is) and when the storage cannot be read.  When a
    non-empty string is stored and can be read, it returns [parseInt] of
    that string, whatever it is. *)
Theorem getFurthestLevel_default (s : Session) :
  (exists v, getFurthestLevel s = (Normal v, s)) /\
  (items (localStorage s) !! FURTHEST_LEVEL_KEY = None ->
   fst (getFurthestLevel s) = Normal (Num 1)) /\
  (items (localStorage s) !! FURTHEST_LEVEL_KEY = Some "" ->
   fst (getFurthestLevel s) = Normal (Num 1)) /\
  (readable (localStorage s) = false ->
   fst (getFurthestLevel s) = Normal (Num 1)) /\
  (forall stored,
     readable (localStorage s) = true ->
     items (localStorage s) !! FURTHEST_LEVEL_KEY = Some stored ->
     stored <> "" ->
     fst (getFurthestLevel s) = Normal (parseInt stored)).
Proof.
  rewrite getFurthestLevel_run. cbn [fst]. unfold persistedFurthest.
  split; [eexists; reflexivity|].
  split; [intros ->; destruct (readable _); reflexivity|].
  split; [intros ->; destruct (readable _); reflexivity|].
  split; [intros ->; reflexivity|].
  intros stored -> -> Hstored.
  destruct stored; [contradiction | reflexivity].
Qed.

End SessionFacts.

(** C5, as stated, fails on a damaged record: with the string [corrupt]
    stored under the key, [getFurthestLevel] returns [NaN], which is neither
    1 nor an integer. *)
Lemma getFurthestLevel_corrupt_store :
  fst (getFurthestLevel (newSession corruptStorage)) = Normal NaN /\
  fst (getFurthestLevel (newSession corruptStorage)) <> Normal (Num 1) /\
  ~ (exists z, fst (getFurthestLevel (newSession corruptStorage))
               = Normal (Num z)).
Proof.
  assert (Hrun : fst (getFurthestLevel (newSession corruptStorage))
                 = Normal NaN) by (vm_compute; reflexivity).
  rewrite Hrun. split; [reflexivity|].
  split; [discriminate | intros [z Hz]; discriminate].
Qed.



Example record_follows_large_levels :
  let s := performAll (spawning := exampleSpawning)
             [OpSetCurrentLevel 12; OpNextLevel; OpSetCurrentLevel (2 ^ 60);
              OpSetCurrentLevel 4; OpResetToStart; OpNextLevel]
             (newSession (storageWithRecord "5")) in
  currentLevel s = 2 /\
  items (localStorage s) !! FURTHEST_LEVEL_KEY = Some "1152921504606847000" /\
  persistedFurthest s = Num (2 ^ 60).
Proof. vm_compute. repeat split; reflexivity. Qed.

(** ** Enemy selection *)

Section SelectionFacts.

Variable enemyCost : EnemyType -> Q.
Variable maxAttempts : nat.
Variable spawnWeights : Z -> gmap string Q.

Lemma totalCost_cons (kind : EnemyType) (enemies : list EnemyType) :
  SpawningModel.totalCost enemyCost (kind :: enemies)
  = (enemyCost kind + SpawningModel.totalCost enemyCost enemies)%Q.
Proof. reflexivity. Qed.

Lemma selectLoop_cost (random : nat -> Q) (weights : gmap string Q) :
  forall attemptsLeft attempt remaining,
    (0 <= remaining)%Q ->
    (SpawningModel.totalCost enemyCost
       (SpawningModel.selectLoop enemyCost attemptsLeft attempt random
          weights remaining) <= remaining)%Q.
Proof.
  induction attemptsLeft as [|attemptsLeft IH]; intros attempt remaining Hpos;
    cbn [SpawningModel.selectLoop].
  - exact Hpos.
  - destruct (existsb _ _); [|exact Hpos].
    destruct (SpawningModel.weightedChoice weights (random attempt))
      as [kind|]; [|apply IH; exact Hpos].
    destruct (SpawningModel.affordable enemyCost remaining kind) eqn:Hcan;
      [|apply IH; exact Hpos].
    apply Qle_bool_iff in Hcan.
    rewrite totalCost_cons.
    specialize (IH (S attempt) (remaining - enemyCost kind)%Q).
    assert (Hrest : (0 <= remaining - enemyCost kind)%Q) by lra.
    specialize (IH Hrest). lra.
Qed.




End SelectionFacts.




(** The level manager over the selection model keeps every floor within the
    budget of the capped configuration level. *)
Lemma getEnemyTypesForFloor_within_budget
    (budget : Z -> Z -> Q) (weights : Z -> gmap string Q)
    (cost : EnemyType -> Q) (cap : nat) (random : nat -> Q)
    (levelNumber floorNumber : Z) :
  (0 <= budget (Z.min levelNumber 50) floorNumber)%Q ->
  (SpawningModel.totalCost cost
     (getEnemyTypesForFloor
        (spawning := SpawningModel.system budget weights cost cap)
        random levelNumber floorNumber)
   <= budget (Z.min levelNumber 50) floorNumber)%Q.
Proof.
  intros Hbudget. unfold getEnemyTypesForFloor, SpawningModel.system.
  cbn [getDifficultyBudget selectEnemies].
  apply selectLoop_cost. exact Hbudget.
Qed.

(** ** Runs on concrete inputs *)

Example calculateFloorCount_samples :
  map calculateFloorCount [1; 5; 10; 11; 25; 26; 40; 41; 50; 51; 1000]
  = [10; 11; 12; 13; 18; 19; 25; 25; 30; -1; -1].
Proof. vm_compute. reflexivity. Qed.

Example parseInt_samples :
  map parseInt ["12"; "  42px"; "-7"; "0x1f"; ""; "corrupt"; "1e+21";
                String (ascii_of_nat 160) "5"; "9007199254740993";
                decimal (2 ^ 1024); "-" +:+ decimal (2 ^ 1024)]
  = [Num 12; Num 42; Num (-7); Num 31; NaN; NaN; Num 1;
     Num 5; Num 9007199254740992; Infinity false; Infinity true].
Proof. vm_compute. reflexivity. Qed.

(** At 2^53 the increment of [nextLevel] is lost, and the level stays. *)
Example nextLevel_at_2_53 :
  fst (nextLevel (withLevel (2 ^ 53) (newSession emptyStorage)))
  = Normal (2 ^ 53) /\
  fst (nextLevel (withLevel (2 ^ 53 + 2) (newSession emptyStorage)))
  = Normal (2 ^ 53 + 4).
Proof. vm_compute. split; reflexivity. Qed.

Example selectEnemies_sample :
  SpawningModel.selectEnemies exampleCost 50 exampleWeights exampleRandom 6 20
  = ["green"; "yellow"; "blue"; "yellow"; "blue"; "yellow"].
Proof. vm_compute. reflexivity. Qed.

Example nextLevel_records_progress :
  let s := performAll (spawning := exampleSpawning)
             [OpNextLevel; OpNextLevel; OpResetToStart; OpNextLevel]
             (newSession emptyStorage) in
  currentLevel s = 2 /\
  items (localStorage s) !! FURTHEST_LEVEL_KEY = Some "3".
Proof. vm_compute. split; reflexivity. Qed.

Example unreadable_storage_defaults :
  fst (getFurthestLevel (newSession unreadableStorage)) = Normal (Num 1).
Proof. vm_compute. reflexivity. Qed.

Example isLevelComplete_samples :
  let at_level level floor :=
    fst (isLevelComplete (spawning := exampleSpawning) floor
           (withLevel level (newSession emptyStorage))) in
  at_level 1 9 = Normal false /\
  at_level 1 10 = Normal true /\
  at_level 50 29 = Normal false /\
  at_level 50 30 = Normal true /\
  at_level 51 1000 = Normal false.
Proof. vm_compute. repeat split; reflexivity. Qed.

Example setCurrentLevel_lower_keeps_record :
  let s := performAll (spawning := exampleSpawning)
             [OpSetCurrentLevel 12; OpSetCurrentLevel 4]
             (newSession emptyStorage) in
  currentLevel s = 4 /\
  fst (getFurthestLevel s) = Normal (Num 12).
Proof. vm_compute. split; reflexivity. Qed.

(** ** More on the state machine *)

Lemma afterSave_flags (s : Session) :
  readable (localStorage (afterSave s)) = readable (localStorage s) /\
  writable (localStorage (afterSave s)) = writable (localStorage s).
Proof.
  destruct (afterSave_cases s) as [->|[-> _]]; split; reflexivity.
Qed.

Lemma afterSave_other_keys (s : Session) (key : string) :
  key <> FURTHEST_LEVEL_KEY ->
  items (localStorage (afterSave s)) !! key = items (localStorage s) !! key.
Proof.
  intros Hkey. destruct (afterSave_cases s) as [->|[-> _]]; [reflexivity|].
  cbn [recordFurthest localStorage items].
  apply lookup_insert_ne. congruence.
Qed.

(** With a storage that works and holds a number, [saveProgress] leaves
    the larger of that number and the current level. *)
Lemma afterSave_maximum (s : Session) (p : Z) :
  readable (localStorage s) = true ->
  writable (localStorage s) = true ->
  persistedFurthest s = Num p ->
  printable (currentLevel s) ->
  persistedFurthest (afterSave s) = Num (Z.max p (currentLevel s)).
Proof.
  intros Hread Hwrite Hp Hlevel. unfold afterSave.
  rewrite Hread, Hwrite, Hp. cbn [gt_number andb].
  destruct (Z.ltb_spec p (currentLevel s)) as [Hlt|Hge]; cbn [andb].
  - rewrite persistedFurthest_recordFurthest by exact Hlevel. f_equal. lia.
  - rewrite Hp. f_equal. lia.
Qed.

(** [saveProgress] writes nothing when the record reads as [NaN], when the
    storage cannot be read, and when it cannot be written. *)
Lemma afterSave_blocked (s : Session) :
  persistedFurthest s = NaN \/
  readable (localStorage s) = false \/
  writable (localStorage s) = false ->
  afterSave s = s.
Proof.
  unfold afterSave. intros [Hnan | [Hread | Hwrite]].
  - rewrite Hnan. cbn [gt_number]. rewrite andb_false_r. reflexivity.
  - rewrite Hread. reflexivity.
  - rewrite Hwrite, andb_false_r. reflexivity.
Qed.

Section SessionExtras.

Context {spawning : EnemySpawningSystem}.

Lemma performAll_cons (op : operation) (ops : list operation) (s : Session) :
  performAll (op :: ops) s = performAll ops (perform op s).
Proof. reflexivity. Qed.

Lemma performAll_app (ops ops' : list operation) (s : Session) :
  performAll (ops ++ ops') s = performAll ops' (performAll ops s).
Proof. unfold performAll. apply fold_left_app. Qed.

Lemma perform_nextLevel (s : Session) :
  perform OpNextLevel s
  = afterSave (withLevel (roundToDouble (currentLevel s + 1)) s).
Proof. cbn [perform]. rewrite nextLevel_run. reflexivity. Qed.

Lemma perform_nextLevel_exact (s : Session) :
  Z.abs (currentLevel s) < 2 ^ 53 ->
  perform OpNextLevel s = afterSave (withLevel (currentLevel s + 1) s).
Proof.
  intros Hlevel. rewrite perform_nextLevel, increment_exact by exact Hlevel.
  reflexivity.
Qed.

Lemma perform_setCurrentLevel (level : Z) (s : Session) :
  perform (OpSetCurrentLevel level) s = afterSave (withLevel level s).
Proof. cbn [perform]. rewrite setCurrentLevel_run. reflexivity. Qed.

Lemma nextLevels_currentLevel (k : nat) :
  forall s,
    0 <= currentLevel s ->
    currentLevel s + Z.of_nat k <= 2 ^ 53 ->
    currentLevel (performAll (replicate k OpNextLevel) s)
    = currentLevel s + Z.of_nat k.
Proof.
  induction k as [|k IH]; intros s Hlow Hhigh.
  - cbn. lia.
  - cbn [replicate].
    rewrite performAll_cons, perform_nextLevel_exact by lia.
    rewrite IH; rewrite afterSave_currentLevel; cbn [withLevel currentLevel];
      lia.
Qed.

(** Once it has reached level 51 a level manager stays there or above. *)
Lemma nextLevels_stay_in_beast_mode (k : nat) :
  forall s,
    51 <= currentLevel s ->
    51 <= currentLevel (performAll (replicate k OpNextLevel) s).
Proof.
  induction k as [|k IH]; intros s Hlevel; [exact Hlevel|].
  cbn [replicate]. rewrite performAll_cons. apply IH.
  rewrite perform_nextLevel, afterSave_currentLevel.
  cbn [withLevel currentLevel].
  apply roundToDouble_ge; [vm_compute; split; discriminate | lia].
Qed.

(** X1. A new level manager that is advanced [k] times, [k] below 2^53, is
    at level [1 + k], whatever the storage does; and however often it is
    advanced, it is in BEAST MODE exactly when [k] is at least 50: the
    fiftieth call of [nextLevel] is the one that enters it. *)
Theorem nextLevel_enters_beast_mode (k : nat) (storage : Storage) :
  (Z.of_nat k < 2 ^ 53 ->
   fst (getCurrentLevel
          (performAll (replicate k OpNextLevel) (newSession storage)))
   = Normal (1 + Z.of_nat k)) /\
  (fst (isBeastMode
          (performAll (replicate k OpNextLevel) (newSession storage)))
   = Normal true <-> (50 <= k)%nat) /\
  (fst (isBeastMode
          (performAll (replicate k OpNextLevel) (newSession storage)))
   = Normal false <-> (k < 50)%nat).
Proof.
  assert (Hexact : Z.of_nat k < 2 ^ 53 ->
            currentLevel
              (performAll (replicate k OpNextLevel) (newSession storage))
            = 1 + Z.of_nat k).
  { intros Hk. rewrite nextLevels_currentLevel; cbn [newSession currentLevel];
      lia. }
  assert (Hsmall : 50 < 2 ^ 53) by (vm_compute; reflexivity).
  unfold getCurrentLevel, isBeastMode, bind, getThisCurrentLevel, ret.
  cbn [fst]. unfold BEAST_MODE_LEVEL.
  split; [intros Hk; rewrite Hexact by exact Hk; reflexivity|].
  destruct (le_lt_dec 50 k) as [Hbeast|Hfinite].
  - assert (Hlevel : 51 <= currentLevel
              (performAll (replicate k OpNextLevel) (newSession storage))).
    { replace k with (50 + (k - 50))%nat by lia.
      rewrite replicate_add, performAll_app.
      apply nextLevels_stay_in_beast_mode.
      rewrite nextLevels_currentLevel; cbn [newSession currentLevel]; lia. }
    apply Z.leb_le in Hlevel. rewrite Hlevel.
    split; split; intros H'; try reflexivity; try discriminate; lia.
  - rewrite Hexact by lia.
    destruct (Z.leb_spec 51 (1 + Z.of_nat k)); [lia|].
    split; split; intros H'; try reflexivity; try discriminate; lia.
Qed.

(** X2. [nextLevel] and [setCurrentLevel] never throw, also when the
    storage throws on every access; in that case the storage is left as it
    was.  [nextLevel] returns the new current level, which is the old one
    plus one below 2^53 in magnitude, and [setCurrentLevel] makes its
    argument the current level. *)
Theorem level_changes_survive_storage_failure (level : Z) (s : Session) :
  fst (nextLevel s) = Normal (currentLevel (snd (nextLevel s))) /\
  (Z.abs (currentLevel s) < 2 ^ 53 ->
   currentLevel (snd (nextLevel s)) = currentLevel s + 1) /\
  fst (setCurrentLevel level s) = Normal tt /\
  fst (getCurrentLevel (snd (setCurrentLevel level s))) = Normal level /\
  (readable (localStorage s) = false \/ writable (localStorage s) = false ->
   localStorage (snd (nextLevel s)) = localStorage s /\
   localStorage (snd (setCurrentLevel level s)) = localStorage s).
Proof.
  rewrite nextLevel_run, setCurrentLevel_run.
  unfold getCurrentLevel, getThisCurrentLevel. cbn [fst snd].
  rewrite !afterSave_currentLevel. cbn [withLevel currentLevel].
  split; [reflexivity|].
  split; [apply increment_exact|].
  do 2 (split; [reflexivity|]).
  intros Hfail.
  rewrite !afterSave_blocked by (right; exact Hfail).
  split; reflexivity.
Qed.

Lemma perform_frame (op : operation) (s : Session) (key : string) :
  key <> FURTHEST_LEVEL_KEY ->
  items (localStorage (perform op s)) !! key = items (localStorage s) !! key.
Proof.
  intros Hkey. destruct op; cbn [perform]; try reflexivity.
  - rewrite isLevelComplete_run. reflexivity.
  - rewrite nextLevel_run. cbn [snd].
    rewrite afterSave_other_keys by exact Hkey. reflexivity.
  - rewrite setCurrentLevel_run. cbn [snd].
    rewrite afterSave_other_keys by exact Hkey. reflexivity.
  - rewrite getFurthestLevel_run. reflexivity.
Qed.

Lemma perform_flags (op : operation) (s : Session) :
  readable (localStorage (perform op s)) = readable (localStorage s) /\
  writable (localStorage (perform op s)) = writable (localStorage s).
Proof.
  destruct op; cbn [perform]; try (split; reflexivity).
  - rewrite isLevelComplete_run. split; reflexivity.
  - rewrite nextLevel_run. cbn [snd].
    exact (afterSave_flags
             (withLevel (roundToDouble (currentLevel s + 1)) s)).
  - rewrite setCurrentLevel_run. cbn [snd].
    exact (afterSave_flags (withLevel level s)).
  - rewrite getFurthestLevel_run. split; reflexivity.
Qed.

(** X3. The level manager writes one key of [localStorage] only: whatever
    operations are performed, the item under any other key is what it
    was. *)
Theorem operations_keep_other_keys
    (ops : list operation) (s : Session) (key : string) :
  key <> FURTHEST_LEVEL_KEY ->
  items (localStorage (performAll ops s)) !! key
  = items (localStorage s) !! key.
Proof.
  intros Hkey. revert s.
  induction ops as [|op ops IH]; intros s; [reflexivity|].
  rewrite performAll_cons, IH. apply perform_frame. exact Hkey.
Qed.

End SessionExtras.

Lemma operations_keep_other_keys_witness :
  "bz_wallet" <> FURTHEST_LEVEL_KEY /\
  items (localStorage
           (performAll (spawning := exampleSpawning)
              [OpNextLevel; OpSetCurrentLevel 9]
              (newSession {| items := {[ "bz_wallet" := "0xabc" ]};
                             readable := true; writable := true |})))
    !! "bz_wallet"
  = Some "0xabc".
Proof.
  assert (Hkey : "bz_wallet" <> FURTHEST_LEVEL_KEY) by discriminate.
  split; [exact Hkey|].
  rewrite (operations_keep_other_keys (spawning := exampleSpawning)
             [OpNextLevel; OpSetCurrentLevel 9] _ "bz_wallet" Hkey).
  reflexivity.
Defined.

Section RecordExtras.

Context {spawning : EnemySpawningSystem}.

Lemma performAll_flags (ops : list operation) :
  forall s,
    readable (localStorage (performAll ops s)) = readable (localStorage s) /\
    writable (localStorage (performAll ops s)) = writable (localStorage s).
Proof.
  induction ops as [|op ops IH]; intros s; [split; reflexivity|].
  rewrite performAll_cons.
  destruct (IH (perform op s)) as [-> ->]. apply perform_flags.
Qed.

(** X4. With a storage that works and a record that reads as the number
    [p], the furthest level after [setCurrentLevel(level)] is the larger of
    [p] and [level], for a double [level] below 10^21 in magnitude, and
    after [nextLevel()] the larger of [p] and the current level plus one,
    for a current level below 2^53 in magnitude. *)
Theorem progress_records_maximum (level p : Z) (s : Session) :
  readable (localStorage s) = true ->
  writable (localStorage s) = true ->
  persistedFurthest s = Num p ->
  printable level ->
  Z.abs (currentLevel s) < 2 ^ 53 ->
  fst (getFurthestLevel (snd (setCurrentLevel level s)))
  = Normal (Num (Z.max p level)) /\
  fst (getFurthestLevel (snd (nextLevel s)))
  = Normal (Num (Z.max p (currentLevel s + 1))).
Proof.
  intros Hread Hwrite Hp Hlevel Hcurrent.
  rewrite setCurrentLevel_run, nextLevel_run. cbn [snd].
  rewrite increment_exact by exact Hcurrent.
  rewrite !getFurthestLevel_run. cbn [fst].
  pose proof (afterSave_flags (withLevel level s)) as [Hr1 _].
  pose proof (afterSave_flags (withLevel (currentLevel s + 1) s)) as [Hr2 _].
  cbn [withLevel localStorage] in Hr1, Hr2.
  rewrite Hr1, Hr2, Hread.
  rewrite (afterSave_maximum (withLevel level s) p Hread Hwrite Hp)
    by exact Hlevel.
  rewrite (afterSave_maximum (withLevel (currentLevel s + 1) s) p
             Hread Hwrite Hp) by (apply printable_safe; cbn; lia).
  split; reflexivity.
Qed.

Lemma nextLevels_record (j : nat) :
  forall (s : Session) (p : Z),
    readable (localStorage s) = true ->
    writable (localStorage s) = true ->
    persistedFurthest s = Num p ->
    currentLevel s <= p ->
    0 <= currentLevel s ->
    currentLevel s + Z.of_nat j <= 2 ^ 53 ->
    persistedFurthest (performAll (replicate j OpNextLevel) s)
    = Num (Z.max p (currentLevel s + Z.of_nat j)).
Proof.
  induction j as [|j IH]; intros s p Hread Hwrite Hp Hle Hlow Hhigh.
  - cbn [replicate performAll fold_left]. rewrite Hp. f_equal. lia.
  - cbn [replicate]. rewrite performAll_cons, perform_nextLevel_exact by lia.
    set (s1 := afterSave (withLevel (currentLevel s + 1) s)).
    pose proof (afterSave_flags (withLevel (currentLevel s + 1) s))
      as [Hr Hw].
    pose proof (afterSave_maximum (withLevel (currentLevel s + 1) s) p
                  Hread Hwrite Hp) as Hmax.
    pose proof (afterSave_currentLevel (withLevel (currentLevel s + 1) s))
      as Hlevel.
    fold s1 in Hr, Hw, Hmax, Hlevel.
    cbn [withLevel localStorage currentLevel] in Hr, Hw, Hmax, Hlevel.
    rewrite (IH s1 (Z.max p (currentLevel s + 1))).
    + rewrite Hlevel. f_equal. lia.
    + rewrite Hr. exact Hread.
    + rewrite Hw. exact Hwrite.
    + apply Hmax. apply printable_safe. lia.
    + rewrite Hlevel. lia.
    + rewrite Hlevel. lia.
    + rewrite Hlevel. lia.
Qed.

(** X5. A player who starts with no record and a working storage, advances
    [k] times, dies ([resetToStart]) and advances [m] times in a second
    run ([k] and [m] below 2^53): the furthest level is [1 + k] after the
    first run and [1 + max k m] after the second, while the current level
    is [1 + m]. *)
Theorem second_run_keeps_record (k m : nat) (storage : Storage) :
  readable storage = true ->
  writable storage = true ->
  items storage !! FURTHEST_LEVEL_KEY = None ->
  Z.of_nat k < 2 ^ 53 ->
  Z.of_nat m < 2 ^ 53 ->
  fst (getFurthestLevel
         (performAll (replicate k OpNextLevel) (newSession storage)))
  = Normal (Num (1 + Z.of_nat k)) /\
  fst (getFurthestLevel
         (performAll (replicate k OpNextLevel ++ OpResetToStart
                        :: replicate m OpNextLevel) (newSession storage)))
  = Normal (Num (1 + Z.max (Z.of_nat k) (Z.of_nat m))) /\
  currentLevel
    (performAll (replicate k OpNextLevel ++ OpResetToStart
                   :: replicate m OpNextLevel) (newSession storage))
  = 1 + Z.of_nat m.
Proof.
  intros Hread Hwrite Hnone Hk Hm.
  assert (Hstart : persistedFurthest (newSession storage) = Num 1).
  { unfold persistedFurthest. cbn [newSession localStorage].
    rewrite Hnone. vm_compute. reflexivity. }
  set (first := performAll (replicate k OpNextLevel) (newSession storage)).
  assert (Hfirst : persistedFurthest first = Num (1 + Z.of_nat k)).
  { unfold first.
    rewrite (nextLevels_record k (newSession storage) 1 Hread Hwrite Hstart)
      by (cbn [newSession currentLevel]; lia).
    cbn [newSession currentLevel]. f_equal. lia. }
  destruct (performAll_flags (replicate k OpNextLevel) (newSession storage))
    as [Hr1 Hw1].
  fold first in Hr1, Hw1. cbn [newSession localStorage] in Hr1, Hw1.
  rewrite performAll_app. fold first. rewrite performAll_cons.
  change (perform OpResetToStart first) with (withLevel 1 first).
  set (second := performAll (replicate m OpNextLevel) (withLevel 1 first)).
  assert (Hsecond : persistedFurthest second
                    = Num (1 + Z.max (Z.of_nat k) (Z.of_nat m))).
  { unfold second.
    rewrite (nextLevels_record m (withLevel 1 first) (1 + Z.of_nat k)).
    - cbn [withLevel currentLevel]. f_equal. lia.
    - cbn [withLevel localStorage]. rewrite Hr1. exact Hread.
    - cbn [withLevel localStorage]. rewrite Hw1. exact Hwrite.
    - exact Hfirst.
    - cbn [withLevel currentLevel]. lia.
    - cbn [withLevel currentLevel]. lia.
    - cbn [withLevel currentLevel]. lia. }
  destruct (performAll_flags (replicate m OpNextLevel) (withLevel 1 first))
    as [Hr2 _].
  fold second in Hr2. cbn [withLevel localStorage] in Hr2.
  rewrite !getFurthestLevel_run. cbn [fst].
  rewrite Hr2, Hr1, Hread, Hfirst, Hsecond.
  split; [reflexivity|]. split; [reflexivity|].
  unfold second.
  rewrite nextLevels_currentLevel; cbn [withLevel currentLevel]; lia.
Qed.

Lemma perform_blocked (op : operation) (s : Session) :
  persistedFurthest s = NaN \/
  readable (localStorage s) = false \/
  writable (localStorage s) = false ->
  localStorage (perform op s) = localStorage s.
Proof.
  intros Hblocked.
  destruct (perform_storage op s) as [Hsame | (Hop & Hgt & _)];
    [exact Hsame|].
  destruct Hop as [->|[level ->]].
  - rewrite perform_nextLevel.
    rewrite afterSave_blocked by exact Hblocked. reflexivity.
  - rewrite perform_setCurrentLevel.
    rewrite afterSave_blocked by exact Hblocked. reflexivity.
Qed.

(** X6. A record that does not read as a number is never repaired, and a
    storage that cannot be read or cannot be written is never changed:
    in each of these cases every sequence of operations leaves
    [localStorage] exactly as it was. *)
Theorem blocked_storage_is_never_written
    (ops : list operation) (s : Session) :
  persistedFurthest s = NaN \/
  readable (localStorage s) = false \/
  writable (localStorage s) = false ->
  localStorage (performAll ops s) = localStorage s.
Proof.
  revert s. induction ops as [|op ops IH]; intros s Hblocked;
    [reflexivity|].
  rewrite performAll_cons.
  pose proof (perform_blocked op s Hblocked) as Hsame.
  rewrite IH; [exact Hsame|].
  unfold persistedFurthest. rewrite Hsame. exact Hblocked.
Qed.

End RecordExtras.

Lemma progress_records_maximum_witness :
  let s := withLevel 3
             (newSession {| items := {[ FURTHEST_LEVEL_KEY := "5" ]};
                            readable := true; writable := true |}) in
  readable (localStorage s) = true /\
  writable (localStorage s) = true /\
  persistedFurthest s = Num 5 /\
  fst (getFurthestLevel (snd (setCurrentLevel 9 s))) = Normal (Num 9) /\
  fst (getFurthestLevel (snd (nextLevel s))) = Normal (Num 5).
Proof.
  intros s.
  assert (Hread : readable (localStorage s) = true) by reflexivity.
  assert (Hwrite : writable (localStorage s) = true) by reflexivity.
  assert (Hp : persistedFurthest s = Num 5) by (vm_compute; reflexivity).
  do 3 (split; [assumption|]).
  assert (Hlevel : printable 9) by (split; vm_compute; reflexivity).
  assert (Hcurrent : Z.abs (currentLevel s) < 2 ^ 53)
    by (vm_compute; reflexivity).
  exact (progress_records_maximum 9 5 s Hread Hwrite Hp Hlevel Hcurrent).
Defined.

Lemma second_run_keeps_record_witness :
  readable emptyStorage = true /\
  writable emptyStorage = true /\
  items emptyStorage !! FURTHEST_LEVEL_KEY = None /\
  fst (getFurthestLevel
         (performAll (spawning := exampleSpawning)
            (replicate 4 OpNextLevel ++ OpResetToStart
               :: replicate 2 OpNextLevel) (newSession emptyStorage)))
  = Normal (Num 5).
Proof.
  assert (Hread : readable emptyStorage = true) by reflexivity.
  assert (Hwrite : writable emptyStorage = true) by reflexivity.
  assert (Hnone : items emptyStorage !! FURTHEST_LEVEL_KEY = None)
    by reflexivity.
  assert (Hk : Z.of_nat 4 < 2 ^ 53) by (vm_compute; reflexivity).
  assert (Hm : Z.of_nat 2 < 2 ^ 53) by (vm_compute; reflexivity).
  do 3 (split; [assumption|]).
  exact (proj1 (proj2 (second_run_keeps_record (spawning := exampleSpawning)
                         4 2 emptyStorage Hread Hwrite Hnone Hk Hm))).
Defined.

Lemma blocked_storage_is_never_written_witness :
  (persistedFurthest (newSession corruptStorage) = NaN \/
   readable (localStorage (newSession corruptStorage)) = false \/
   writable (localStorage (newSession corruptStorage)) = false) /\
  localStorage
    (performAll (spawning := exampleSpawning)
       [OpNextLevel; OpSetCurrentLevel 40; OpNextLevel]
       (newSession corruptStorage))
  = corruptStorage.
Proof.
  assert (Hblocked :
    persistedFurthest (newSession corruptStorage) = NaN \/
    readable (localStorage (newSession corruptStorage)) = false \/
    writable (localStorage (newSession corruptStorage)) = false)
    by (left; vm_compute; reflexivity).
  split; [exact Hblocked|].
  exact (blocked_storage_is_never_written (spawning := exampleSpawning)
           [OpNextLevel; OpSetCurrentLevel 40; OpNextLevel]
           (newSession corruptStorage) Hblocked).
Defined.

(** ** More on the level configuration *)

Section ConfigExtras.

Context {spawning : EnemySpawningSystem}.

(** X7. On a finite level (1 to 50) the level is never complete below
    floor 10 and always complete from floor 30 on; on every level, a level
    that is complete at one floor is complete at every higher floor. *)
Theorem isLevelComplete_floor_bounds (currentFloor higher : Z) (s : Session) :
  1 <= currentLevel s <= 50 ->
  (currentFloor < 10 -> fst (isLevelComplete currentFloor s) = Normal false) /\
  (30 <= currentFloor -> fst (isLevelComplete currentFloor s) = Normal true) /\
  (currentFloor <= higher ->
   fst (isLevelComplete currentFloor s) = Normal true ->
   fst (isLevelComplete higher s) = Normal true).
Proof.
  intros Hlevel. rewrite !isLevelComplete_run. cbn [fst].
  cbn [getLevelConfig isEndless floorCount]. unfold BEAST_MODE_LEVEL.
  destruct (Z.leb_spec 51 (currentLevel s)) as [Hbeast|_]; [lia|].
  rewrite (calculateFloorCount_exact _ Hlevel).
  pose proof (floorCountExact_mono 1 (currentLevel s)) as Hlow.
  pose proof (floorCountExact_mono (currentLevel s) 50) as Hhigh.
  change (floorCountExact 1) with 10 in Hlow.
  change (floorCountExact 50) with 30 in Hhigh.
  split; [|split].
  - intros Hfloor. f_equal. apply Z.leb_gt. lia.
  - intros Hfloor. f_equal. apply Z.leb_le. lia.
  - intros Hle Hdone. injection Hdone as Hdone. apply Z.leb_le in Hdone.
    f_equal. apply Z.leb_le. lia.
Qed.

(** X8. From level 50 on the enemies of a floor are selected exactly as on
    level 50: the same budget and the same weights, so, with the same
    random draws, the same enemies. *)
Theorem getEnemyTypesForFloor_capped
    (random : nat -> Q) (levelNumber floorNumber : Z) :
  50 <= levelNumber ->
  getEnemyTypesForFloor random levelNumber floorNumber
  = getEnemyTypesForFloor random 50 floorNumber.
Proof.
  intros Hlevel. unfold getEnemyTypesForFloor, MAX_PROGRESSION_LEVEL.
  rewrite (Z.min_r levelNumber 50 Hlevel). reflexivity.
Qed.

(** X9. On the levels a game can ask for (1 and up) the floor count [-1]
    marks the endless levels and no other: the floor count is [-1] exactly
    when the level is endless, and a level that is not endless has between
    10 and 30 floors. *)
Theorem floorCount_sentinel_marks_endless (n : Z) :
  1 <= n ->
  (floorCount (getLevelConfig n) = -1 <-> isEndless (getLevelConfig n) = true)
  /\
  (isEndless (getLevelConfig n) = false ->
   10 <= floorCount (getLevelConfig n) <= 30).
Proof.
  intros Hn. cbn [getLevelConfig isEndless floorCount].
  unfold BEAST_MODE_LEVEL.
  destruct (Z.leb_spec 51 n) as [Hbeast|Hfinite].
  - rewrite (calculateFloorCount_beast n Hbeast).
    split; [split; reflexivity | discriminate].
  - rewrite (calculateFloorCount_exact n) by lia.
    pose proof (floorCountExact_mono 1 n) as Hlow.
    pose proof (floorCountExact_mono n 50) as Hhigh.
    change (floorCountExact 1) with 10 in Hlow.
    change (floorCountExact 50) with 30 in Hhigh.
    split; [split; [lia | discriminate] | lia].
Qed.

(** X10. The collectible palette of a level configuration only grows with
    the level number: every kind offered at a level is offered at every
    higher level, BEAST MODE levels included, and coins are offered at every
    level. *)
Theorem collectibleTypes_grow (a b : Z) :
  a <= b ->
  incl (collectibleTypes (getLevelConfig a))
       (collectibleTypes (getLevelConfig b)) /\
  In "coin" (collectibleTypes (getLevelConfig a)).
Proof.
  intros Hab. cbn [getLevelConfig collectibleTypes].
  split.
  - apply getCollectibleTypes_additive. unfold MAX_PROGRESSION_LEVEL. lia.
  - unfold getCollectibleTypes.
    repeat match goal with
           | |- context [?x <=? ?y] => destruct (Z.leb_spec x y)
           end; left; reflexivity.
Qed.

End ConfigExtras.

Lemma isLevelComplete_floor_bounds_witness :
  let s := withLevel 20 (newSession emptyStorage) in
  1 <= currentLevel s <= 50 /\
  fst (isLevelComplete (spawning := exampleSpawning) 9 s) = Normal false /\
  fst (isLevelComplete (spawning := exampleSpawning) 31 s) = Normal true.
Proof.
  intros s.
  assert (Hlevel : 1 <= currentLevel s <= 50) by (cbn; lia).
  split; [exact Hlevel|].
  split.
  - exact (proj1 (isLevelComplete_floor_bounds (spawning := exampleSpawning)
                    9 9 s Hlevel) ltac:(lia)).
  - exact (proj1 (proj2 (isLevelComplete_floor_bounds
                           (spawning := exampleSpawning) 31 31 s Hlevel))
             ltac:(lia)).
Defined.

Lemma getEnemyTypesForFloor_capped_witness :
  50 <= 77 /\
  getEnemyTypesForFloor (spawning := exampleSpawning) exampleRandom 77 12
  = getEnemyTypesForFloor (spawning := exampleSpawning) exampleRandom 50 12.
Proof.
  assert (Hlevel : 50 <= 77) by lia.
  split; [exact Hlevel|].
  exact (getEnemyTypesForFloor_capped (spawning := exampleSpawning)
           exampleRandom 77 12 Hlevel).
Defined.

Lemma floorCount_sentinel_marks_endless_witness :
  1 <= 33 /\
  10 <= floorCount (getLevelConfig (spawning := exampleSpawning) 33) <= 30.
Proof.
  assert (Hn : 1 <= 33) by lia.
  split; [exact Hn|].
  apply (floorCount_sentinel_marks_endless (spawning := exampleSpawning)
           33 Hn).
  reflexivity.
Defined.

Lemma collectibleTypes_grow_witness :
  1 <= 3 /\
  incl (collectibleTypes (getLevelConfig (spawning := exampleSpawning) 1))
       (collectibleTypes (getLevelConfig (spawning := exampleSpawning) 3)).
Proof.
  assert (Hab : 1 <= 3) by lia.
  split; [exact Hab|].
  exact (proj1 (collectibleTypes_grow (spawning := exampleSpawning) 1 3 Hab)).
Defined.

(** Below level 1 the floor count can be [-1] on a level that is not
    endless: the sentinel is unambiguous on the valid levels only. *)
Example floorCount_sentinel_below_level_1 :
  floorCount (getLevelConfig (spawning := exampleSpawning) (-53)) = -1 /\
  isEndless (getLevelConfig (spawning := exampleSpawning) (-53)) = false.
Proof. vm_compute. split; reflexivity. Qed.

(** ** The legacy spawn rates *)

Lemma baseRates_lookup (enemy : string) :
  baseRates !! enemy
  = if decide (enemy = "blue") then Some (decimalLiteral 12 1)
    else if decide (enemy = "yellow") then Some (decimalLiteral 8 1)
    else if decide (enemy = "green") then Some (decimalLiteral 5 1)
    else if decide (enemy = "red") then Some (decimalLiteral 3 1)
    else None.
Proof.
  unfold baseRates.
  repeat (case_decide as Hcase;
          [subst enemy; reflexivity
          | rewrite lookup_insert_ne by congruence; clear Hcase]).
  case_decide as Hcase; [subst enemy; reflexivity|].
  apply lookup_singleton_ne. congruence.
Qed.

(** The rates are the base rates, each multiplied by the multiplier of the
    level. *)
Lemma getEnemySpawnRates_scaled (n : Z) :
  getEnemySpawnRates n
  = (fun base => Float64.mul base (difficultyMultiplier n)) <$> baseRates.
Proof.
  apply map_eq. intros enemy. rewrite lookup_fmap.
  unfold getEnemySpawnRates, getEnemyTypes. cbn [fold_left].
  rewrite !baseRates_lookup.
  repeat match goal with
         | |- context [decide (?a = ?b)] =>
             lazymatch a with
             | enemy => fail
             | _ => destruct (decide (a = b)) as [?|?]; [try discriminate|try congruence]
             end
         end.
  cbn [from_option option_fmap option_map fmap].
  destruct (decide (enemy = "red")) as [->|Hred];
    [rewrite lookup_insert_eq; reflexivity
    | rewrite lookup_insert_ne by congruence].
  destruct (decide (enemy = "green")) as [->|Hgreen];
    [rewrite lookup_insert_eq; reflexivity
    | rewrite lookup_insert_ne by congruence].
  destruct (decide (enemy = "yellow")) as [->|Hyellow];
    [rewrite lookup_insert_eq; reflexivity
    | rewrite lookup_insert_ne by congruence].
  destruct (decide (enemy = "blue")) as [->|Hblue];
    [rewrite lookup_insert_eq; reflexivity
    | rewrite lookup_insert_ne by congruence].
  rewrite lookup_empty. repeat case_decide; try congruence. reflexivity.
Qed.

Lemma getEnemySpawnRates_min (n : Z) :
  getEnemySpawnRates n = getEnemySpawnRates (Z.min n 50).
Proof.
  unfold getEnemySpawnRates, difficultyMultiplier, MAX_PROGRESSION_LEVEL.
  replace (Z.min (Z.min n 50) 50) with (Z.min n 50) by lia. reflexivity.
Qed.

Lemma getEnemySpawnRates_keys (n : Z) (enemy : string) (r : spec_float) :
  getEnemySpawnRates n !! enemy = Some r ->
  In enemy (getEnemyTypes n) /\ rateAt n enemy = r.
Proof.
  intros Hrate. split; [|unfold rateAt; rewrite Hrate; reflexivity].
  rewrite getEnemySpawnRates_scaled, lookup_fmap, baseRates_lookup in Hrate.
  unfold getEnemyTypes. cbn [In].
  repeat (case_decide as Hcase; [subst enemy; tauto | clear Hcase]).
  discriminate.
Qed.

(** X11. From level 50 on the legacy spawn rates no longer change: every
    kind has 1.75 times its base rate, the maximum the code documents. *)
Theorem getEnemySpawnRates_capped (n : Z) :
  50 <= n ->
  getEnemySpawnRates n = getEnemySpawnRates 50 /\
  getEnemySpawnRates n
  = (fun base => Float64.mul base (decimalLiteral 175 2)) <$> baseRates.
Proof.
  intros Hn.
  assert (Hcap : getEnemySpawnRates n = getEnemySpawnRates 50).
  { rewrite (getEnemySpawnRates_min n). rewrite (Z.min_r n 50 Hn).
    reflexivity. }
  split; [exact Hcap|].
  rewrite Hcap, getEnemySpawnRates_scaled.
  assert (Hmax : difficultyMultiplier 50 = decimalLiteral 175 2)
    by (vm_compute; reflexivity).
  rewrite Hmax. reflexivity.
Qed.

(** X12. The legacy spawn rate of every kind never decreases as the level
    grows, from level 0 up (in the order of binary64 numbers). *)
Theorem getEnemySpawnRates_monotone
    (a b : Z) (enemy : string) (ra rb : spec_float) :
  0 <= a -> a <= b ->
  getEnemySpawnRates a !! enemy = Some ra ->
  getEnemySpawnRates b !! enemy = Some rb ->
  SFleb ra rb = true.
Proof.
  intros Ha Hab Hra Hrb.
  rewrite (getEnemySpawnRates_min a) in Hra.
  rewrite (getEnemySpawnRates_min b) in Hrb.
  apply getEnemySpawnRates_keys in Hra as [Hin <-].
  apply getEnemySpawnRates_keys in Hrb as [_ <-].
  assert (Hall :
    checkFrom
      (fun x => checkFrom (fun y => ratesNotAbove x y) x (Z.to_nat (51 - x)))
      0 51 = true) by (vm_compute; reflexivity).
  pose proof (checkFrom_sound _ _ _ Hall (Z.min a 50) ltac:(lia)) as Hrow.
  cbv beta in Hrow.
  pose proof (checkFrom_sound _ _ _ Hrow (Z.min b 50) ltac:(lia)) as Hpair.
  cbv beta in Hpair. unfold ratesNotAbove in Hpair.
  rewrite forallb_forall in Hpair. apply Hpair. exact Hin.
Qed.

(** X13. From level 0 up, the legacy spawn rate of a kind lies between its
    base rate and 1.75 times its base rate. *)
Theorem getEnemySpawnRates_bounds (n : Z) (enemy : string) (r : spec_float) :
  0 <= n ->
  getEnemySpawnRates n !! enemy = Some r ->
  exists base,
    baseRates !! enemy = Some base /\
    SFleb base r = true /\
    SFleb r (Float64.mul base (decimalLiteral 175 2)) = true.
Proof.
  intros Hn Hrate.
  assert (Hbase : exists base, baseRates !! enemy = Some base).
  { rewrite getEnemySpawnRates_scaled, lookup_fmap in Hrate.
    destruct (baseRates !! enemy) as [base|]; [eauto | discriminate]. }
  destruct Hbase as [base Hbase]. exists base. split; [exact Hbase|].
  rewrite (getEnemySpawnRates_min n) in Hrate.
  apply getEnemySpawnRates_keys in Hrate as [Hin <-].
  assert (Hall : checkFrom ratesWithinBounds 0 51 = true)
    by (vm_compute; reflexivity).
  pose proof (checkFrom_sound _ _ _ Hall (Z.min n 50) ltac:(lia)) as Hlevel.
  unfold ratesWithinBounds in Hlevel. rewrite forallb_forall in Hlevel.
  specialize (Hlevel enemy Hin). rewrite Hbase in Hlevel. cbn [from_option] in Hlevel.
  apply andb_true_iff in Hlevel. exact Hlevel.
Qed.

Lemma getEnemySpawnRates_capped_witness :
  50 <= 64 /\ getEnemySpawnRates 64 = getEnemySpawnRates 50.
Proof.
  assert (Hn : 50 <= 64) by lia.
  split; [exact Hn|].
  exact (proj1 (getEnemySpawnRates_capped 64 Hn)).
Defined.

Lemma getEnemySpawnRates_monotone_witness :
  0 <= 3 /\ 3 <= 20 /\
  getEnemySpawnRates 3 !! "green" = Some (rateAt 3 "green") /\
  getEnemySpawnRates 20 !! "green" = Some (rateAt 20 "green") /\
  SFleb (rateAt 3 "green") (rateAt 20 "green") = true.
Proof.
  assert (Ha : 0 <= 3) by lia.
  assert (Hab : 3 <= 20) by lia.
  assert (Hra : getEnemySpawnRates 3 !! "green" = Some (rateAt 3 "green"))
    by (vm_compute; reflexivity).
  assert (Hrb : getEnemySpawnRates 20 !! "green" = Some (rateAt 20 "green"))
    by (vm_compute; reflexivity).
  do 4 (split; [assumption|]).
  exact (getEnemySpawnRates_monotone 3 20 "green" _ _ Ha Hab Hra Hrb).
Defined.

Lemma getEnemySpawnRates_bounds_witness :
  0 <= 30 /\
  getEnemySpawnRates 30 !! "red" = Some (rateAt 30 "red") /\
  exists base,
    baseRates !! "red" = Some base /\
    SFleb base (rateAt 30 "red") = true /\
    SFleb (rateAt 30 "red") (Float64.mul base (decimalLiteral 175 2)) = true.
Proof.
  assert (Hn : 0 <= 30) by lia.
  assert (Hrate : getEnemySpawnRates 30 !! "red" = Some (rateAt 30 "red"))
    by (vm_compute; reflexivity).
  do 2 (split; [assumption|]).
  exact (getEnemySpawnRates_bounds 30 "red" _ Hn Hrate).
Defined.

(** Below level 0 the multiplier falls under 1, and under 0 from level -67
    down: the rates of level -100 are negative. *)
Example getEnemySpawnRates_negative_level :
  SFltb (rateAt (-100) "blue") (Float64.of_Z 0) = true.
Proof. vm_compute. reflexivity. Qed.

(** ** Address formatting *)

Lemma length_append (p r : string) :
  String.length (p +:+ r) = (String.length p + String.length r)%nat.
Proof.
  induction p as [|c p IH]; [reflexivity|].
  rewrite append_cons. cbn [String.length]. rewrite IH. reflexivity.
Qed.

Lemma length_substring (s : string) :
  forall n m,
    String.length (substring n m s) = Nat.min m (String.length s - n).
Proof.
  induction s as [|c s IH]; intros [|n] [|m]; cbn [substring String.length];
    try reflexivity; rewrite IH; cbn [String.length]; lia.
Qed.

Lemma substring_app_prefix (p r : string) :
  substring 0 (String.length p) (p +:+ r) = p.
Proof.
  induction p as [|c p IH].
  - cbn [String.length]. destruct (EmptyString +:+ r); reflexivity.
  - rewrite append_cons. cbn [String.length substring]. rewrite IH.
    reflexivity.
Qed.

Lemma substring_app_skip (p r : string) (m : nat) :
  substring (String.length p) m (p +:+ r) = substring 0 m r.
Proof.
  induction p as [|c p IH]; [reflexivity|].
  rewrite append_cons. cbn [String.length substring]. exact IH.
Qed.

Lemma substring_whole (s : string) :
  forall m, (String.length s <= m)%nat -> substring 0 m s = s.
Proof.
  induction s as [|c s IH]; intros [|m] Hm; cbn [substring];
    try reflexivity.
  - cbn [String.length] in Hm. lia.
  - rewrite IH; [reflexivity | cbn [String.length] in Hm; lia].
Qed.

(** The two slices of [formatAddress] in terms of [substring]. *)
Lemma slice_first_six (s : string) :
  slice s 0 (Some 6) = substring 0 (Nat.min 6 (String.length s)) s.
Proof.
  unfold slice, clampIndex. cbn [Z.ltb Z.compare].
  f_equal; lia.
Qed.

Lemma slice_last_four (s : string) :
  slice s (-4) None
  = substring (String.length s - 4) (Nat.min 4 (String.length s)) s.
Proof.
  unfold slice, clampIndex. cbn [Z.ltb Z.compare].
  f_equal; lia.
Qed.

Lemma formatAddress_nonempty (address : string) :
  address <> "" ->
  formatAddress address
  = substring 0 (Nat.min 6 (String.length address)) address
    +:+ "..."
    +:+ substring (String.length address - 4)
          (Nat.min 4 (String.length address)) address.
Proof.
  intros Hne. rewrite <- slice_first_six, <- slice_last_four.
  destruct address; [contradiction | reflexivity].
Qed.

Lemma append_assoc (p q r : string) : (p +:+ q) +:+ r = p +:+ q +:+ r.
Proof.
  induction p as [|c p IH]; [reflexivity|].
  rewrite !append_cons, IH. reflexivity.
Qed.

(** X14. The formatted address of a non-empty string has the first (at
    most six) characters, three dots and the last (at most four)
    characters: its length is [min len 6 + 3 + min len 4], never more
    than 13. *)
Theorem formatAddress_length (address : string) :
  address <> "" ->
  String.length (formatAddress address)
  = (Nat.min (String.length address) 6 + 3
     + Nat.min (String.length address) 4)%nat /\
  (String.length (formatAddress address) <= 13)%nat.
Proof.
  intros Hne. rewrite (formatAddress_nonempty address Hne).
  rewrite !length_append, !length_substring. cbn [String.length]. lia.
Qed.

(** X15. For an address of ten characters or more (a wallet address has
    42) the result is its first six characters, three dots and its last
    four characters. *)
Theorem formatAddress_long (first middle last : string) :
  String.length first = 6%nat ->
  String.length last = 4%nat ->
  formatAddress (first +:+ middle +:+ last) = first +:+ "..." +:+ last.
Proof.
  intros Hfirst Hlast.
  assert (Hlen : String.length (first +:+ middle +:+ last)
                 = (6 + String.length middle + 4)%nat).
  { rewrite !length_append. lia. }
  assert (Hne : first +:+ middle +:+ last <> "").
  { intros Heq. rewrite Heq in Hlen. cbn in Hlen. lia. }
  rewrite (formatAddress_nonempty _ Hne), Hlen.
  replace (Nat.min 6 (6 + String.length middle + 4)) with
    (String.length first) by lia.
  replace (Nat.min 4 (6 + String.length middle + 4)) with
    (String.length last) by lia.
  replace (6 + String.length middle + 4 - 4)%nat with
    (String.length (first +:+ middle)) by (rewrite length_append; lia).
  rewrite substring_app_prefix.
  rewrite <- (append_assoc first middle last) at 1.
  rewrite substring_app_skip, substring_whole by lia. reflexivity.
Qed.

(** X16. For a string of one to four characters the two slices overlap
    completely: the result shows the whole string twice. *)
Theorem formatAddress_short (address : string) :
  address <> "" ->
  (String.length address <= 4)%nat ->
  formatAddress address = address +:+ "..." +:+ address.
Proof.
  intros Hne Hshort. rewrite (formatAddress_nonempty address Hne).
  replace (String.length address - 4)%nat with 0%nat by lia.
  rewrite !substring_whole by lia. reflexivity.
Qed.

Lemma formatAddress_length_witness :
  "0xabc" <> "" /\ String.length (formatAddress "0xabc") = 12%nat.
Proof.
  assert (Hne : "0xabc" <> "") by discriminate.
  split; [exact Hne|].
  exact (proj1 (formatAddress_length "0xabc" Hne)).
Defined.

Lemma formatAddress_long_witness :
  String.length "0x1234" = 6%nat /\
  String.length "5678" = 4%nat /\
  formatAddress ("0x1234" +:+ "567890abcdef1234567890abcdef1234" +:+ "5678")
  = "0x1234" +:+ "..." +:+ "5678".
Proof.
  assert (Hfirst : String.length "0x1234" = 6%nat) by reflexivity.
  assert (Hlast : String.length "5678" = 4%nat) by reflexivity.
  do 2 (split; [assumption|]).
  exact (formatAddress_long "0x1234" "567890abcdef1234567890abcdef1234"
           "5678" Hfirst Hlast).
Defined.

Lemma formatAddress_short_witness :
  "abc" <> "" /\ (String.length "abc" <= 4)%nat /\
  formatAddress "abc" = "abc" +:+ "..." +:+ "abc".
Proof.
  assert (Hne : "abc" <> "") by discriminate.
  assert (Hshort : (String.length "abc" <= 4)%nat) by (cbn; lia).
  do 2 (split; [assumption|]).
  exact (formatAddress_short "abc" Hne Hshort).
Defined.

(** ** The wallet manager: score tables *)

Lemma insertByScore_perm (x : Web3.json) (l : list Web3.json) :
  Web3.insertByScore x l ≡ₚ x :: l.
Proof.
  induction l as [|y l IH]; cbn [Web3.insertByScore]; [reflexivity|].
  destruct (Web3.score x <? Web3.score y); [|reflexivity].
  rewrite IH. apply Permutation_swap.
Qed.

Lemma sortByScore_perm (l : list Web3.json) : Web3.sortByScore l ≡ₚ l.
Proof.
  induction l as [|x l IH]; cbn [Web3.sortByScore]; [reflexivity|].
  rewrite insertByScore_perm, IH. reflexivity.
Qed.

Lemma insertByScore_sorted (x : Web3.json) (l : list Web3.json) :
  StronglySorted Web3.notBelow l ->
  StronglySorted Web3.notBelow (Web3.insertByScore x l).
Proof.
  induction l as [|y l IH]; intros Hsorted; cbn [Web3.insertByScore].
  - repeat constructor.
  - apply StronglySorted_inv in Hsorted as [Hl Hy].
    destruct (Z.ltb_spec (Web3.score x) (Web3.score y)) as [Hlt|Hge].
    + constructor; [apply IH; exact Hl|].
      rewrite insertByScore_perm. constructor; [|exact Hy].
      unfold Web3.notBelow. lia.
    + constructor; [constructor; assumption|].
      constructor; [exact Hge|].
      eapply Forall_impl; [exact Hy|].
      unfold Web3.notBelow. intros z Hz. lia.
Qed.

Lemma sortByScore_sorted (l : list Web3.json) :
  StronglySorted Web3.notBelow (Web3.sortByScore l).
Proof.
  induction l as [|x l IH]; cbn [Web3.sortByScore]; [constructor|].
  apply insertByScore_sorted. exact IH.
Qed.

(** Entries of equal score keep the order they had. *)
Lemma insertByScore_ties (s : Z) (x : Web3.json) (l : list Web3.json) :
  filter (fun e => Web3.score e = s) (Web3.insertByScore x l)
  = filter (fun e => Web3.score e = s) (x :: l).
Proof.
  induction l as [|y l IH]; cbn [Web3.insertByScore]; [reflexivity|].
  destruct (Z.ltb_spec (Web3.score x) (Web3.score y)) as [Hlt|Hge];
    [|reflexivity].
  rewrite (filter_cons _ y), IH, !filter_cons.
  repeat case_decide; try reflexivity; lia.
Qed.

Lemma sortByScore_ties (s : Z) (l : list Web3.json) :
  filter (fun e => Web3.score e = s) (Web3.sortByScore l)
  = filter (fun e => Web3.score e = s) l.
Proof.
  induction l as [|x l IH]; cbn [Web3.sortByScore]; [reflexivity|].
  rewrite insertByScore_ties, !filter_cons, IH. reflexivity.
Qed.

Lemma sliceArray_prefix {A} (l : list A) (n : Z) :
  0 <= n -> Web3.sliceArray l 0 (Some n) = take (Z.to_nat n) l.
Proof.
  intros Hn. unfold Web3.sliceArray, clampIndex.
  destruct (Z.ltb_spec n 0) as [Hneg|_]; [lia|].
  cbn [Z.ltb Z.compare].
  replace (Z.min 0 (Z.of_nat (length l))) with 0 by lia.
  change (Z.to_nat 0) with 0%nat. rewrite drop_0.
  destruct (Z.le_ge_cases n (Z.of_nat (length l))) as [Hshort|Hlong].
  - f_equal. lia.
  - rewrite !take_ge by lia. reflexivity.
Qed.

(** The first [n] entries of the sorted scores are the best [n]: sorted,
    none of the others has a higher score, entries of equal score are in
    the order they had, and there are [n] of them when there are as
    many. *)
Lemma best_scores (n : nat) (l : list Web3.json) :
  exists rest,
    take n (Web3.sortByScore l) ++ rest ≡ₚ l /\
    StronglySorted Web3.notBelow (take n (Web3.sortByScore l)) /\
    (forall x y, x ∈ take n (Web3.sortByScore l) -> y ∈ rest ->
                 Web3.score y <= Web3.score x) /\
    (forall s,
       filter (fun e => Web3.score e = s) (take n (Web3.sortByScore l))
       `prefix_of` filter (fun e => Web3.score e = s) l) /\
    length (take n (Web3.sortByScore l)) = Nat.min n (length l).
Proof.
  exists (drop n (Web3.sortByScore l)).
  pose proof (sortByScore_sorted l) as Hsorted.
  rewrite <- (take_drop n (Web3.sortByScore l)) in Hsorted.
  apply StronglySorted_app in Hsorted as (Hcross & Htake & Hdrop).
  split; [rewrite take_drop; apply sortByScore_perm|].
  split; [exact Htake|].
  split; [exact Hcross|].
  split.
  - intros s. rewrite <- (sortByScore_ties s l).
    exists (filter (fun e => Web3.score e = s)
              (drop n (Web3.sortByScore l))).
    rewrite <- filter_app, take_drop. reflexivity.
  - rewrite length_take, (Permutation_length (sortByScore_perm l)).
    reflexivity.
Qed.

Lemma sortEntries_scored (l : list Web3.json) :
  forallb Web3.scored l = true ->
  Web3.sortEntries l = Some (Web3.sortByScore l).
Proof. intros Hl. unfold Web3.sortEntries. rewrite Hl. reflexivity. Qed.

(** *** Properties of an object *)



Lemma objectGet_cons_new (o : list (string * Web3.json))
    (key other : string) (v : Web3.json) :
  Web3.objectGet ((key, v) :: o) other
  = if String.eqb key other then Some v else Web3.objectGet o other.
Proof. reflexivity. Qed.




(** [push] throws exactly where the table has a truthy value that is no
    array under the address, or nothing of its own but a property of
    [Object.prototype]. *)
Lemma scoresOf_throws (walletScores : list (string * Web3.json))
    (addr : string) (f : Web3.failure) :
  Web3.scoresOf walletScores addr = Web3.Throws f <->
  f = Web3.TypeError /\
  ((exists v, Web3.objectGet walletScores addr = Some v /\
              Web3.truthyValue v = true /\
              forall l, v <> Web3.JArray l) \/
   (Web3.objectGet walletScores addr = None /\
    In addr Web3.objectPrototype)).
Proof.
  unfold Web3.scoresOf, Web3.getProperty.
  destruct (Web3.objectGet walletScores addr) as [v|].
  - split.
    + destruct (Web3.truthyValue v) eqn:Htruthy; [|discriminate].
      destruct v; try discriminate; intros [= <-];
        (split; [reflexivity|]); left; eexists;
        (split; [reflexivity|]); (split; [exact Htruthy|]);
        intros l; discriminate.
    + intros [-> [(w & [= <-] & Htruthy & Hshape) | [Hnone _]]];
        [|discriminate].
      rewrite Htruthy.
      destruct v; try reflexivity. exfalso. eapply Hshape. reflexivity.
  - destruct (existsb (String.eqb addr) Web3.objectPrototype) eqn:Hproto.
    + split; [intros [= <-]|intros [-> _]; reflexivity].
      split; [reflexivity|]. right. split; [reflexivity|].
      apply existsb_exists in Hproto as (k & Hin & Heq).
      apply String.eqb_eq in Heq. subst k. exact Hin.
    + split; [discriminate|].
      intros [_ [(w & Hsome & _) | [_ Hin]]]; [discriminate|].
      exfalso. assert (Hex : existsb (String.eqb addr) Web3.objectPrototype
                             = true).
      { apply existsb_exists. exists addr. split; [exact Hin|].
        apply String.eqb_refl. }
      congruence.
Qed.


Section ScoreStorage.

Variable JSON_parse : string -> option Web3.json.
Variable JSON_stringify : Web3.json -> string.


(** X19. Where the result of [saveScoreOnChain] is determined, it is
    [null] exactly when the wallet is not connected, the adapter gives no
    provider or no signer, the storage cannot be read or written, the
    stored text does not parse or parses to a value that is no object, or
    [push] throws on what the table has under the address; and whenever
    the result is [null] the storage is left as it was. *)
Theorem saveScoreOnChain_null
    (adapter : Web3.Adapter) (now : Z) (scoreData : Web3.json)
    (m : Web3.Manager) (st : Storage)
    (result : option string) (m' : Web3.Manager) (st' : Storage) :
  Web3.saveScoreOnChain JSON_parse JSON_stringify adapter now scoreData m st
  = Some (result, m', st') ->
  (result = None
   <-> Web3.isConnected m = false \/
       Web3.providerFulfilled adapter = false \/
       Web3.signerFulfilled adapter = false \/
       readable st = false \/
       writable st = false \/
       JSON_parse (orElse (items st !! "bz_walletScores") "{}") = None \/
       (exists v,
          JSON_parse (orElse (items st !! "bz_walletScores") "{}") = Some v /\
          forall fields, v <> Web3.JObject fields) \/
       (exists fields,
          JSON_parse (orElse (items st !! "bz_walletScores") "{}")
          = Some (Web3.JObject fields) /\
          Web3.scoresOf fields (Web3.propertyKey (Web3.currentAddress m))
          = Web3.Throws Web3.TypeError)) /\
  (result = None -> st' = st).
Proof.
  unfold Web3.saveScoreOnChain, Web3.getSigner, Web3.storageGetItem,
    Web3.storageSetItem, Web3.recordScore.
  destruct (Web3.isConnected m); cbn [negb];
    [|intros [= <- <- <-];
      split; [split; [intros _; left; reflexivity | reflexivity]
             | reflexivity]].
  destruct (Web3.providerFulfilled adapter); cbn [negb];
    [|intros [= <- <- <-];
      split; [split; [intros _; right; left; reflexivity | reflexivity]
             | reflexivity]].
  destruct (Web3.signerFulfilled adapter); cbn [negb];
    [|intros [= <- <- <-];
      split; [split; [intros _; do 2 right; left; reflexivity | reflexivity]
             | reflexivity]].
  destruct (readable st); cbn [negb];
    [|intros [= <- <- <-];
      split; [split; [intros _; do 3 right; left; reflexivity | reflexivity]
             | reflexivity]].
  cbn [Web3.currentAddress].
  destruct (JSON_parse _) as [v|];
    [|intros [= <- <- <-];
      split; [split; [intros _; do 5 right; left; reflexivity | reflexivity]
             | reflexivity]].
  destruct v as [|b|n|s|elements|fields];
    try (intros [= <- <- <-];
         split; [|reflexivity];
         split; [|reflexivity];
         intros _; do 6 right; left; eexists;
         split; [reflexivity | intros fields; discriminate]);
    [intros Hnone; discriminate Hnone|].
  destruct (Web3.scoresOf fields _) as [existing|f] eqn:Hscores.
  - destruct (Web3.sortEntries _) as [sorted|]; [|discriminate].
    destruct (writable st); cbn [negb].
    + intros [= <- <- <-]. split; [|discriminate].
      split; [discriminate|].
      intros [H|[H|[H|[H|[H|[H|[(v & [= <-] & Hshape)
                                 |(fields' & [= <-] & Hthrows)]]]]]]];
        try discriminate.
      * exfalso. eapply Hshape. reflexivity.
      * congruence.
    + intros [= <- <- <-]. split; [|reflexivity].
      split; [intros _; do 4 right; left; reflexivity | reflexivity].
  - intros [= <- <- <-]. split; [|reflexivity].
    split; [|reflexivity].
    intros _. do 7 right. exists fields. split; [reflexivity|].
    pose proof Hscores as Hf. apply scoresOf_throws in Hf as [-> _].
    exact Hscores.
Qed.

Lemma collect_arrays (arrays : list (list Web3.json)) :
  Web3.collect (map Web3.JArray arrays) = Web3.Returns (concat arrays).
Proof.
  induction arrays as [|l arrays IH]; [reflexivity|].
  cbn [map Web3.collect Web3.spread concat]. rewrite IH. reflexivity.
Qed.


(** X20. When the storage can be read and the stored text parses to an
    object whose values are arrays of entries with numbers as scores,
    [getLeaderboard(limit)] (limit 10 when left out) returns the best
    [limit] scores of all wallets: in descending order of score, none of
    the scores left out above any returned one, entries of equal score in
    the order the table lists them, and [min(limit, total)] of them. *)
Theorem getLeaderboard_best
    (limit : option Z) (st : Storage)
    (walletScores : list (string * Web3.json))
    (arrays : list (list Web3.json)) :
  readable st = true ->
  JSON_parse (orElse (items st !! "bz_walletScores") "{}")
  = Some (Web3.JObject walletScores) ->
  map snd walletScores = map Web3.JArray arrays ->
  forallb Web3.scored (concat arrays) = true ->
  0 <= default 10 limit ->
  exists board rest,
    Web3.getLeaderboard JSON_parse limit st = Some (Web3.Returns board) /\
    (board ++ rest)%list ≡ₚ concat arrays /\
    StronglySorted Web3.notBelow board /\
    (forall x y, x ∈ board -> y ∈ rest -> Web3.score y <= Web3.score x) /\
    (forall s,
       filter (fun e => Web3.score e = s) board
       `prefix_of` filter (fun e => Web3.score e = s) (concat arrays)) /\
    length board
    = Nat.min (Z.to_nat (default 10 limit)) (length (concat arrays)).
Proof.
  intros Hread Hparse Hvalues Hscored Hlimit.
  unfold Web3.getLeaderboard, Web3.storageGetItem.
  rewrite Hread, Hparse. cbn [Web3.visited].
  rewrite Hvalues, collect_arrays, (sortEntries_scored _ Hscored).
  rewrite sliceArray_prefix by exact Hlimit.
  destruct (best_scores (Z.to_nat (default 10 limit)) (concat arrays))
    as (rest & Hperm & Hsorted & Hbest & Hties & Hlen).
  eexists _, rest. split; [reflexivity|].
  split; [exact Hperm|]. split; [exact Hsorted|]. split; [exact Hbest|].
  split; [exact Hties | exact Hlen].
Qed.


End ScoreStorage.



Lemma saveScoreOnChain_null_witness :
  let st := storageWithTable exampleTable in
  let m1 := snd (Web3.getSigner exampleAdapter constructorManager) in
  Web3.saveScoreOnChain parseSample Web3.printJson exampleAdapter
    1700000000000 exampleScore constructorManager st
  = Some (None, m1, st) /\
  (Web3.isConnected constructorManager = false \/
   Web3.providerFulfilled exampleAdapter = false \/
   Web3.signerFulfilled exampleAdapter = false \/
   readable st = false \/
   writable st = false \/
   parseSample (orElse (items st !! "bz_walletScores") "{}") = None \/
   (exists v,
      parseSample (orElse (items st !! "bz_walletScores") "{}") = Some v /\
      forall fields, v <> Web3.JObject fields) \/
   (exists fields,
      parseSample (orElse (items st !! "bz_walletScores") "{}")
      = Some (Web3.JObject fields) /\
      Web3.scoresOf fields
        (Web3.propertyKey (Web3.currentAddress constructorManager))
      = Web3.Throws Web3.TypeError)).
Proof.
  intros st m1.
  assert (Hrun :
    Web3.saveScoreOnChain parseSample Web3.printJson exampleAdapter
      1700000000000 exampleScore constructorManager st
    = Some (None, m1, st)) by (vm_compute; reflexivity).
  split; [exact Hrun|].
  apply (proj1 (saveScoreOnChain_null parseSample Web3.printJson
                  exampleAdapter 1700000000000 exampleScore
                  constructorManager st None m1 st Hrun)).
  reflexivity.
Defined.

Lemma getLeaderboard_best_witness :
  let st := storageWithTable exampleTable in
  let arrays := [[Web3.scoreData "0xabc" 1500 1699000000000 9 40 95;
                  Web3.scoreData "0xabc" 900 1698000000000 5 22 61];
                 [Web3.scoreData "0xdef" 1500 1697000000000 8 37 90;
                  Web3.scoreData "0xdef" 1300 1696000000000 8 35 70]] in
  readable st = true /\
  parseSample (orElse (items st !! "bz_walletScores") "{}")
  = Some (Web3.JObject exampleWallets) /\
  map snd exampleWallets = map Web3.JArray arrays /\
  forallb Web3.scored (concat arrays) = true /\
  0 <= default 10 (Some 3) /\
  exists board,
    Web3.getLeaderboard parseSample (Some 3) st = Some (Web3.Returns board) /\
    length board = 3%nat.
Proof.
  intros st arrays.
  assert (Hread : readable st = true) by reflexivity.
  assert (Hparse :
    parseSample (orElse (items st !! "bz_walletScores") "{}")
    = Some (Web3.JObject exampleWallets)) by (vm_compute; reflexivity).
  assert (Hvalues : map snd exampleWallets = map Web3.JArray arrays)
    by reflexivity.
  assert (Hscored : forallb Web3.scored (concat arrays) = true)
    by reflexivity.
  assert (Hlimit : 0 <= default 10 (Some 3)) by (cbn; lia).
  do 5 (split; [assumption|]).
  destruct (getLeaderboard_best parseSample (Some 3) st exampleWallets arrays
              Hread Hparse Hvalues Hscored Hlimit)
    as (board & rest & Hboard & _ & _ & _ & _ & Hlen).
  exists board. split; [exact Hboard | exact Hlen].
Defined.

(** The update on concrete scores: eleven scores for one wallet, of which
    the lowest is dropped; the two entries with score 50 keep their
    order. *)
Example recordScore_sample :
  let entry (s t : Z) := Web3.scoreData "0xabc" s t 1 0 0 in
  let old := map (fun s => entry s 0) [100; 90; 80; 70; 60; 50; 40; 30; 20; 10] in
  Web3.recordScore [("0xdef", Web3.JArray []); ("0xabc", Web3.JArray old)]
    "0xabc" (entry 50 1)
  = Some (Web3.Returns
            [("0xdef", Web3.JArray []);
             ("0xabc",
              Web3.JArray
                (map (fun s => entry s 0) [100; 90; 80; 70; 60; 50]
                 ++ entry 50 1 :: map (fun s => entry s 0) [40; 30; 20])%list)]).
Proof. vm_compute. reflexivity. Qed.

(** The text of the sample table, the board of its three best scores (the
    two entries of score 1500 in the order of the table), and the table
    stored after a new score of the first wallet. *)
Example printJson_sample :
  Web3.printJson
    (Web3.JObject [("0xabc", Web3.JArray [Web3.JObject [("score", Web3.JNumber 7)];
                                          Web3.JNull]);
                   ("n", Web3.JString "x")])
  = "{" +:+ Web3.quote +:+ "0xabc" +:+ Web3.quote +:+ ":[{" +:+ Web3.quote
    +:+ "score" +:+ Web3.quote +:+ ":7},null]," +:+ Web3.quote +:+ "n"
    +:+ Web3.quote +:+ ":" +:+ Web3.quote +:+ "x" +:+ Web3.quote +:+ "}".
Proof. vm_compute. reflexivity. Qed.

Example getLeaderboard_sample :
  Web3.getLeaderboard parseSample (Some 3) (storageWithTable exampleTable)
  = Some (Web3.Returns
            [Web3.scoreData "0xabc" 1500 1699000000000 9 40 95;
             Web3.scoreData "0xdef" 1500 1697000000000 8 37 90;
             Web3.scoreData "0xdef" 1300 1696000000000 8 35 70]).
Proof. vm_compute. reflexivity. Qed.

Example saveScoreOnChain_sample :
  option_map (fun result => items (snd result) !! "bz_walletScores")
    (Web3.saveScoreOnChain parseSample Web3.printJson exampleAdapter
       1700000000000 exampleScore exampleManager
       (storageWithTable exampleTable))
  = Some (Some (Web3.printJson
                  (Web3.JObject
                     [("0xabc",
                       Web3.JArray
                         [Web3.scoreData "0xabc" 1500 1699000000000 9 40 95;
                          exampleScore;
                          Web3.scoreData "0xabc" 900 1698000000000 5 22 61]);
                      ("0xdef",
                       Web3.JArray
                         [Web3.scoreData "0xdef" 1500 1697000000000 8 37 90;
                          Web3.scoreData "0xdef" 1300 1696000000000 8 35 70])]))).
Proof. vm_compute. reflexivity. Qed.

(** Keys that are inherited, values of another shape: the address
    [constructor] has no array in the table but finds the constructor of
    the prototype, on which [push] is no function; the table [{a: 5}] has
    a value that cannot be spread; over the table [null] the loop visits
    nothing. *)
Example scoresOf_inherited :
  Web3.scoresOf exampleWallets "constructor" = Web3.Throws Web3.TypeError /\
  Web3.scoresOf exampleWallets "__proto__" = Web3.Throws Web3.TypeError /\
  Web3.scoresOf exampleWallets "0x123" = Web3.Returns [] /\
  Web3.scoresOf [("constructor", Web3.JArray [])] "constructor"
  = Web3.Returns [].
Proof. repeat split; reflexivity. Qed.

Example getLeaderboard_other_shapes :
  Web3.getLeaderboard
    (fun _ => Some (Web3.JObject [("a", Web3.JNumber 5)])) None emptyStorage
  = Some (Web3.Throws Web3.TypeError) /\
  Web3.getLeaderboard (fun _ => Some Web3.JNull) None emptyStorage
  = Some (Web3.Returns []) /\
  Web3.getLeaderboard
    (fun _ => Some (Web3.JObject [("a", Web3.JArray [Web3.JNull; Web3.JNull])]))
    None emptyStorage
  = None.
Proof. repeat split; reflexivity. Qed.

Example objectSet_order :
  map fst (Web3.objectSet [("7", Web3.JNull); ("12", Web3.JNull);
                          ("0xabc", Web3.JNull)] "9" (Web3.JArray []))
  = ["7"; "9"; "12"; "0xabc"] /\
  map fst (Web3.objectSet [("7", Web3.JNull); ("0xabc", Web3.JNull)]
             "0xdef" (Web3.JArray []))
  = ["7"; "0xabc"; "0xdef"] /\
  map fst (Web3.objectSet [("7", Web3.JNull); ("0xabc", Web3.JNull)]
             "7" (Web3.JArray []))
  = ["7"; "0xabc"].
Proof. vm_compute. repeat split; reflexivity. Qed.

(** ** The wallet manager: address changes *)

(** X22. With a storage that works, [onAccountChanged] with a non-empty
    address stores the address under [bz_wallet] and the time under
    [bz_lastConnected] (which [parseInt] reads back, a time being a double
    far below 10^21), dispatches one [walletChanged] event with the
    address, and leaves the other keys as they were. *)
Theorem onAccountChanged_saves_address
    (now : Z) (addr : string) (b : Web3.Browser) :
  addr <> "" ->
  readable (Web3.storage b) = true ->
  writable (Web3.storage b) = true ->
  exists b',
    Web3.onAccountChanged now (Web3.Str addr) b = (Web3.Returns tt, b') /\
    items (Web3.storage b') !! "bz_wallet" = Some addr /\
    items (Web3.storage b') !! "bz_lastConnected" = Some (toString now) /\
    (printable now ->
     (parseInt <$> items (Web3.storage b') !! "bz_lastConnected")
     = Some (Num now)) /\
    Web3.dispatched b' = Web3.Str addr :: Web3.dispatched b /\
    (forall key, key <> "bz_wallet" -> key <> "bz_lastConnected" ->
       items (Web3.storage b') !! key = items (Web3.storage b) !! key).
Proof.
  intros Haddr Hread Hwrite.
  unfold Web3.onAccountChanged, Web3.storageSetItem.
  assert (Htruthy : Web3.truthy (Web3.Str addr) = true)
    by (destruct addr; [contradiction | reflexivity]).
  rewrite Htruthy, Hread, Hwrite. cbn [negb readable writable].
  rewrite ?Hread, ?Hwrite. cbn [negb].
  eexists. split; [reflexivity|].
  cbn [Web3.storage Web3.dispatched items Web3.propertyKey].
  split; [rewrite lookup_insert_ne by discriminate; apply lookup_insert_eq|].
  split; [apply lookup_insert_eq|].
  split; [intros Hnow; rewrite lookup_insert_eq; cbn;
          rewrite parseInt_toString by exact Hnow; reflexivity|].
  split; [reflexivity|].
  intros key Hwallet Hlast.
  rewrite !lookup_insert_ne by congruence. reflexivity.
Qed.

(** X23. With a storage that can be read, [onAccountChanged] with no
    address ([null], or the empty string) removes [bz_wallet], dispatches
    one [walletChanged] event, and leaves every other key, among them
    [bz_lastConnected], as it was. *)
Theorem onAccountChanged_forgets_address
    (now : Z) (addr : Web3.maybeString) (b : Web3.Browser) :
  Web3.truthy addr = false ->
  readable (Web3.storage b) = true ->
  exists b',
    Web3.onAccountChanged now addr b = (Web3.Returns tt, b') /\
    items (Web3.storage b') !! "bz_wallet" = None /\
    Web3.dispatched b' = addr :: Web3.dispatched b /\
    (forall key, key <> "bz_wallet" ->
       items (Web3.storage b') !! key = items (Web3.storage b) !! key).
Proof.
  intros Hfalsy Hread.
  unfold Web3.onAccountChanged, Web3.storageRemoveItem.
  rewrite Hfalsy, Hread.
  eexists. split; [reflexivity|].
  cbn [Web3.storage Web3.dispatched items].
  split; [apply lookup_delete_eq|].
  split; [reflexivity|].
  intros key Hkey. apply lookup_delete_ne. congruence.
Qed.

(** X24. When the storage throws, [onAccountChanged] throws too, before
    the event: nothing is dispatched and the browser is as it was. *)
Theorem onAccountChanged_storage_failure
    (now : Z) (addr : Web3.maybeString) (b : Web3.Browser) :
  readable (Web3.storage b) = false \/
  (Web3.truthy addr = true /\ writable (Web3.storage b) = false) ->
  exists f, Web3.onAccountChanged now addr b = (Web3.Throws f, b).
Proof.
  unfold Web3.onAccountChanged, Web3.storageSetItem, Web3.storageRemoveItem.
  intros [Hread | [Htruthy Hwrite]].
  - rewrite Hread. cbn [negb].
    destruct (Web3.truthy addr); eexists; reflexivity.
  - rewrite Htruthy, Hwrite.
    destruct (readable (Web3.storage b)); cbn [negb]; eexists; reflexivity.
Qed.

(** X25. A state notification that carries the address the manager already
    has changes nothing and dispatches nothing; so, after a notification
    with a non-empty address, the same notification again is ignored. *)
Theorem onStateChange_repeated
    (now later : Z) (state : Web3.AppKitState)
    (m : Web3.Manager) (b : Web3.Browser) :
  Web3.truthy (Web3.stateAddress state) = true ->
  let '(_, m1, b1) := Web3.onStateChange now state m b in
  Web3.currentAddress m1 = Web3.stateAddress state /\
  Web3.onStateChange later state m1 b1 = (Web3.Returns tt, m1, b1).
Proof.
  intros Htruthy. unfold Web3.onStateChange at 1.
  assert (Hsame : forall v, Web3.strictlyDiffers v v = false).
  { intros [| |s]; cbn; [reflexivity | reflexivity |].
    rewrite String.eqb_refl. reflexivity. }
  destruct (Web3.strictlyDiffers (Web3.stateAddress state)
              (Web3.currentAddress m)) eqn:Hdiff.
  - cbn [Web3.currentAddress]. unfold Web3.orNull. rewrite Htruthy.
    destruct (Web3.onAccountChanged now (Web3.stateAddress state) b)
      as [result b1].
    split; [reflexivity|].
    unfold Web3.onStateChange. cbn [Web3.currentAddress].
    rewrite Hsame. reflexivity.
  - assert (Heq : Web3.currentAddress m = Web3.stateAddress state).
    { destruct (Web3.stateAddress state) as [| |x],
        (Web3.currentAddress m) as [| |y]; cbn in Hdiff;
        try discriminate; try reflexivity.
      apply negb_false_iff, String.eqb_eq in Hdiff. congruence. }
    split; [exact Heq|].
    unfold Web3.onStateChange. rewrite Hdiff. reflexivity.
Qed.

(** X26. When the kit reports no address ([undefined]) while the manager
    holds [null], the two are not strictly equal, so the notification runs
    [onAccountChanged(null)]: with a readable storage it dispatches one
    more [walletChanged] event and leaves the manager as it was, so that
    the next such notification does the same again. *)
Theorem onStateChange_disconnected_always_dispatches
    (now : Z) (state : Web3.AppKitState)
    (m : Web3.Manager) (b : Web3.Browser) :
  Web3.stateAddress state = Web3.Undefined ->
  Web3.currentAddress m = Web3.Null ->
  readable (Web3.storage b) = true ->
  exists b',
    Web3.onStateChange now state m b = (Web3.Returns tt, m, b') /\
    Web3.dispatched b' = Web3.Null :: Web3.dispatched b /\
    readable (Web3.storage b') = true.
Proof.
  intros Hstate Hcurrent Hread.
  unfold Web3.onStateChange. rewrite Hstate, Hcurrent.
  cbn [Web3.strictlyDiffers Web3.orNull Web3.truthy Web3.currentAddress].
  unfold Web3.onAccountChanged, Web3.storageRemoveItem.
  cbn [Web3.truthy]. rewrite Hread.
  destruct m as [id kit current prov sign]. cbn in Hcurrent. subst current.
  eexists. split; [reflexivity|].
  split; reflexivity.
Qed.

(** X27. [getInstance] creates the manager once: while there is none, a
    call without a project id (left out, or empty) throws and creates
    nothing; the first call with a project id creates the manager, and
    every later call returns that manager, whatever project id it is
    given. *)
Theorem getInstance_first_id_wins
    (id later : Web3.maybeString) (m : Web3.Manager) :
  Web3.getInstance later (Some m) = (Web3.Returns m, Some m) /\
  (Web3.truthy id = false ->
   Web3.getInstance id None = (Web3.Throws Web3.ProjectIdRequired, None)) /\
  (Web3.truthy id = true ->
   Web3.getInstance id None
   = (Web3.Returns (Web3.newManager (Web3.propertyKey id)),
      Some (Web3.newManager (Web3.propertyKey id))) /\
   Web3.getInstance later (snd (Web3.getInstance id None))
   = Web3.getInstance id None).
Proof.
  split; [reflexivity|].
  unfold Web3.getInstance.
  split; intros ->; [reflexivity | split; reflexivity].
Qed.

Lemma onAccountChanged_saves_address_witness :
  "0xabc" <> "" /\
  readable (Web3.storage emptyBrowser) = true /\
  writable (Web3.storage emptyBrowser) = true /\
  exists b',
    Web3.onAccountChanged 1700000000000 (Web3.Str "0xabc") emptyBrowser
    = (Web3.Returns tt, b') /\
    items (Web3.storage b') !! "bz_wallet" = Some "0xabc".
Proof.
  assert (Haddr : "0xabc" <> "") by discriminate.
  assert (Hread : readable (Web3.storage emptyBrowser) = true)
    by reflexivity.
  assert (Hwrite : writable (Web3.storage emptyBrowser) = true)
    by reflexivity.
  do 3 (split; [assumption|]).
  destruct (onAccountChanged_saves_address 1700000000000 "0xabc"
              emptyBrowser Haddr Hread Hwrite)
    as (b' & Hrun & Hwallet & _).
  exists b'. split; assumption.
Defined.

Lemma onAccountChanged_forgets_address_witness :
  Web3.truthy Web3.Null = false /\
  readable (Web3.storage emptyBrowser) = true /\
  exists b',
    Web3.onAccountChanged 0 Web3.Null emptyBrowser = (Web3.Returns tt, b') /\
    Web3.dispatched b' = [Web3.Null].
Proof.
  assert (Hfalsy : Web3.truthy Web3.Null = false) by reflexivity.
  assert (Hread : readable (Web3.storage emptyBrowser) = true)
    by reflexivity.
  do 2 (split; [assumption|]).
  destruct (onAccountChanged_forgets_address 0 Web3.Null emptyBrowser
              Hfalsy Hread) as (b' & Hrun & _ & Hevents & _).
  exists b'. split; assumption.
Defined.

Lemma onAccountChanged_storage_failure_witness :
  let b := {| Web3.storage := unreadableStorage; Web3.dispatched := [] |} in
  (readable (Web3.storage b) = false \/
   (Web3.truthy (Web3.Str "0xabc") = true /\
    writable (Web3.storage b) = false)) /\
  exists f,
    Web3.onAccountChanged 0 (Web3.Str "0xabc") b = (Web3.Throws f, b).
Proof.
  intros b.
  assert (Hfail :
    readable (Web3.storage b) = false \/
    (Web3.truthy (Web3.Str "0xabc") = true /\
     writable (Web3.storage b) = false)) by (left; reflexivity).
  split; [exact Hfail|].
  exact (onAccountChanged_storage_failure 0 (Web3.Str "0xabc") b Hfail).
Defined.

Lemma onStateChange_repeated_witness :
  let state := {| Web3.stateIsConnected := true;
                  Web3.stateAddress := Web3.Str "0xabc" |} in
  Web3.truthy (Web3.stateAddress state) = true /\
  let '(_, m1, b1) :=
    Web3.onStateChange 5 state (Web3.newManager "demo") emptyBrowser in
  Web3.currentAddress m1 = Web3.stateAddress state /\
  Web3.onStateChange 9 state m1 b1 = (Web3.Returns tt, m1, b1).
Proof.
  intros state.
  assert (Htruthy : Web3.truthy (Web3.stateAddress state) = true)
    by reflexivity.
  split; [exact Htruthy|].
  exact (onStateChange_repeated 5 9 state (Web3.newManager "demo")
           emptyBrowser Htruthy).
Defined.

Lemma onStateChange_disconnected_always_dispatches_witness :
  let state := {| Web3.stateIsConnected := false;
                  Web3.stateAddress := Web3.Undefined |} in
  Web3.stateAddress state = Web3.Undefined /\
  Web3.currentAddress (Web3.newManager "demo") = Web3.Null /\
  readable (Web3.storage emptyBrowser) = true /\
  exists b',
    Web3.onStateChange 5 state (Web3.newManager "demo") emptyBrowser
    = (Web3.Returns tt, Web3.newManager "demo", b') /\
    Web3.dispatched b' = [Web3.Null].
Proof.
  intros state.
  assert (Hstate : Web3.stateAddress state = Web3.Undefined) by reflexivity.
  assert (Hcurrent : Web3.currentAddress (Web3.newManager "demo") = Web3.Null)
    by reflexivity.
  assert (Hread : readable (Web3.storage emptyBrowser) = true)
    by reflexivity.
  do 3 (split; [assumption|]).
  destruct (onStateChange_disconnected_always_dispatches 5 state
              (Web3.newManager "demo") emptyBrowser Hstate Hcurrent Hread)
    as (b' & Hrun & Hevents & _).
  exists b'. split; assumption.
Defined.

(** ** The beetle *)

Lemma squishTweens_app (l l' : list Beetle.request) :
  Beetle.squishTweens (l ++ l')%list
  = (Beetle.squishTweens l + Beetle.squishTweens l')%nat.
Proof.
  induction l as [|r l IH]; [reflexivity|].
  destruct r; cbn [app Beetle.squishTweens]; rewrite IH; reflexivity.
Qed.

Section BeetleFacts.

Variable textureExists : string -> bool.

Lemma create_wellFormed (left right r1 r2 r3 : spec_float) :
  Beetle.wellFormed (Beetle.create left right r1 r2 r3).
Proof.
  unfold Beetle.wellFormed, Beetle.create.
  cbn [Beetle.isRolling Beetle.isBiting Beetle.direction Beetle.currentFrame].
  split; [reflexivity|]. split; [|cbn; lia].
  destruct (SFltb r2 _); [right | left]; reflexivity.
Qed.

Lemma startBiting_wellFormed (b : Beetle.state) :
  Beetle.wellFormed b -> Beetle.wellFormed (Beetle.startBiting b).
Proof.
  intros (_ & Hdir & _). unfold Beetle.wellFormed, Beetle.startBiting.
  cbn [Beetle.isRolling Beetle.isBiting Beetle.direction Beetle.currentFrame].
  split; [reflexivity|]. split; [exact Hdir | cbn; lia].
Qed.

Lemma startRolling_wellFormed (random : spec_float) (b : Beetle.state) :
  Beetle.wellFormed b ->
  Beetle.wellFormed (Beetle.startRolling textureExists random b).
Proof.
  intros (_ & Hdir & Hframe). unfold Beetle.wellFormed, Beetle.startRolling.
  cbn [Beetle.isRolling Beetle.isBiting Beetle.direction Beetle.currentFrame].
  split; [reflexivity|]. split; assumption.
Qed.

Lemma animateBiting_wellFormed (delta : spec_float) (b : Beetle.state) :
  Beetle.wellFormed b ->
  Beetle.wellFormed (Beetle.animateBiting textureExists delta b).
Proof.
  intros (Hmode & Hdir & Hframe).
  unfold Beetle.wellFormed, Beetle.animateBiting.
  destruct (SFleb _ _);
    cbn [Beetle.isRolling Beetle.isBiting Beetle.direction
         Beetle.currentFrame];
    (split; [exact Hmode|]); (split; [exact Hdir|]); [|exact Hframe].
  change (Z.of_nat (length Beetle.animationFrames)) with 4 in *.
  pose proof (Z.rem_bound_pos (Beetle.currentFrame b + 1) 4). lia.
Qed.

Lemma turnAtBounds_direction (x : spec_float) (b : Beetle.state) :
  Beetle.direction b = 1 \/ Beetle.direction b = -1 ->
  Beetle.turnAtBounds x b = 1 \/ Beetle.turnAtBounds x b = -1.
Proof.
  intros Hdir. unfold Beetle.turnAtBounds.
  destruct (SFleb _ _); [left; reflexivity|].
  destruct (SFleb _ _); [right; reflexivity | exact Hdir].
Qed.

Lemma update_wellFormed (x : spec_float) (delta : option spec_float)
    (random : spec_float) (b : Beetle.state) :
  Beetle.wellFormed b ->
  Beetle.wellFormed (Beetle.update textureExists x delta random b).
Proof.
  intros Hwf. pose proof Hwf as (Hmode & Hdir & Hframe).
  pose proof (turnAtBounds_direction x b Hdir) as Hturn.
  unfold Beetle.update.
  destruct delta as [d|]; [|exact Hwf].
  destruct (Beetle.noDelta (Some d)); [exact Hwf|].
  destruct (Beetle.isRolling b) eqn:Hrolling.
  - match goal with
    | |- Beetle.wellFormed (if ?c then Beetle.startBiting ?r else _) =>
        assert (Hrolled : Beetle.wellFormed r);
        [|destruct c; [apply startBiting_wellFormed|]; exact Hrolled]
    end.
    unfold Beetle.wellFormed.
    cbn [Beetle.isRolling Beetle.isBiting Beetle.direction
         Beetle.currentFrame].
    split; [exact Hmode|]. split; assumption.
  - destruct (Beetle.isBiting b) eqn:Hbiting.
    + match goal with
      | |- Beetle.wellFormed
             (if ?c then Beetle.startRolling _ _ ?a else _) =>
          assert (Hanimated : Beetle.wellFormed a);
          [|destruct c; [apply startRolling_wellFormed|]; exact Hanimated]
      end.
      match goal with
      | |- Beetle.wellFormed
             (if ?c then Beetle.animateBiting _ _ ?s else _) =>
          assert (Hstopped : Beetle.wellFormed s);
          [|destruct c; [apply animateBiting_wellFormed|]; exact Hstopped]
      end.
      unfold Beetle.wellFormed.
      cbn [Beetle.isRolling Beetle.isBiting Beetle.direction
           Beetle.currentFrame].
      split; [reflexivity|]. split; assumption.
    + cbn in Hmode. discriminate.
Qed.

Lemma perform_wellFormed (c : Beetle.call) (b : Beetle.state) :
  Beetle.wellFormed b -> Beetle.wellFormed (Beetle.perform textureExists c b).
Proof.
  intros Hwf. destruct c as [x delta random| |hasBody]; cbn [Beetle.perform].
  - apply update_wellFormed. exact Hwf.
  - destruct Hwf as (Hmode & Hdir & Hframe).
    unfold Beetle.wellFormed, Beetle.reverseDirection.
    cbn [Beetle.isRolling Beetle.isBiting Beetle.direction
         Beetle.currentFrame].
    split; [exact Hmode|]. split; [lia | exact Hframe].
  - unfold Beetle.squish. destruct (Beetle.isSquished b); [exact Hwf|].
    exact Hwf.
Qed.

(** X28. Whatever the game does with a beetle (updates at any position
    and with any time step, direction reversals, squishing), from its
    construction on the beetle is either rolling or biting and never both,
    its direction is 1 or -1, and [currentFrame] is an index of the four
    animation frames. *)
Theorem beetle_stays_wellFormed
    (calls : list Beetle.call) (left right r1 r2 r3 : spec_float) :
  Beetle.wellFormed
    (Beetle.performAll textureExists calls
       (Beetle.create left right r1 r2 r3)).
Proof.
  unfold Beetle.performAll.
  generalize (create_wellFormed left right r1 r2 r3).
  generalize (Beetle.create left right r1 r2 r3).
  induction calls as [|c calls IH]; intros b Hwf; cbn [fold_left];
    [exact Hwf|].
  apply IH, perform_wellFormed. exact Hwf.
Qed.

End BeetleFacts.

Section BeetleSquish.

Variable textureExists : string -> bool.

Lemma keepsSquish_refl (b : Beetle.state) : Beetle.keepsSquish b b.
Proof. split; reflexivity. Qed.

Lemma keepsSquish_trans (b1 b2 b3 : Beetle.state) :
  Beetle.keepsSquish b1 b2 -> Beetle.keepsSquish b2 b3 -> Beetle.keepsSquish b1 b3.
Proof. intros [H1 H2] [H3 H4]. split; congruence. Qed.

Lemma startBiting_keepsSquish (b : Beetle.state) :
  Beetle.keepsSquish b (Beetle.startBiting b).
Proof. split; reflexivity. Qed.

Lemma startRolling_keepsSquish (random : spec_float) (b : Beetle.state) :
  Beetle.keepsSquish b (Beetle.startRolling textureExists random b).
Proof.
  split; [reflexivity|]. unfold Beetle.startRolling. cbn [Beetle.requests].
  destruct (textureExists _); reflexivity.
Qed.

Lemma animateBiting_keepsSquish (delta : spec_float) (b : Beetle.state) :
  Beetle.keepsSquish b (Beetle.animateBiting textureExists delta b).
Proof.
  unfold Beetle.animateBiting.
  destruct (SFleb _ _); split; try reflexivity.
  cbn [Beetle.requests].
  destruct (Beetle.animationFrames !! _) as [key|]; [|reflexivity].
  destruct (textureExists key); reflexivity.
Qed.

Lemma update_keepsSquish (x : spec_float) (delta : option spec_float)
    (random : spec_float) (b : Beetle.state) :
  Beetle.keepsSquish b (Beetle.update textureExists x delta random b).
Proof.
  unfold Beetle.update.
  destruct delta as [d|]; [|apply keepsSquish_refl].
  destruct (Beetle.noDelta (Some d)); [apply keepsSquish_refl|].
  destruct (Beetle.isRolling b).
  - match goal with
    | |- Beetle.keepsSquish b (if ?c then Beetle.startBiting ?r else _) =>
        assert (Hrolled : Beetle.keepsSquish b r);
        [|destruct c;
          [eapply keepsSquish_trans;
           [exact Hrolled | apply startBiting_keepsSquish]
          | exact Hrolled]]
    end.
    split; [reflexivity|]. cbn [Beetle.requests].
    destruct (textureExists _); reflexivity.
  - destruct (Beetle.isBiting b); [|split; reflexivity].
    match goal with
    | |- Beetle.keepsSquish b (if ?c then Beetle.startRolling _ _ ?a else _) =>
        assert (Hanimated : Beetle.keepsSquish b a);
        [|destruct c;
          [eapply keepsSquish_trans;
           [exact Hanimated | apply startRolling_keepsSquish]
          | exact Hanimated]]
    end.
    match goal with
    | |- Beetle.keepsSquish b (if ?c then Beetle.animateBiting _ _ ?s else _) =>
        assert (Hstopped : Beetle.keepsSquish b s) by (split; reflexivity);
        destruct c;
          [eapply keepsSquish_trans;
           [exact Hstopped | apply animateBiting_keepsSquish]
          | exact Hstopped]
    end.
Qed.

Lemma perform_squish_count (c : Beetle.call) (b : Beetle.state) :
  Beetle.squishTweens (Beetle.requests b)
  = (if Beetle.isSquished b then 1 else 0)%nat ->
  Beetle.squishTweens (Beetle.requests (Beetle.perform textureExists c b))
  = (if Beetle.isSquished (Beetle.perform textureExists c b)
     then 1 else 0)%nat.
Proof.
  intros Hcount. destruct c as [x delta random| |hasBody];
    cbn [Beetle.perform].
  - destruct (update_keepsSquish x delta random b) as [-> ->]. exact Hcount.
  - unfold Beetle.reverseDirection.
    cbn [Beetle.requests Beetle.isSquished].
    destruct (Beetle.isRolling b); exact Hcount.
  - unfold Beetle.squish.
    destruct (Beetle.isSquished b) eqn:Hsquished.
    + rewrite Hsquished. exact Hcount.
    + cbn [Beetle.requests Beetle.isSquished Beetle.squishTweens].
      destruct hasBody; cbn [app Beetle.squishTweens]; rewrite Hcount;
        reflexivity.
Qed.

(** X29. Over any sequence of updates, reversals and [squish] calls on a
    new beetle, the squish tween (whose completion destroys the sprite) has
    been requested exactly once if the beetle is squished and not at all
    otherwise: a second [squish] requests nothing, and nothing ever
    un-squishes a beetle. *)
Theorem beetle_squished_once
    (calls : list Beetle.call) (left right r1 r2 r3 : spec_float) :
  Beetle.squishTweens
    (Beetle.requests
       (Beetle.performAll textureExists calls
          (Beetle.create left right r1 r2 r3)))
  = (if Beetle.isSquished
          (Beetle.performAll textureExists calls
             (Beetle.create left right r1 r2 r3))
     then 1 else 0)%nat /\
  (forall hasBody more,
     Beetle.isSquished
       (Beetle.performAll textureExists
          (calls ++ Beetle.Squish hasBody :: more)
          (Beetle.create left right r1 r2 r3)) = true).
Proof.
  assert (Hcount : forall calls b,
    Beetle.squishTweens (Beetle.requests b)
    = (if Beetle.isSquished b then 1 else 0)%nat ->
    Beetle.squishTweens
      (Beetle.requests (Beetle.performAll textureExists calls b))
    = (if Beetle.isSquished (Beetle.performAll textureExists calls b)
       then 1 else 0)%nat).
  { unfold Beetle.performAll.
    intros cs. induction cs as [|c cs IH]; intros b Hb; cbn [fold_left];
      [exact Hb|].
    apply IH, perform_squish_count. exact Hb. }
  assert (Hstays : forall calls b,
    Beetle.isSquished b = true ->
    Beetle.isSquished (Beetle.performAll textureExists calls b) = true).
  { unfold Beetle.performAll.
    intros cs. induction cs as [|c cs IH]; intros b Hb; cbn [fold_left];
      [exact Hb|].
    apply IH. destruct c as [x delta random| |hasBody]; cbn [Beetle.perform].
    - destruct (update_keepsSquish x delta random b) as [-> _]. exact Hb.
    - exact Hb.
    - unfold Beetle.squish. rewrite Hb. exact Hb. }
  split; [apply Hcount; reflexivity|].
  intros hasBody more. unfold Beetle.performAll.
  rewrite fold_left_app. cbn [fold_left Beetle.perform].
  apply Hstays.
  generalize (fold_left (fun b c => Beetle.perform textureExists c b) calls
                (Beetle.create left right r1 r2 r3)).
  intros b. unfold Beetle.squish.
  destruct (Beetle.isSquished b) eqn:Hsquished;
    [exact Hsquished | reflexivity].
Qed.

End BeetleSquish.

(** A beetle that rolls to its first bite: created with the draws 0.5, 0.7
    and 0 (so: heading right, first bite after 100 pixels), updated in
    steps of 500 ms far from the platform edges. *)
Example beetle_sample_run :
  let half := decimalLiteral 5 1 in
  let step := Beetle.Update (Float64.of_Z 300) (Some (Float64.of_Z 500))
                (Float64.of_Z 0) in
  let b0 := Beetle.create (Float64.of_Z 0) (Float64.of_Z 600)
              half (decimalLiteral 7 1) (Float64.of_Z 0) in
  let b2 := Beetle.performAll (fun _ => true) [step; step] b0 in
  let b3 := Beetle.performAll (fun _ => true) [step; step; step] b0 in
  Beetle.getDirection b0 = 1 /\
  Beetle.isRolling b2 = true /\
  Beetle.isBiting b3 = true /\
  Beetle.getDirection (Beetle.reverseDirection b3) = -1.
Proof. vm_compute. repeat split; reflexivity. Qed.
